(** * NCCL / CUDA allreduce operations of Horovod: a shallow embedding

    The development follows [horovod/common/ops/nccl_operations.cc],
    [cuda_operations.cc] and their headers.  C++ objects become records,
    member functions become computations in a small state-and-exception
    monad, and every call that leaves the engine (CUDA runtime, NCCL, the
    host channel, libc, the timeline, user callbacks) is appended to a
    trace. *)

From Stdlib Require Import ZArith String List Bool Lia.
From stdpp Require Import base option list gmap strings sorting.

Local Open Scope Z_scope.
#[local] Set Warnings "-clear-no-such-hyp".

(** ** Machine integers *)

(** Two's-complement wrap-around of a [w]-bit signed integer. *)
Definition wrap (w : Z) (z : Z) : Z := (z + 2 ^ (w - 1)) mod 2 ^ w - 2 ^ (w - 1).

(** C++ [int]. *)
Definition int32 (z : Z) : Z := wrap 32 z.
(** C++ [int64_t]. *)
Definition int64 (z : Z) : Z := wrap 64 z.
(** C++ [size_t] on an LP64 target. *)
Definition size_t (z : Z) : Z := z mod 2 ^ 64.

(** Unfold the bounds of the machine types so that [lia] sees numbers. *)
Ltac int_bounds :=
  change (2 ^ 31) with 2147483648 in *;
  change (2 ^ 63) with 9223372036854775808 in *;
  change (2 ^ 64) with 18446744073709551616 in *.

(** ** Element types *)

(** Modelled from the spec: the element-type enumeration [DataType] is
    declared in a header that is not among the sources covered here.  The
    sources name the five types NCCL accepts and [HOROVOD_BYTE]; the spec
    names INT8; [HOROVOD_OTHER] stands for any further enumerator, all of
    which reach the [default:] branch of the switch. *)
Inductive DataType : Type :=
| HOROVOD_INT8
| HOROVOD_INT32
| HOROVOD_INT64
| HOROVOD_FLOAT16
| HOROVOD_FLOAT32
| HOROVOD_FLOAT64
| HOROVOD_BYTE
| HOROVOD_OTHER (tag : Z).

Inductive ncclDataType_t : Type :=
| ncclInt32 | ncclInt64 | ncclFloat16 | ncclFloat32 | ncclFloat64.

Inductive ncclRedOp_t : Type := ncclSum.

(** ** Outcomes of a call *)

(** A call returns, throws [std::logic_error] carrying [what], or has
    undefined behaviour ([entries[0]] on an empty vector, an index outside
    a vector, a dereference of a member pointer never assigned). *)
Inductive Result (A : Type) : Type :=
| Ok (a : A)
| Throw (what : string)
| Undefined.
Arguments Ok {A} a.
Arguments Throw {A} what.
Arguments Undefined {A}.

(** The five element types the device collectives accept. *)
Definition nccl_supported (dtype : DataType) : bool :=
  match dtype with
  | HOROVOD_INT32 | HOROVOD_INT64 | HOROVOD_FLOAT16
  | HOROVOD_FLOAT32 | HOROVOD_FLOAT64 => true
  | _ => false
  end.

Section DataTypeName.

(** [DataType_Name] is defined in a file not covered here. *)
Variable DataType_Name : DataType -> string.

(** nccl_operations.cc, [GetNCCLDataType]. *)
Definition GetNCCLDataType (dtype : DataType) : Result ncclDataType_t :=
  match dtype with
  | HOROVOD_INT32 => Ok ncclInt32
  | HOROVOD_INT64 => Ok ncclInt64
  | HOROVOD_FLOAT16 => Ok ncclFloat16
  | HOROVOD_FLOAT32 => Ok ncclFloat32
  | HOROVOD_FLOAT64 => Ok ncclFloat64
  | _ => Throw ("Type " +:+ DataType_Name dtype +:+
                " is not supported in NCCL mode.")
  end.

End DataTypeName.

(** ** Tensor entries and the global state *)

Inductive Status : Type := Status_OK | Status_InProgress.

(** The fields of [TensorTableEntry] the operations read.  [tensor_data]
    and [output_data] are device addresses, [tensor_size] is the size of the
    tensor in bytes. *)
Record TensorTableEntry : Type := {
  tensor_name : string;
  tensor_dtype : DataType;
  tensor_data : Z;
  tensor_size : Z;
  output_data : Z;
  device : Z
}.

Record HorovodGlobalState : Type := {
  rank : Z;
  size : Z;
  local_rank : Z;
  local_size : Z;
  is_homogeneous : bool;
  local_comm_ranks : list Z;
  timeline_initialized : bool
}.

(** Modelled from the spec: the [CPU_DEVICE_ID] sentinel lives in a header
    not covered here; the spec's data model fixes it as -1
    ("a device id (-1 denotes host)"). *)
Definition CPU_DEVICE_ID : Z := -1.

(** ** Enabled *)

(** cuda_operations.cc, [CUDAAllreduce::Enabled]: [entries[0].device !=
    CPU_DEVICE_ID].  Neither the parameter manager nor the response is
    read.  [None] is the undefined [entries[0]] of an empty vector. *)
Definition CUDAAllreduce_Enabled (hierarchical_allreduce : bool)
    (entries : list TensorTableEntry) (response_devices : list Z)
    : option bool :=
  match entries with
  | [] => None
  | first_entry :: _ => Some (negb (device first_entry =? CPU_DEVICE_ID))
  end.

(** nccl_operations.cc, [NCCLHierarchicalAllreduce::Enabled];
    [hierarchical_allreduce] is [param_manager.HierarchicalAllreduce()]. *)
Definition NCCLHierarchicalAllreduce_Enabled (hierarchical_allreduce : bool)
    (entries : list TensorTableEntry) (response_devices : list Z)
    : option bool :=
  match CUDAAllreduce_Enabled hierarchical_allreduce entries response_devices with
  | None => None
  | Some false => Some false
  | Some true => Some hierarchical_allreduce
  end.

(** ** Device maps (communicator keys) *)

(** nccl_operations.cc, [NCCLAllreduce::GetDeviceMap]: the response's
    device list, unchanged. *)
Definition NCCLAllreduce_GetDeviceMap (devices : list Z) : list Z := devices.

(** [devices[rank]] on a [std::vector]: undefined outside the vector. *)
Definition vector_at (devices : list Z) (rank : Z) : option Z :=
  if rank <? 0 then None else devices !! Z.to_nat rank.

(** nccl_operations.cc, [NCCLHierarchicalAllreduce::GetDeviceMap]: one
    [push_back(devices[rank])] per element of [local_comm_ranks], in
    iteration order. *)
Fixpoint push_back_devices (devices : list Z) (ranks : list Z)
    (nccl_device_map : list Z) : option (list Z) :=
  match ranks with
  | [] => Some nccl_device_map
  | rank :: ranks' =>
      match vector_at devices rank with
      | None => None
      | Some d => push_back_devices devices ranks' (nccl_device_map ++ [d])
      end
  end.

Definition NCCLHierarchicalAllreduce_GetDeviceMap (gs : HorovodGlobalState)
    (devices : list Z) : option (list Z) :=
  push_back_devices devices (local_comm_ranks gs) [].

(** ** The split of the hierarchical allreduce *)

(** Lines 137-143 of nccl_operations.cc: the padding of [num_elements].
    [atom] is [FUSION_BUFFER_ATOMIC_UNIT], a macro of a header not covered
    here; [nentries] is [entries.size()].  [/] on integers is
    C++ division, truncating towards zero ([Z.quot]). *)
Definition padded_num_elements (atom : Z) (gs : HorovodGlobalState)
    (nentries : nat) (num_elements : Z) : Z :=
  if is_homogeneous gs && (1 <? Z.of_nat nentries) then
    let div := int32 (local_size gs * atom) in
    int64 (int64 (int64 (int64 (num_elements + div) - 1) ÷ div) * div)
  else num_elements.

(** Lines 157-160. *)
Definition num_elements_per_rank (gs : HorovodGlobalState) (num_elements : Z) : Z :=
  if is_homogeneous gs then int64 (num_elements ÷ local_size gs) else 0.

(** Lines 168-171. *)
Definition num_elements_remaining (gs : HorovodGlobalState) (num_elements : Z) : Z :=
  if is_homogeneous gs then Z.rem num_elements (local_size gs) else num_elements.

(** Lines 183-185. *)
Definition root_rank (gs : HorovodGlobalState) : Z :=
  if is_homogeneous gs then int32 (local_size gs - 1) else 0.

Definition is_root_rank (gs : HorovodGlobalState) : bool :=
  local_rank gs =? root_rank gs.

(** Lines 187-189. *)
Definition total_num_elements (gs : HorovodGlobalState) (num_elements : Z) : Z :=
  if is_root_rank gs
  then int64 (num_elements_per_rank gs num_elements
              + num_elements_remaining gs num_elements)
  else num_elements_per_rank gs num_elements.

(** ** The world outside the engine *)

(** Handles ([cudaStream_t], [cudaEvent_t], [ncclComm_t]) and raw pointers
    are addresses; [nullptr] is address 0. *)
Definition nullptr : Z := 0.

Inductive cudaError_t : Type := cudaSuccess | cudaError (code : Z).
Inductive ncclResult_t : Type := ncclSuccess | ncclError (code : Z).

Inductive cudaMemcpyKind : Type :=
| cudaMemcpyHostToDevice | cudaMemcpyDeviceToHost | cudaMemcpyDeviceToDevice.

(** [Channel::Communicator]. *)
Inductive Communicator : Type := GLOBAL | LOCAL | CROSS.

(** Flag values of the CUDA runtime headers. *)
Definition cudaEventBlockingSync : Z := 1.
Definition cudaEventDisableTiming : Z := 2.
Definition cudaStreamNonBlocking : Z := 1.

(** Every call that leaves the engine, with the arguments passed. *)
Inductive Call : Type :=
| cudaGetDevice
| cudaSetDevice (dev : Z)
| cudaEventCreateWithFlags (flags : Z)
| cudaEventRecord (event stream : Z)
| cudaEventSynchronize (event : Z)
| cudaDeviceGetStreamPriorityRange
| cudaStreamCreateWithPriority (flags priority : Z)
| cudaMemcpyAsync (dst src count : Z) (kind : cudaMemcpyKind) (stream : Z)
| malloc (bytes : Z)
| free (ptr : Z)
| ncclGetUniqueId
| ncclCommInitRank (nranks commId nccl_rank : Z)
| ncclAllReduce (sendbuff recvbuff count : Z) (dt : ncclDataType_t)
    (op : ncclRedOp_t) (comm stream : Z)
| ncclReduceScatter (sendbuff recvbuff recvcount : Z) (dt : ncclDataType_t)
    (op : ncclRedOp_t) (comm stream : Z)
| ncclReduce (sendbuff recvbuff count : Z) (dt : ncclDataType_t)
    (op : ncclRedOp_t) (root comm stream : Z)
| ncclAllGather (sendbuff recvbuff sendcount : Z) (dt : ncclDataType_t)
    (comm stream : Z)
| ncclBcast (buff count : Z) (dt : ncclDataType_t) (root comm stream : Z)
| Channel_Broadcast (bytes : Z) (dtype : DataType) (root : Z) (comm : Communicator)
| Channel_Barrier (comm : Communicator)
| Channel_Allreduce (buffer num_elements : Z) (first_entry : TensorTableEntry)
    (comm : Communicator)
| Timeline_ActivityStartAll (activity : string)
| Timeline_ActivityEndAll
| Timeline_End (name : string)
| entry_callback (name : string) (status : Status).

(** The five device collectives. *)
Definition is_device_collective (c : Call) : bool :=
  match c with
  | ncclAllReduce _ _ _ _ _ _ _ | ncclReduceScatter _ _ _ _ _ _ _
  | ncclReduce _ _ _ _ _ _ _ _ | ncclAllGather _ _ _ _ _ _
  | ncclBcast _ _ _ _ _ _ => true
  | _ => false
  end.

Definition device_collectives (calls : list Call) : list Call :=
  List.filter is_device_collective calls.

(** Calls that put work on a CUDA stream. *)
Definition is_stream_work (c : Call) : bool :=
  match c with
  | cudaMemcpyAsync _ _ _ _ _ | cudaEventRecord _ _ => true
  | _ => is_device_collective c
  end.

Definition is_callback (c : Call) : bool :=
  match c with entry_callback _ _ => true | _ => false end.

(** Event and timeline bookkeeping, as opposed to the data path. *)
Definition is_bookkeeping (c : Call) : bool :=
  match c with
  | cudaGetDevice | cudaEventCreateWithFlags _ | cudaEventRecord _ _
  | cudaEventSynchronize _ | Timeline_ActivityStartAll _
  | Timeline_ActivityEndAll | Timeline_End _ => true
  | _ => false
  end.

Definition data_path (calls : list Call) : list Call :=
  List.filter (fun c => negb (is_bookkeeping c)) calls.

(** What the outside world answers.  The [n]-th call of a run (counting
    from 0) gets the status, the handle and the value found at index [n];
    any pattern of failures can be expressed. *)
Record Runtime : Type := {
  cuda_status : nat -> cudaError_t;
  nccl_status : nat -> ncclResult_t;
  (** the event, stream, communicator or heap block a creating call yields *)
  new_handle : nat -> Z;
  (** the value a querying call yields: a stream priority, a unique id,
      the bytes received by a broadcast *)
  new_value : nat -> Z;
  (** [Channel::GetTypeSize] *)
  type_size : DataType -> Z;
  cudaGetErrorString : cudaError_t -> string;
  ncclGetErrorString : ncclResult_t -> string
}.

(** The captures of the detached finalizer thread of [Finalize]. *)
Record Finalizer : Type := {
  fin_entries : list TensorTableEntry;
  fin_first_entry : TensorTableEntry;
  fin_host_buffer : Z
}.

(** [CUDAContext], [NCCLContext], the data members of the allreduce op,
    and the observable history.  A [std::queue] is a list with its front
    at the head.  [stream_] and [nccl_comm_] point into the maps and are
    kept as the key of the slot they point to ([None] before the first
    assignment). *)
Record State : Type := {
  streams : gmap Z Z;
  cuda_events : gmap Z (list Z);
  nccl_comms : gmap (list Z) Z;
  event_queue_ : list (string * Z);
  stream_ : option Z;
  host_buffer_ : Z;
  nccl_comm_ : option (list Z);
  (** the calling thread's current CUDA device *)
  current_device : Z;
  (** detached finalizer threads not yet run *)
  threads : list Finalizer;
  trace : list Call
}.

Definition set_streams (f : gmap Z Z -> gmap Z Z) (s : State) : State :=
  {| streams := f (streams s); cuda_events := cuda_events s;
     nccl_comms := nccl_comms s; event_queue_ := event_queue_ s;
     stream_ := stream_ s; host_buffer_ := host_buffer_ s;
     nccl_comm_ := nccl_comm_ s; current_device := current_device s;
     threads := threads s; trace := trace s |}.

Definition set_cuda_events (f : gmap Z (list Z) -> gmap Z (list Z)) (s : State) : State :=
  {| streams := streams s; cuda_events := f (cuda_events s);
     nccl_comms := nccl_comms s; event_queue_ := event_queue_ s;
     stream_ := stream_ s; host_buffer_ := host_buffer_ s;
     nccl_comm_ := nccl_comm_ s; current_device := current_device s;
     threads := threads s; trace := trace s |}.

Definition set_nccl_comms (f : gmap (list Z) Z -> gmap (list Z) Z) (s : State) : State :=
  {| streams := streams s; cuda_events := cuda_events s;
     nccl_comms := f (nccl_comms s); event_queue_ := event_queue_ s;
     stream_ := stream_ s; host_buffer_ := host_buffer_ s;
     nccl_comm_ := nccl_comm_ s; current_device := current_device s;
     threads := threads s; trace := trace s |}.

Definition set_event_queue_ (q : list (string * Z)) (s : State) : State :=
  {| streams := streams s; cuda_events := cuda_events s;
     nccl_comms := nccl_comms s; event_queue_ := q;
     stream_ := stream_ s; host_buffer_ := host_buffer_ s;
     nccl_comm_ := nccl_comm_ s; current_device := current_device s;
     threads := threads s; trace := trace s |}.

Definition set_stream_ (k : option Z) (s : State) : State :=
  {| streams := streams s; cuda_events := cuda_events s;
     nccl_comms := nccl_comms s; event_queue_ := event_queue_ s;
     stream_ := k; host_buffer_ := host_buffer_ s;
     nccl_comm_ := nccl_comm_ s; current_device := current_device s;
     threads := threads s; trace := trace s |}.

Definition set_host_buffer_ (p : Z) (s : State) : State :=
  {| streams := streams s; cuda_events := cuda_events s;
     nccl_comms := nccl_comms s; event_queue_ := event_queue_ s;
     stream_ := stream_ s; host_buffer_ := p;
     nccl_comm_ := nccl_comm_ s; current_device := current_device s;
     threads := threads s; trace := trace s |}.

Definition set_nccl_comm_ (k : option (list Z)) (s : State) : State :=
  {| streams := streams s; cuda_events := cuda_events s;
     nccl_comms := nccl_comms s; event_queue_ := event_queue_ s;
     stream_ := stream_ s; host_buffer_ := host_buffer_ s;
     nccl_comm_ := k; current_device := current_device s;
     threads := threads s; trace := trace s |}.

Definition set_current_device (d : Z) (s : State) : State :=
  {| streams := streams s; cuda_events := cuda_events s;
     nccl_comms := nccl_comms s; event_queue_ := event_queue_ s;
     stream_ := stream_ s; host_buffer_ := host_buffer_ s;
     nccl_comm_ := nccl_comm_ s; current_device := d;
     threads := threads s; trace := trace s |}.

Definition set_threads (f : list Finalizer -> list Finalizer) (s : State) : State :=
  {| streams := streams s; cuda_events := cuda_events s;
     nccl_comms := nccl_comms s; event_queue_ := event_queue_ s;
     stream_ := stream_ s; host_buffer_ := host_buffer_ s;
     nccl_comm_ := nccl_comm_ s; current_device := current_device s;
     threads := f (threads s); trace := trace s |}.

Definition log (c : Call) (s : State) : State :=
  {| streams := streams s; cuda_events := cuda_events s;
     nccl_comms := nccl_comms s; event_queue_ := event_queue_ s;
     stream_ := stream_ s; host_buffer_ := host_buffer_ s;
     nccl_comm_ := nccl_comm_ s; current_device := current_device s;
     threads := threads s; trace := trace s ++ [c] |}.

(** A process that has not touched the engine yet. *)
Definition initial_state : State :=
  {| streams := ∅; cuda_events := ∅; nccl_comms := ∅; event_queue_ := [];
     stream_ := None; host_buffer_ := nullptr; nccl_comm_ := None;
     current_device := 0; threads := []; trace := [] |}.

(** ** The monad of member functions *)

Definition M (A : Type) : Type := State -> Result A * State.

Definition ret {A} (a : A) : M A := fun s => (Ok a, s).

Definition bind {A B} (c : M A) (k : A -> M B) : M B :=
  fun s =>
    match c s with
    | (Ok a, s') => k a s'
    | (Throw what, s') => (Throw what, s')
    | (Undefined, s') => (Undefined, s')
    end.

Notation "x <- c ;; k" := (bind c (fun x => k))
  (at level 100, c at next level, right associativity).
Notation "c ;;; k" := (bind c (fun _ => k))
  (at level 100, right associativity).

Definition throw {A} (what : string) : M A := fun s => (Throw what, s).
Definition undefined {A} : M A := fun s => (Undefined, s).
Definition gets {A} (f : State -> A) : M A := fun s => (Ok (f s), s).
Definition modify (f : State -> State) : M unit := fun s => (Ok tt, f s).

(** A pure computation that may throw. *)
Definition lift {A} (r : Result A) : M A := fun s => (r, s).

(** A partial operation, undefined where it yields nothing. *)
Definition defined {A} (o : option A) : M A :=
  match o with Some a => ret a | None => undefined end.

(** Issue a call; the answer is the runtime's entry for its position. *)
Definition call (c : Call) : M nat :=
  fun s => (Ok (length (trace s)), log c s).

(** [entries[0]]. *)
Definition front (entries : list TensorTableEntry) : M TensorTableEntry :=
  defined (head entries).

(** ** Stage names *)

(** The activity-name macros come from a header not covered here.  Each
    stands for a non-empty string literal; the spec spells the flat stage
    "NCCL_ALLREDUCE", and the others are spelled like their macro. *)

(** Modelled from the spec: the macro [QUEUE], a stage name. *)
Definition QUEUE : string := "QUEUE".

(** Modelled from the spec: the macro [INIT_NCCL], a stage name. *)
Definition INIT_NCCL : string := "INIT_NCCL".

(** Modelled from the spec: the macro [NCCL_ALLREDUCE], a stage name. *)
Definition NCCL_ALLREDUCE : string := "NCCL_ALLREDUCE".

(** Modelled from the spec: the macro [NCCL_REDUCESCATTER], a stage name. *)
Definition NCCL_REDUCESCATTER : string := "NCCL_REDUCESCATTER".

(** Modelled from the spec: the macro [NCCL_REDUCE], a stage name. *)
Definition NCCL_REDUCE : string := "NCCL_REDUCE".

(** Modelled from the spec: the macro [NCCL_ALLGATHER], a stage name. *)
Definition NCCL_ALLGATHER : string := "NCCL_ALLGATHER".

(** Modelled from the spec: the macro [NCCL_BCAST], a stage name. *)
Definition NCCL_BCAST : string := "NCCL_BCAST".

(** Modelled from the spec: the macro [MEMCPY_IN_HOST_BUFFER], a stage name. *)
Definition MEMCPY_IN_HOST_BUFFER : string := "MEMCPY_IN_HOST_BUFFER".

(** Modelled from the spec: the macro [MPI_ALLREDUCE], a stage name. *)
Definition MPI_ALLREDUCE : string := "MPI_ALLREDUCE".

(** Modelled from the spec: the macro [MEMCPY_OUT_HOST_BUFFER], a stage name. *)
Definition MEMCPY_OUT_HOST_BUFFER : string := "MEMCPY_OUT_HOST_BUFFER".

(** [sizeof(ncclUniqueId)]. *)
Definition sizeof_ncclUniqueId : Z := 128.

(** The two strategies; member functions the classes override dispatch on
    the dynamic type. *)
Inductive Strategy : Type := NCCLAllreduce | NCCLHierarchicalAllreduce.

Section Engine.

Variable DataType_Name : DataType -> string.
(** [FUSION_BUFFER_ATOMIC_UNIT] *)
Variable atom : Z.
Variable rt : Runtime.
Variable gs : HorovodGlobalState.

(** *** CUDAContext *)

Definition cuda_call (c : Call) : M cudaError_t :=
  n <- call c ;; ret (cuda_status rt n).

Definition nccl_call (c : Call) : M ncclResult_t :=
  n <- call c ;; ret (nccl_status rt n).

(** [CUDAContext::ErrorCheck]. *)
Definition CUDAContext_ErrorCheck (op_name : string) (cuda_result : cudaError_t)
    : M unit :=
  match cuda_result with
  | cudaSuccess => ret tt
  | _ => throw (op_name +:+ " failed: " +:+ cudaGetErrorString rt cuda_result)
  end.

(** [NCCLContext::ErrorCheck]. *)
Definition NCCLContext_ErrorCheck (op_name : string) (nccl_result : ncclResult_t)
    : M unit :=
  match nccl_result with
  | ncclSuccess => ret tt
  | _ => throw (op_name +:+ " failed: " +:+ ncclGetErrorString rt nccl_result)
  end.

(** [cuda_events[device]]: [operator[]] of [std::unordered_map] inserts an
    empty queue under a key it does not hold. *)
Definition cuda_events_at (dev : Z) : M (list Z) :=
  fun s =>
    match cuda_events s !! dev with
    | Some queue => (Ok queue, s)
    | None => (Ok [], set_cuda_events (insert dev []) s)
    end.

(** [streams[device]], likewise with a null stream. *)
Definition streams_at (dev : Z) : M Z :=
  fun s =>
    match streams s !! dev with
    | Some stream => (Ok stream, s)
    | None => (Ok nullptr, set_streams (insert dev nullptr) s)
    end.

(** [nccl_comms[nccl_device_map]], likewise with a null communicator. *)
Definition nccl_comms_at (key : list Z) : M Z :=
  fun s =>
    match nccl_comms s !! key with
    | Some comm => (Ok comm, s)
    | None => (Ok nullptr, set_nccl_comms (insert key nullptr) s)
    end.

(** [cudaGetDevice(&device)]: the status and the calling thread's device. *)
Definition cudaGetDevice_ : M (cudaError_t * Z) :=
  status <- cuda_call cudaGetDevice ;;
  dev <- gets current_device ;;
  ret (status, dev).

(** [cudaSetDevice(device)]. *)
Definition cudaSetDevice_ (dev : Z) : M cudaError_t :=
  status <- cuda_call (cudaSetDevice dev) ;;
  match status with
  | cudaSuccess => modify (set_current_device dev) ;;; ret status
  | _ => ret status
  end.

(** [CUDAContext::GetCudaEvent]: the status and the event stored through
    the out-parameter ([nullptr] stands for "nothing stored").  The pool
    is read at [front()] and shortened by [pop()].  The single mutex
    serialises the pool accesses and is not modelled. *)
Definition GetCudaEvent : M (cudaError_t * Z) :=
  sd <- cudaGetDevice_ ;;
  match fst sd with
  | cudaSuccess =>
      queue <- cuda_events_at (snd sd) ;;
      match queue with
      | event :: rest =>
          modify (set_cuda_events (insert (snd sd) rest)) ;;;
          ret (cudaSuccess, event)
      | [] =>
          n <- call (cudaEventCreateWithFlags
                       (Z.lor cudaEventBlockingSync cudaEventDisableTiming)) ;;
          match cuda_status rt n with
          | cudaSuccess => ret (cudaSuccess, new_handle rt n)
          | status => ret (status, nullptr)
          end
      end
  | status => ret (status, nullptr)
  end.

(** [CUDAContext::ReleaseCudaEvent]: [queue.push(event)] appends at the
    back of the pool of the current device. *)
Definition ReleaseCudaEvent (event : Z) : M cudaError_t :=
  sd <- cudaGetDevice_ ;;
  match fst sd with
  | cudaSuccess =>
      queue <- cuda_events_at (snd sd) ;;
      modify (set_cuda_events (insert (snd sd) (queue ++ [event]))) ;;;
      ret cudaSuccess
  | status => ret status
  end.

(** [CUDAContext::RecordEvent], on the op's [event_queue_]. *)
Definition RecordEvent (name : string) (stream : Z) : M unit :=
  se <- GetCudaEvent ;;
  CUDAContext_ErrorCheck "GetCudaEvent" (fst se) ;;;
  status <- cuda_call (cudaEventRecord (snd se) stream) ;;
  CUDAContext_ErrorCheck "cudaEventRecord" status ;;;
  modify (fun s => set_event_queue_ (event_queue_ s ++ [(name, snd se)]) s).

(** The loop of [CUDAContext::WaitForEvents], unrolled along the queue
    found on entry: an iteration pops the front and pushes nothing. *)
Fixpoint WaitForEvents_loop (queue : list (string * Z)) : M unit :=
  match queue with
  | [] => ret tt
  | (name, event) :: rest =>
      modify (set_event_queue_ rest) ;;;
      (if (name =? "")%string then ret tt
       else _ <- call (Timeline_ActivityStartAll name) ;; ret tt) ;;;
      status <- cuda_call (cudaEventSynchronize event) ;;
      CUDAContext_ErrorCheck "cudaEventSynchronize" status ;;;
      (if (name =? "")%string then ret tt
       else _ <- call Timeline_ActivityEndAll ;; ret tt) ;;;
      status <- ReleaseCudaEvent event ;;
      CUDAContext_ErrorCheck "ReleaseCudaEvent" status ;;;
      WaitForEvents_loop rest
  end.

Definition WaitForEvents : M unit :=
  queue <- gets event_queue_ ;; WaitForEvents_loop queue.

(** *** CUDAAllreduce *)

(** [CUDAAllreduce::InitCUDA]. *)
Definition InitCUDA (entries : list TensorTableEntry) : M unit :=
  first_entry <- front entries ;;
  status <- cudaSetDevice_ (device first_entry) ;;
  CUDAContext_ErrorCheck "cudaSetDevice" status ;;;
  stream <- streams_at (device first_entry) ;;
  if stream =? nullptr then
    n <- call cudaDeviceGetStreamPriorityRange ;;
    CUDAContext_ErrorCheck "cudaDeviceGetStreamPriorityRange" (cuda_status rt n) ;;;
    let greatest_priority := new_value rt n in
    m <- call (cudaStreamCreateWithPriority cudaStreamNonBlocking greatest_priority) ;;
    match cuda_status rt m with
    | cudaSuccess =>
        modify (set_streams (insert (device first_entry) (new_handle rt m)))
    | status => CUDAContext_ErrorCheck "cudaStreamCreateWithPriority" status
    end
  else ret tt.

(** [CUDAAllreduce::MemcpyInFusionBuffer]. *)
Definition MemcpyInFusionBuffer (buffer_data_at_offset : Z) (e : TensorTableEntry)
    (entries : list TensorTableEntry) : M unit :=
  first_entry <- front entries ;;
  stream <- streams_at (device first_entry) ;;
  cuda_result <- cuda_call (cudaMemcpyAsync buffer_data_at_offset (tensor_data e)
                              (size_t (tensor_size e)) cudaMemcpyDeviceToDevice stream) ;;
  CUDAContext_ErrorCheck "cudaMemcpyAsync" cuda_result.

(** [CUDAAllreduce::MemcpyOutFusionBuffer]. *)
Definition MemcpyOutFusionBuffer (buffer_data_at_offset : Z) (e : TensorTableEntry)
    (entries : list TensorTableEntry) : M unit :=
  first_entry <- front entries ;;
  stream <- streams_at (device first_entry) ;;
  cuda_result <- cuda_call (cudaMemcpyAsync (output_data e) buffer_data_at_offset
                              (size_t (tensor_size e)) cudaMemcpyDeviceToDevice stream) ;;
  CUDAContext_ErrorCheck "cudaMemcpyAsync" cuda_result.

(** *** Communicators *)

(** Virtual [GetDeviceMap]. *)
Definition GetDeviceMap (strategy : Strategy) (devices : list Z) : option (list Z) :=
  match strategy with
  | NCCLAllreduce => Some (NCCLAllreduce_GetDeviceMap devices)
  | NCCLHierarchicalAllreduce => NCCLHierarchicalAllreduce_GetDeviceMap gs devices
  end.

(** Virtual [PopulateCommStrategy]: [(nccl_rank, nccl_size,
    nccl_id_bcast_comm)]. *)
Definition PopulateCommStrategy (strategy : Strategy) : Z * Z * Communicator :=
  match strategy with
  | NCCLAllreduce => (rank gs, size gs, GLOBAL)
  | NCCLHierarchicalAllreduce => (local_rank gs, local_size gs, LOCAL)
  end.

(** The build protocol: the body of [if (nccl_comm == nullptr)] in
    [NCCLAllreduce::InitComm].  The id a non-zero rank holds after the
    broadcast is what the channel delivered. *)
Definition build_comm (strategy : Strategy) (nccl_device_map : list Z) : M unit :=
  _ <- call (Timeline_ActivityStartAll INIT_NCCL) ;;
  let '(nccl_rank, nccl_size, nccl_id_bcast_comm) := PopulateCommStrategy strategy in
  own_id <- (if nccl_rank =? 0 then
               n <- call ncclGetUniqueId ;;
               NCCLContext_ErrorCheck "ncclGetUniqueId" (nccl_status rt n) ;;;
               ret (new_value rt n)
             else ret 0) ;;
  b <- call (Channel_Broadcast sizeof_ncclUniqueId HOROVOD_BYTE 0 nccl_id_bcast_comm) ;;
  let nccl_id := if nccl_rank =? 0 then own_id else new_value rt b in
  n <- call (ncclCommInitRank nccl_size nccl_id nccl_rank) ;;
  NCCLContext_ErrorCheck "ncclCommInitRank" (nccl_status rt n) ;;;
  modify (set_nccl_comms (insert nccl_device_map (new_handle rt n))) ;;;
  _ <- call (Channel_Barrier GLOBAL) ;;
  _ <- call Timeline_ActivityEndAll ;;
  ret tt.

(** [NCCLAllreduce::InitComm]. *)
Definition InitComm (strategy : Strategy) (entries : list TensorTableEntry)
    (devices : list Z) : M unit :=
  nccl_device_map <- defined (GetDeviceMap strategy devices) ;;
  nccl_comm <- nccl_comms_at nccl_device_map ;;
  (if nccl_comm =? nullptr then build_comm strategy nccl_device_map else ret tt) ;;;
  modify (set_nccl_comm_ (Some nccl_device_map)).

(** [*stream_] and [*nccl_comm_]. *)
Definition deref_stream_ : M Z :=
  fun s =>
    match stream_ s with
    | Some dev => defined (streams s !! dev) s
    | None => (Undefined, s)
    end.

Definition deref_nccl_comm_ : M Z :=
  fun s =>
    match nccl_comm_ s with
    | Some key => defined (nccl_comms s !! key) s
    | None => (Undefined, s)
    end.

(** *** CUDAAllreduceAsync *)

(** [CUDAAllreduce::Initialize] followed by the body of
    [CUDAAllreduceAsync::Initialize]; [first_entry] there is
    [entries[0]]. *)
Definition Initialize (strategy : Strategy) (entries : list TensorTableEntry)
    (response_devices : list Z) : M unit :=
  InitCUDA entries ;;;
  InitComm strategy entries response_devices ;;;
  modify (set_event_queue_ []) ;;;
  first_entry <- front entries ;;
  _ <- streams_at (device first_entry) ;;
  modify (set_stream_ (Some (device first_entry))) ;;;
  modify (set_host_buffer_ nullptr) ;;;
  if timeline_initialized gs then
    stream <- deref_stream_ ;; RecordEvent QUEUE stream
  else ret tt.

(** [CUDAAllreduceAsync::RecordEventEnd]; the stream recorded on is the
    op's. *)
Definition RecordEventEnd (event_name : string) (entries : list TensorTableEntry)
    : M unit :=
  if timeline_initialized gs then
    stream <- deref_stream_ ;; RecordEvent event_name stream
  else ret tt.

(** The loop over the entries that ends the finalizer thread. *)
Fixpoint finalizer_callbacks (entries : list TensorTableEntry) : M unit :=
  match entries with
  | [] => ret tt
  | e :: rest =>
      _ <- call (Timeline_End (tensor_name e)) ;;
      _ <- call (entry_callback (tensor_name e) Status_OK) ;;
      finalizer_callbacks rest
  end.

(** The body of the detached finalizer thread of [Finalize], over its
    captures; the queue it drains is the op's [event_queue_], as the lambda
    names it. *)
Definition finalizer_thread (f : Finalizer) : M unit :=
  cuda_result <- cudaSetDevice_ (device (fin_first_entry f)) ;;
  CUDAContext_ErrorCheck "cudaSetDevice" cuda_result ;;;
  WaitForEvents ;;;
  (if fin_host_buffer f =? nullptr then ret tt
   else _ <- call (free (fin_host_buffer f)) ;; ret tt) ;;;
  finalizer_callbacks (fin_entries f).

(** [CUDAAllreduceAsync::Finalize]: the thread is recorded as spawned and
    runs later. *)
Definition Finalize (entries : list TensorTableEntry) : M Status :=
  stream <- deref_stream_ ;;
  RecordEvent "" stream ;;;
  first_entry <- front entries ;;
  host_buffer <- gets host_buffer_ ;;
  modify (set_threads (fun ts => ts ++
    [{| fin_entries := entries; fin_first_entry := first_entry;
        fin_host_buffer := host_buffer |}])) ;;;
  ret Status_InProgress.

(** A thread has its own current device, device 0 when it starts; the
    caller's is untouched. *)
Definition in_new_thread {A} (body : M A) : M A :=
  fun s =>
    let (r, s') := body (set_current_device 0 s) in
    (r, set_current_device (current_device s) s').

(** Run the oldest detached finalizer to completion. *)
Definition run_finalizer : M unit :=
  ts <- gets threads ;;
  match ts with
  | [] => ret tt
  | f :: rest =>
      modify (set_threads (fun _ => rest)) ;;;
      in_new_thread (finalizer_thread f)
  end.

(** *** NCCLAllreduce *)

(** [NCCLAllreduce::DoAllreduce].  [num_elements] and [buffer_len] are
    reference parameters; their final values are returned.  The data
    type is an argument of the collective, so it is evaluated (and may
    throw) before the collective is entered. *)
Definition NCCLAllreduce_DoAllreduce (entries : list TensorTableEntry)
    (fused_input_data buffer_data num_elements buffer_len : Z) : M (Z * Z) :=
  first_entry <- front entries ;;
  dt <- lift (GetNCCLDataType DataType_Name (tensor_dtype first_entry)) ;;
  comm <- deref_nccl_comm_ ;;
  stream <- deref_stream_ ;;
  nccl_result <- nccl_call (ncclAllReduce fused_input_data buffer_data
                              (size_t num_elements) dt ncclSum comm stream) ;;
  NCCLContext_ErrorCheck "ncclAllReduce" nccl_result ;;;
  RecordEventEnd NCCL_ALLREDUCE entries ;;;
  ret (num_elements, buffer_len).

(** *** NCCLHierarchicalAllreduce *)

(** The byte counts and addresses computed on lines 162-192;
    [element_size] is what [GetTypeSize] stored. *)
Definition buffer_len_per_rank (element_size num_elements : Z) : Z :=
  size_t (int64 (element_size * num_elements_per_rank gs num_elements)).

Definition buffer_data_at_rank_offset (element_size buffer_data num_elements : Z) : Z :=
  buffer_data
  + size_t (buffer_len_per_rank element_size num_elements * size_t (local_rank gs)).

Definition buffer_len_remaining (element_size num_elements : Z) : Z :=
  size_t (int64 (element_size * num_elements_remaining gs num_elements)).

(** Offset of [buffer_data_remainder] and [fused_input_data_remainder]. *)
Definition remainder_offset (element_size num_elements : Z) : Z :=
  size_t (buffer_len_per_rank element_size num_elements * size_t (local_size gs)).

Definition total_buffer_len (element_size num_elements : Z) : Z :=
  if is_root_rank gs
  then size_t (buffer_len_per_rank element_size num_elements
               + buffer_len_remaining element_size num_elements)
  else buffer_len_per_rank element_size num_elements.

(** Lines 195-203. *)
Definition reduce_scatter_phase (entries : list TensorTableEntry)
    (first_entry : TensorTableEntry) (fused_input_data at_rank_offset per_rank : Z)
    : M unit :=
  if per_rank >? 0 then
    dt <- lift (GetNCCLDataType DataType_Name (tensor_dtype first_entry)) ;;
    comm <- deref_nccl_comm_ ;;
    stream <- deref_stream_ ;;
    nccl_result <- nccl_call (ncclReduceScatter fused_input_data at_rank_offset
                                (size_t per_rank) dt ncclSum comm stream) ;;
    NCCLContext_ErrorCheck "ncclReduceScatter" nccl_result ;;;
    RecordEventEnd NCCL_REDUCESCATTER entries
  else ret tt.

(** Lines 205-215. *)
Definition reduce_phase (entries : list TensorTableEntry)
    (first_entry : TensorTableEntry)
    (fused_input_data_remainder buffer_data_remainder remaining : Z) : M unit :=
  if remaining >? 0 then
    dt <- lift (GetNCCLDataType DataType_Name (tensor_dtype first_entry)) ;;
    comm <- deref_nccl_comm_ ;;
    stream <- deref_stream_ ;;
    nccl_result <- nccl_call (ncclReduce fused_input_data_remainder
                                buffer_data_remainder (size_t remaining) dt ncclSum
                                (root_rank gs) comm stream) ;;
    NCCLContext_ErrorCheck "ncclReduce" nccl_result ;;;
    RecordEventEnd NCCL_REDUCE entries
  else ret tt.

(** Lines 217-247. *)
Definition cross_node_phase (entries : list TensorTableEntry)
    (first_entry : TensorTableEntry) (at_rank_offset total_elements total_len : Z)
    : M unit :=
  if is_homogeneous gs || is_root_rank gs then
    n <- call (malloc total_len) ;;
    modify (set_host_buffer_ (new_handle rt n)) ;;;
    WaitForEvents ;;;
    _ <- call (Timeline_ActivityStartAll MEMCPY_IN_HOST_BUFFER) ;;
    host_buffer <- gets host_buffer_ ;;
    stream <- deref_stream_ ;;
    cuda_result <- cuda_call (cudaMemcpyAsync host_buffer at_rank_offset total_len
                                cudaMemcpyDeviceToHost stream) ;;
    CUDAContext_ErrorCheck "cudaMemcpyAsync" cuda_result ;;;
    _ <- call Timeline_ActivityEndAll ;;
    _ <- call (Timeline_ActivityStartAll MPI_ALLREDUCE) ;;
    _ <- call (Channel_Allreduce host_buffer total_elements first_entry CROSS) ;;
    _ <- call Timeline_ActivityEndAll ;;
    _ <- call (Timeline_ActivityStartAll MEMCPY_OUT_HOST_BUFFER) ;;
    cuda_result <- cuda_call (cudaMemcpyAsync at_rank_offset host_buffer total_len
                                cudaMemcpyHostToDevice stream) ;;
    CUDAContext_ErrorCheck "cudaMemcpyAsync" cuda_result ;;;
    _ <- call Timeline_ActivityEndAll ;;
    ret tt
  else ret tt.

(** Lines 249-256. *)
Definition allgather_phase (entries : list TensorTableEntry)
    (first_entry : TensorTableEntry) (at_rank_offset buffer_data per_rank : Z)
    : M unit :=
  if per_rank >? 0 then
    dt <- lift (GetNCCLDataType DataType_Name (tensor_dtype first_entry)) ;;
    comm <- deref_nccl_comm_ ;;
    stream <- deref_stream_ ;;
    nccl_result <- nccl_call (ncclAllGather at_rank_offset buffer_data
                                (size_t per_rank) dt comm stream) ;;
    NCCLContext_ErrorCheck "ncclAllGather" nccl_result ;;;
    RecordEventEnd NCCL_ALLGATHER entries
  else ret tt.

(** Lines 257-264. *)
Definition bcast_phase (entries : list TensorTableEntry)
    (first_entry : TensorTableEntry) (buffer_data_remainder remaining : Z) : M unit :=
  if remaining >? 0 then
    dt <- lift (GetNCCLDataType DataType_Name (tensor_dtype first_entry)) ;;
    comm <- deref_nccl_comm_ ;;
    stream <- deref_stream_ ;;
    nccl_result <- nccl_call (ncclBcast buffer_data_remainder (size_t remaining) dt
                                (root_rank gs) comm stream) ;;
    NCCLContext_ErrorCheck "ncclBcast" nccl_result ;;;
    RecordEventEnd NCCL_BCAST entries
  else ret tt.

(** [NCCLHierarchicalAllreduce::DoAllreduce]. *)
Definition NCCLHierarchicalAllreduce_DoAllreduce (entries : list TensorTableEntry)
    (fused_input_data buffer_data num_elements0 buffer_len0 : Z) : M (Z * Z) :=
  first_entry <- front entries ;;
  let element_size := type_size rt (tensor_dtype first_entry) in
  let num_elements := padded_num_elements atom gs (length entries) num_elements0 in
  let buffer_len :=
    if is_homogeneous gs && (1 <? Z.of_nat (length entries))
    then size_t (int64 (num_elements * element_size)) else buffer_len0 in
  let per_rank := num_elements_per_rank gs num_elements in
  let at_rank_offset := buffer_data_at_rank_offset element_size buffer_data num_elements in
  let remaining := num_elements_remaining gs num_elements in
  let buffer_data_remainder := buffer_data + remainder_offset element_size num_elements in
  let fused_input_data_remainder :=
    fused_input_data + remainder_offset element_size num_elements in
  reduce_scatter_phase entries first_entry fused_input_data at_rank_offset per_rank ;;;
  reduce_phase entries first_entry fused_input_data_remainder buffer_data_remainder
    remaining ;;;
  cross_node_phase entries first_entry at_rank_offset
    (total_num_elements gs num_elements) (total_buffer_len element_size num_elements) ;;;
  allgather_phase entries first_entry at_rank_offset buffer_data per_rank ;;;
  bcast_phase entries first_entry buffer_data_remainder remaining ;;;
  ret (num_elements, buffer_len).

(** Virtual [DoAllreduce]. *)
Definition DoAllreduce (strategy : Strategy) (entries : list TensorTableEntry)
    (fused_input_data buffer_data num_elements buffer_len : Z) : M (Z * Z) :=
  match strategy with
  | NCCLAllreduce =>
      NCCLAllreduce_DoAllreduce entries fused_input_data buffer_data
        num_elements buffer_len
  | NCCLHierarchicalAllreduce =>
      NCCLHierarchicalAllreduce_DoAllreduce entries fused_input_data buffer_data
        num_elements buffer_len
  end.

(** Virtual [Enabled]. *)
Definition Enabled (strategy : Strategy) (hierarchical_allreduce : bool)
    (entries : list TensorTableEntry) (response_devices : list Z) : option bool :=
  match strategy with
  | NCCLAllreduce =>
      CUDAAllreduce_Enabled hierarchical_allreduce entries response_devices
  | NCCLHierarchicalAllreduce =>
      NCCLHierarchicalAllreduce_Enabled hierarchical_allreduce entries response_devices
  end.

(** *** Execute *)

(** [AllreduceOp::Execute] is declared in collective_operations.h and
    defined in a file not covered here.  The job lifecycle of the spec's
    async pipeline is: Initialize; MemcpyIn "for every entry ... to its
    offset in the fusion buffer"; DoAllreduce; MemcpyOut for every entry;
    Finalize. *)

(** Modelled from the spec: the MemcpyIn stage of [Execute], "for every
    entry, enqueue an async device-to-device copy from the entry's input
    buffer to its offset in the fusion buffer"; entries are laid out in
    iteration order, each at the byte offset where the previous one
    ends. *)
Fixpoint MemcpyIn_all (todo entries : list TensorTableEntry) (at_offset : Z) : M unit :=
  match todo with
  | [] => ret tt
  | e :: rest =>
      MemcpyInFusionBuffer at_offset e entries ;;;
      MemcpyIn_all rest entries (at_offset + tensor_size e)
  end.

(** Modelled from the spec: the MemcpyOut stage of [Execute], "for every
    entry, enqueue an async device-to-device copy from the fusion buffer
    back to the entry's output buffer". *)
Fixpoint MemcpyOut_all (todo entries : list TensorTableEntry) (at_offset : Z) : M unit :=
  match todo with
  | [] => ret tt
  | e :: rest =>
      MemcpyOutFusionBuffer at_offset e entries ;;;
      MemcpyOut_all rest entries (at_offset + tensor_size e)
  end.

(** Modelled from the spec: the byte length of the fused batch, the
    entries being "concatenated in iteration order with element-sized
    alignment". *)
Definition total_size (entries : list TensorTableEntry) : Z :=
  fold_right (fun e acc => tensor_size e + acc) 0 entries.

(** Modelled from the spec: [AllreduceOp::Execute], the five stages of a
    job in order; an exception of a stage leaves [Execute] at once.  The
    fusion buffer is both the fused input and the output of the
    reduction; the element count is the byte length over the size of the
    batch's element type. *)
Definition Execute (strategy : Strategy) (fusion_buffer : Z)
    (entries : list TensorTableEntry) (response_devices : list Z) : M Status :=
  first_entry <- front entries ;;
  Initialize strategy entries response_devices ;;;
  MemcpyIn_all entries entries fusion_buffer ;;;
  let buffer_len := total_size entries in
  let num_elements := buffer_len ÷ type_size rt (tensor_dtype first_entry) in
  _ <- DoAllreduce strategy entries fusion_buffer fusion_buffer num_elements buffer_len ;;
  MemcpyOut_all entries entries fusion_buffer ;;;
  Finalize entries.

End Engine.

(** * Vocabulary of the properties *)

(** ** The runtime *)

(** Every status is a success and no creating call yields a null handle. *)
Record runtime_succeeds (rt : Runtime) : Prop := {
  cuda_ok : forall n, cuda_status rt n = cudaSuccess;
  nccl_ok : forall n, nccl_status rt n = ncclSuccess;
  handle_nonnull : forall n, new_handle rt n <> nullptr
}.

(** ** Traces *)

(** Only event and timeline bookkeeping. *)
Definition quiet (delta : list Call) : Prop :=
  Forall (fun c => is_bookkeeping c = true) delta.

Definition callbacks (delta : list Call) : list Call := List.filter is_callback delta.

(** Calls that put work on a stream within a stretch of the trace. *)
Definition stream_work (delta : list Call) : list Call :=
  List.filter is_stream_work delta.

Definition is_cudaEventSynchronize (c : Call) : bool :=
  match c with cudaEventSynchronize _ => true | _ => false end.

(** The waits on events in a stretch of the trace. *)
Definition event_waits (delta : list Call) : list Call :=
  List.filter is_cudaEventSynchronize delta.

(** Neither a device collective nor an entry callback. *)
Definition preparatory (delta : list Call) : Prop :=
  device_collectives delta = [] /\ callbacks delta = [].

(** ** States *)

(** [s'] is [s] after the calls [delta]: the stream and communicator
    tables, the op's pointers, the detached threads and the current device
    are as before; the event queue, the event pools and the host buffer may
    differ. *)
Record extends (s s' : State) (delta : list Call) : Prop := {
  ext_streams : streams s' = streams s;
  ext_nccl_comms : nccl_comms s' = nccl_comms s;
  ext_stream_ : stream_ s' = stream_ s;
  ext_nccl_comm_ : nccl_comm_ s' = nccl_comm_ s;
  ext_threads : threads s' = threads s;
  ext_current_device : current_device s' = current_device s;
  ext_trace : trace s' = trace s ++ delta
}.

(** The op is bound to the stream of device [dev] and to the communicator
    under [key], as [Initialize] leaves it. *)
Record bound (s : State) (dev stream : Z) (key : list Z) (comm : Z) : Prop := {
  bound_stream_ : stream_ s = Some dev;
  bound_streams : streams s !! dev = Some stream;
  bound_nccl_comm_ : nccl_comm_ s = Some key;
  bound_nccl_comms : nccl_comms s !! key = Some comm
}.

(** The pool of device [dev]: the queue [cuda_events[dev]], front first. *)
Definition event_pool (s : State) (dev : Z) : list Z :=
  default [] (cuda_events s !! dev).

(** No key of the cache is bound to a null handle. *)
Definition cache_built (s : State) : Prop :=
  forall key comm, nccl_comms s !! key = Some comm -> comm <> nullptr.

(** ** The communicator cache *)

Definition is_ncclCommInitRank (c : Call) : bool :=
  match c with ncclCommInitRank _ _ _ => true | _ => false end.

(** The number of communicators built in a stretch of the trace. *)
Definition builds (calls : list Call) : nat :=
  length (List.filter is_ncclCommInitRank calls).

(** The calls of one run of the build protocol, for the unique id
    [nccl_id]. *)
Definition build_protocol (gs : HorovodGlobalState) (strategy : Strategy)
    (nccl_id : Z) : list Call :=
  let '(nccl_rank, nccl_size, nccl_id_bcast_comm) := PopulateCommStrategy gs strategy in
  [Timeline_ActivityStartAll INIT_NCCL]
  ++ (if nccl_rank =? 0 then [ncclGetUniqueId] else [])
  ++ [Channel_Broadcast sizeof_ncclUniqueId HOROVOD_BYTE 0 nccl_id_bcast_comm;
      ncclCommInitRank nccl_size nccl_id nccl_rank;
      Channel_Barrier GLOBAL;
      Timeline_ActivityEndAll].

(** One [InitComm] per job, in order. *)
Record CommJob : Type := {
  job_strategy : Strategy;
  job_entries : list TensorTableEntry;
  job_devices : list Z
}.

Definition job_key (gs : HorovodGlobalState) (job : CommJob) : option (list Z) :=
  GetDeviceMap gs (job_strategy job) (job_devices job).

Fixpoint InitComm_jobs (rt : Runtime) (gs : HorovodGlobalState) (jobs : list CommJob)
    : M unit :=
  match jobs with
  | [] => ret tt
  | job :: rest =>
      _ <- InitComm rt gs (job_strategy job) (job_entries job) (job_devices job) ;;
      InitComm_jobs rt gs rest
  end.

(** ** The event pool *)

(** Release the events of a list one after the other. *)
Fixpoint release_all (rt : Runtime) (events : list Z) : M unit :=
  match events with
  | [] => ret tt
  | event :: rest => _ <- ReleaseCudaEvent rt event ;; release_all rt rest
  end.

(** ** The calls of a job *)

(** [num_elements] after the padding of a batch [first_entry ::
    more_entries]. *)
Definition effective_num_elements (atom : Z) (gs : HorovodGlobalState)
    (first_entry : TensorTableEntry) (more_entries : list TensorTableEntry)
    (num_elements : Z) : Z :=
  padded_num_elements atom gs (length (first_entry :: more_entries)) num_elements.

(** The data-path calls of each phase of the hierarchical allreduce, for a
    first entry [first_entry], the effective element count [E] (after
    padding), the NCCL type [dt] of the batch and the op's communicator and
    stream. *)
Definition job_element_size (rt : Runtime) (first_entry : TensorTableEntry) : Z :=
  type_size rt (tensor_dtype first_entry).

Definition job_rank_offset (rt : Runtime) (gs : HorovodGlobalState)
    (first_entry : TensorTableEntry) (buffer_data E : Z) : Z :=
  buffer_data_at_rank_offset gs (job_element_size rt first_entry) buffer_data E.

Definition reduce_scatter_calls (rt : Runtime) (gs : HorovodGlobalState)
    (first_entry : TensorTableEntry) (fused_input_data buffer_data E : Z)
    (dt : ncclDataType_t) (comm stream : Z) : list Call :=
  if num_elements_per_rank gs E >? 0 then
    [ncclReduceScatter fused_input_data (job_rank_offset rt gs first_entry buffer_data E)
       (size_t (num_elements_per_rank gs E)) dt ncclSum comm stream]
  else [].

Definition reduce_calls (rt : Runtime) (gs : HorovodGlobalState)
    (first_entry : TensorTableEntry) (fused_input_data buffer_data E : Z)
    (dt : ncclDataType_t) (comm stream : Z) : list Call :=
  if num_elements_remaining gs E >? 0 then
    [ncclReduce
       (fused_input_data + remainder_offset gs (job_element_size rt first_entry) E)
       (buffer_data + remainder_offset gs (job_element_size rt first_entry) E)
       (size_t (num_elements_remaining gs E)) dt ncclSum (root_rank gs) comm stream]
  else [].

Definition cross_node_calls (rt : Runtime) (gs : HorovodGlobalState)
    (first_entry : TensorTableEntry) (buffer_data E stream host_buffer : Z)
    : list Call :=
  if is_homogeneous gs || is_root_rank gs then
    [malloc (total_buffer_len gs (job_element_size rt first_entry) E);
     cudaMemcpyAsync host_buffer (job_rank_offset rt gs first_entry buffer_data E)
       (total_buffer_len gs (job_element_size rt first_entry) E)
       cudaMemcpyDeviceToHost stream;
     Channel_Allreduce host_buffer (total_num_elements gs E) first_entry CROSS;
     cudaMemcpyAsync (job_rank_offset rt gs first_entry buffer_data E) host_buffer
       (total_buffer_len gs (job_element_size rt first_entry) E)
       cudaMemcpyHostToDevice stream]
  else [].

Definition allgather_calls (rt : Runtime) (gs : HorovodGlobalState)
    (first_entry : TensorTableEntry) (buffer_data E : Z)
    (dt : ncclDataType_t) (comm stream : Z) : list Call :=
  if num_elements_per_rank gs E >? 0 then
    [ncclAllGather (job_rank_offset rt gs first_entry buffer_data E) buffer_data
       (size_t (num_elements_per_rank gs E)) dt comm stream]
  else [].

Definition bcast_calls (rt : Runtime) (gs : HorovodGlobalState)
    (first_entry : TensorTableEntry) (buffer_data E : Z)
    (dt : ncclDataType_t) (comm stream : Z) : list Call :=
  if num_elements_remaining gs E >? 0 then
    [ncclBcast (buffer_data + remainder_offset gs (job_element_size rt first_entry) E)
       (size_t (num_elements_remaining gs E)) dt (root_rank gs) comm stream]
  else [].

(** The copies of the entries [todo] into the fusion buffer, the first at
    address [at_offset]. *)
Fixpoint memcpy_in_calls (todo : list TensorTableEntry) (at_offset stream : Z)
    : list Call :=
  match todo with
  | [] => []
  | e :: rest =>
      cudaMemcpyAsync at_offset (tensor_data e) (size_t (tensor_size e))
        cudaMemcpyDeviceToDevice stream
      :: memcpy_in_calls rest (at_offset + tensor_size e) stream
  end.

(** The calls of the finalizer after the drain, for each entry. *)
Definition completion_calls (entries : list TensorTableEntry) : list Call :=
  flat_map (fun e => [Timeline_End (tensor_name e);
                      entry_callback (tensor_name e) Status_OK]) entries.

(** The message of the error of [GetNCCLDataType]. *)
Definition unsupported_message (DataType_Name : DataType -> string)
    (dtype : DataType) : string :=
  "Type " +:+ DataType_Name dtype +:+ " is not supported in NCCL mode.".

(** The element count [Execute] passes to [DoAllreduce]. *)
Definition batch_num_elements (rt : Runtime) (first_entry : TensorTableEntry)
    (more_entries : list TensorTableEntry) : Z :=
  total_size (first_entry :: more_entries) ÷ type_size rt (tensor_dtype first_entry).

(** ** Concrete surroundings used by the examples *)

(** A runtime in which every call succeeds and every handle is fresh and
    non-null. *)
Definition healthy_runtime : Runtime :=
  {| cuda_status := fun _ => cudaSuccess;
     nccl_status := fun _ => ncclSuccess;
     new_handle := fun n => Z.of_nat n + 4096;
     new_value := fun n => Z.of_nat n;
     type_size := fun dtype =>
       match dtype with
       | HOROVOD_INT32 | HOROVOD_FLOAT32 => 4
       | HOROVOD_INT64 | HOROVOD_FLOAT64 => 8
       | HOROVOD_FLOAT16 => 2
       | _ => 1
       end;
     cudaGetErrorString := fun _ => "unspecified launch failure"%string;
     ncclGetErrorString := fun _ => "unhandled system error"%string |}.

Definition example_DataType_Name (dtype : DataType) : string :=
  match dtype with
  | HOROVOD_INT8 => "INT8"
  | HOROVOD_INT32 => "INT32"
  | HOROVOD_INT64 => "INT64"
  | HOROVOD_FLOAT16 => "FLOAT16"
  | HOROVOD_FLOAT32 => "FLOAT32"
  | HOROVOD_FLOAT64 => "FLOAT64"
  | HOROVOD_BYTE => "BYTE"
  | HOROVOD_OTHER _ => "OTHER"
  end.

(** A worker of the 2 nodes x 2 GPUs cluster of the spec's scenarios, on
    the second node. *)
Definition example_worker (tracing homogeneous : bool) (lrank : Z) : HorovodGlobalState :=
  {| rank := 2 + lrank; size := 4; local_rank := lrank; local_size := 2;
     is_homogeneous := homogeneous; local_comm_ranks := [2; 3];
     timeline_initialized := tracing |}.

Definition example_entry (name : string) (dtype : DataType) (bytes dev : Z)
    : TensorTableEntry :=
  {| tensor_name := name; tensor_dtype := dtype; tensor_data := 1024;
     tensor_size := bytes; output_data := 2048; device := dev |}.

(** An op bound by hand: one stream, one communicator, nothing recorded
    yet. *)
Definition bound_state (dev stream : Z) (key : list Z) (comm : Z) : State :=
  {| streams := {[dev := stream]}; cuda_events := ∅; nccl_comms := {[key := comm]};
     event_queue_ := []; stream_ := Some dev; host_buffer_ := nullptr;
     nccl_comm_ := Some key; current_device := dev; threads := []; trace := [] |}.

(** A worker of a 2 nodes x 4 GPUs homogeneous cluster, on the second
    node. *)
Definition example_worker4 (lrank : Z) : HorovodGlobalState :=
  {| rank := 4 + lrank; size := 8; local_rank := lrank; local_size := 4;
     is_homogeneous := true; local_comm_ranks := [4; 5; 6; 7];
     timeline_initialized := false |}.

(** ** Vocabulary of the further properties *)

(** The calls [WaitForEvents] makes for one slot of the event queue: the
    timeline span only for a named slot, the wait, and the device query of
    [ReleaseCudaEvent]. *)
Definition slot_calls (slot : string * Z) : list Call :=
  (if (fst slot =? "")%string then [] else [Timeline_ActivityStartAll (fst slot)])
  ++ [cudaEventSynchronize (snd slot)]
  ++ (if (fst slot =? "")%string then [] else [Timeline_ActivityEndAll])
  ++ [cudaGetDevice].

(** The callbacks the finalizer fires for a batch. *)
Definition completion_callbacks (entries : list TensorTableEntry) : list Call :=
  map (fun e => entry_callback (tensor_name e) Status_OK) entries.

(** [healthy_runtime], except that the call at position [k] of the run
    reports CUDA error 700. *)
Definition cuda_failing_at (k : nat) : Runtime :=
  {| cuda_status := fun n => if Nat.eqb n k then cudaError 700 else cudaSuccess;
     nccl_status := nccl_status healthy_runtime;
     new_handle := new_handle healthy_runtime;
     new_value := new_value healthy_runtime;
     type_size := type_size healthy_runtime;
     cudaGetErrorString := cudaGetErrorString healthy_runtime;
     ncclGetErrorString := ncclGetErrorString healthy_runtime |}.

(** [healthy_runtime], except that the call at position [k] of the run
    reports NCCL error 2. *)
Definition nccl_failing_at (k : nat) : Runtime :=
  {| cuda_status := cuda_status healthy_runtime;
     nccl_status := fun n => if Nat.eqb n k then ncclError 2 else ncclSuccess;
     new_handle := new_handle healthy_runtime;
     new_value := new_value healthy_runtime;
     type_size := type_size healthy_runtime;
     cudaGetErrorString := cudaGetErrorString healthy_runtime;
     ncclGetErrorString := ncclGetErrorString healthy_runtime |}.

(** [bound_state] with a pool of recycled events for the device and some
    slots already in the event queue. *)
Definition busy_state (dev stream : Z) (key : list Z) (comm : Z)
    (pool : list Z) (queue : list (string * Z)) : State :=
  set_event_queue_ queue
    (set_cuda_events (insert dev pool) (bound_state dev stream key comm)).

(** The state after the calls [calls], nothing else changed. *)
Definition log_all (calls : list Call) (s : State) : State :=
  fold_left (fun st c => log c st) calls s.

(** Every call of the cross-node phase, with its timeline spans, for the
    host buffer [host_buffer] that [malloc] returned. *)
Definition host_phase_calls (rt : Runtime) (gs : HorovodGlobalState)
    (first_entry : TensorTableEntry) (buffer_data E stream host_buffer : Z)
    : list Call :=
  if is_homogeneous gs || is_root_rank gs then
    [malloc (total_buffer_len gs (job_element_size rt first_entry) E);
     Timeline_ActivityStartAll MEMCPY_IN_HOST_BUFFER;
     cudaMemcpyAsync host_buffer (job_rank_offset rt gs first_entry buffer_data E)
       (total_buffer_len gs (job_element_size rt first_entry) E)
       cudaMemcpyDeviceToHost stream;
     Timeline_ActivityEndAll;
     Timeline_ActivityStartAll MPI_ALLREDUCE;
     Channel_Allreduce host_buffer (total_num_elements gs E) first_entry CROSS;
     Timeline_ActivityEndAll;
     Timeline_ActivityStartAll MEMCPY_OUT_HOST_BUFFER;
     cudaMemcpyAsync (job_rank_offset rt gs first_entry buffer_data E) host_buffer
       (total_buffer_len gs (job_element_size rt first_entry) E)
       cudaMemcpyHostToDevice stream;
     Timeline_ActivityEndAll]
  else [].

(** Heap allocations and releases within a stretch of the trace. *)
Definition is_malloc (c : Call) : bool :=
  match c with malloc _ => true | _ => false end.

Definition allocations (delta : list Call) : list Call := List.filter is_malloc delta.

Definition is_free (c : Call) : bool :=
  match c with free _ => true | _ => false end.

Definition frees (delta : list Call) : list Call := List.filter is_free delta.

(** * Properties *)

(** ** Running computations *)

Lemma bind_Ok {A B} (c : M A) (k : A -> M B) (s s' : State) (a : A) :
  c s = (Ok a, s') -> bind c k s = k a s'.
Proof. intros E. unfold bind. rewrite E. reflexivity. Qed.

Lemma bind_Throw {A B} (c : M A) (k : A -> M B) (s s' : State) (what : string) :
  c s = (Throw what, s') -> bind c k s = (Throw what, s').
Proof. intros E. unfold bind. rewrite E. reflexivity. Qed.

Lemma bind_Ok_inv {A B} (c : M A) (k : A -> M B) (s s' : State) (b : B) :
  bind c k s = (Ok b, s') -> exists a s1, c s = (Ok a, s1) /\ k a s1 = (Ok b, s').
Proof.
  unfold bind. destruct (c s) as [[a | what |] s1]; intros H; try discriminate.
  exists a, s1. auto.
Qed.

(** ** Tactics *)

(** Step over the next external call. *)
Ltac step_call :=
  match goal with
  | |- context [bind (call ?c) ?k ?s] =>
      rewrite (bind_Ok (call c) k s (log c s) (length (trace s)) eq_refl)
  end.

(** Step over the next update of the state. *)
Ltac step_modify :=
  match goal with
  | |- context [bind (modify ?f) ?k ?s] =>
      rewrite (bind_Ok (modify f) k s (f s) tt eq_refl)
  end.

(** Step over a computation that returns [tt] at once and leaves the state
    alone. *)
Ltac step_ret :=
  match goal with
  | |- context [bind ?c ?k ?s] =>
      rewrite (bind_Ok c k s s tt eq_refl)
  end.

(** ** Machine integers *)

Lemma int32_id z : - 2 ^ 31 <= z < 2 ^ 31 -> int32 z = z.
Proof.
  intros H. unfold int32, wrap.
  change (2 ^ (32 - 1)) with (2 ^ 31). change (2 ^ 32) with (2 * 2 ^ 31).
  rewrite Z.mod_small; lia.
Qed.

Lemma int64_id z : - 2 ^ 63 <= z < 2 ^ 63 -> int64 z = z.
Proof.
  intros H. unfold int64, wrap.
  change (2 ^ (64 - 1)) with (2 ^ 63). change (2 ^ 64) with (2 * 2 ^ 63).
  rewrite Z.mod_small; lia.
Qed.

(** ** The arithmetic of the split and of the padding *)

Lemma quot_in_int64 (E ls : Z) :
  0 < ls -> - 2 ^ 63 <= E < 2 ^ 63 -> - 2 ^ 63 <= E ÷ ls < 2 ^ 63.
Proof.
  intros Hls HE. int_bounds.
  destruct (Z.le_gt_cases 0 E) as [Hnn | Hneg].
  - assert (0 <= E ÷ ls <= E).
    { rewrite Z.quot_div_nonneg by lia. split.
      - apply Z.div_pos; lia.
      - apply Z.div_le_upper_bound; nia. }
    lia.
  - assert (E <= E ÷ ls <= 0).
    { replace E with (- (- E)) by lia. rewrite Z.quot_opp_l by lia.
      rewrite Z.quot_div_nonneg by lia.
      assert (0 <= (- E) / ls <= - E).
      { split; [apply Z.div_pos; lia | apply Z.div_le_upper_bound; nia]. }
      lia. }
    lia.
Qed.

Lemma quot_plus_rem_in_int64 (E ls : Z) :
  0 < ls -> - 2 ^ 63 <= E < 2 ^ 63 ->
  - 2 ^ 63 <= E ÷ ls + Z.rem E ls < 2 ^ 63.
Proof.
  intros Hls HE. int_bounds.
  pose proof (Z.quot_rem' E ls) as Hqr.
  destruct (Z.le_gt_cases 0 E) as [Hnn | Hneg].
  - pose proof (Z.rem_bound_pos E ls Hnn Hls).
    assert (0 <= E ÷ ls) by (apply Z.quot_pos; lia).
    nia.
  - assert (Hr : - ls < Z.rem E ls <= 0).
    { pose proof (Z.rem_bound_pos (- E) ls ltac:(lia) Hls) as Hb.
      rewrite Z.rem_opp_l in Hb by lia. lia. }
    assert (E ÷ ls <= 0).
    { replace E with (- (- E)) by lia. rewrite Z.quot_opp_l by lia.
      assert (0 <= (- E) ÷ ls) by (apply Z.quot_pos; lia). lia. }
    nia.
Qed.

(** The values of the split of lines 157-189, for an [int64_t] count [E]:
    C++ [/] and [%] on a homogeneous cluster, everything in the tail on a
    heterogeneous one. *)
Lemma split_values (gs : HorovodGlobalState) (E : Z) :
  0 < local_size gs < 2 ^ 31 ->
  - 2 ^ 63 <= E < 2 ^ 63 ->
  (is_homogeneous gs = true ->
     num_elements_per_rank gs E = E ÷ local_size gs /\
     num_elements_remaining gs E = Z.rem E (local_size gs) /\
     root_rank gs = local_size gs - 1) /\
  (is_homogeneous gs = false ->
     num_elements_per_rank gs E = 0 /\
     num_elements_remaining gs E = E /\
     root_rank gs = 0) /\
  total_num_elements gs E =
    (if local_rank gs =? root_rank gs
     then num_elements_per_rank gs E + num_elements_remaining gs E
     else num_elements_per_rank gs E).
Proof.
  intros Hls HE.
  unfold total_num_elements, is_root_rank, num_elements_per_rank,
    num_elements_remaining, root_rank.
  pose proof (quot_in_int64 E (local_size gs) ltac:(lia) HE) as Hq.
  pose proof (quot_plus_rem_in_int64 E (local_size gs) ltac:(lia) HE) as Hqr.
  int_bounds.
  destruct (is_homogeneous gs).
  - rewrite (int64_id _ Hq), (int64_id _ Hqr), int32_id by lia.
    repeat split; intros; try discriminate; reflexivity.
  - rewrite int64_id by lia. replace (0 + E) with E by lia.
    repeat split; intros; try discriminate; reflexivity.
Qed.

(** On non-negative counts C++ division and remainder agree with the
    mathematical ones. *)
Lemma split_nonneg (gs : HorovodGlobalState) (E : Z) :
  0 < local_size gs -> 0 <= E < 2 ^ 63 -> is_homogeneous gs = true ->
  num_elements_per_rank gs E = E / local_size gs /\
  num_elements_remaining gs E = E mod local_size gs.
Proof.
  intros Hls HE Hh. unfold num_elements_per_rank, num_elements_remaining.
  rewrite Hh, int64_id by (apply quot_in_int64; int_bounds; lia).
  rewrite Z.quot_div_nonneg, Z.rem_mod_nonneg by lia. auto.
Qed.

Lemma round_up_multiple (n d : Z) :
  0 < d -> 0 <= n ->
  let n' := (n + d - 1) / d * d in
  n' mod d = 0 /\ n <= n' /\ n' < n + d /\
  (forall m, n <= m -> m mod d = 0 -> n' <= m).
Proof.
  intros Hd Hn n'. subst n'.
  pose proof (Z.div_mod (n + d - 1) d ltac:(lia)) as Hdm.
  pose proof (Z.mod_pos_bound (n + d - 1) d Hd) as Hb.
  repeat split.
  - apply Z.mod_mul; lia.
  - nia.
  - nia.
  - intros m Hm Hmod.
    apply Z.mod_divide in Hmod; [| lia]. destruct Hmod as [k Hk]. subst m.
    apply Z.mul_le_mono_nonneg_r; [lia |].
    apply Z.lt_succ_r. apply Z.div_lt_upper_bound; [lia |]. nia.
Qed.

Lemma padded_num_elements_round_up (atom : Z) (gs : HorovodGlobalState)
    (nentries : nat) (n : Z) :
  0 < local_size gs -> 0 < atom -> local_size gs * atom < 2 ^ 31 ->
  0 <= n -> n + local_size gs * atom < 2 ^ 63 ->
  is_homogeneous gs = true -> (2 <= nentries)%nat ->
  padded_num_elements atom gs nentries n =
    (n + local_size gs * atom - 1) / (local_size gs * atom) * (local_size gs * atom).
Proof.
  intros Hls Hat Hdiv Hn Hov Hh He. int_bounds.
  unfold padded_num_elements. rewrite Hh.
  replace (1 <? Z.of_nat nentries) with true by (symmetry; apply Z.ltb_lt; lia).
  cbn [andb].
  assert (Hd : 0 < local_size gs * atom) by nia.
  remember (local_size gs * atom) as d eqn:Ed. clear Ed.
  rewrite int32_id by (int_bounds; lia).
  pose proof (round_up_multiple n d Hd Hn) as (_ & Hle & Hlt & _).
  rewrite (int64_id (n + d)) by (int_bounds; lia).
  rewrite (int64_id (n + d - 1)) by (int_bounds; lia).
  rewrite Z.quot_div_nonneg by lia.
  assert (0 <= (n + d - 1) / d <= n + d - 1).
  { split; [apply Z.div_pos; lia | apply Z.div_le_upper_bound; nia]. }
  rewrite (int64_id (_ / _)) by (int_bounds; lia).
  rewrite int64_id by (int_bounds; lia). reflexivity.
Qed.

Lemma int64_range z : - 2 ^ 63 <= int64 z < 2 ^ 63.
Proof.
  unfold int64, wrap. change (2 ^ (64 - 1)) with (2 ^ 63).
  assert (0 < 2 ^ 64) as Hpos by (int_bounds; lia).
  pose proof (Z.mod_pos_bound (z + 2 ^ 63) (2 ^ 64) Hpos). int_bounds. lia.
Qed.

Lemma size_t_id z : 0 <= z < 2 ^ 64 -> size_t z = z.
Proof. intros H. unfold size_t. apply Z.mod_small. exact H. Qed.

(** The count after padding is an [int64_t]. *)
Lemma padded_in_int64 (atom : Z) (gs : HorovodGlobalState) (nentries : nat) (n : Z) :
  - 2 ^ 63 <= n < 2 ^ 63 ->
  - 2 ^ 63 <= padded_num_elements atom gs nentries n < 2 ^ 63.
Proof.
  intros Hn. unfold padded_num_elements.
  destruct (is_homogeneous gs && (1 <? Z.of_nat nentries)); [apply int64_range | exact Hn].
Qed.

(** A padded count splits without a tail into shards of whole atoms. *)
Lemma fused_split (atom : Z) (gs : HorovodGlobalState) (nentries : nat) (n : Z) :
  is_homogeneous gs = true -> (2 <= nentries)%nat ->
  0 < local_size gs -> 0 < atom -> local_size gs * atom < 2 ^ 31 ->
  0 <= n -> n + local_size gs * atom < 2 ^ 63 ->
  exists k,
    0 <= k /\
    padded_num_elements atom gs nentries n = local_size gs * (atom * k) /\
    local_size gs * (atom * k) < 2 ^ 63 /\
    num_elements_per_rank gs (padded_num_elements atom gs nentries n) = atom * k /\
    num_elements_remaining gs (padded_num_elements atom gs nentries n) = 0.
Proof.
  intros Hh He Hls Hat Hdiv Hn Hov.
  rewrite (padded_num_elements_round_up atom gs nentries n) by assumption.
  assert (0 < local_size gs * atom) as Hd by nia.
  destruct (round_up_multiple n (local_size gs * atom) Hd Hn) as (_ & Hle & Hlt & _).
  set (k := (n + local_size gs * atom - 1) / (local_size gs * atom)) in *.
  assert (0 <= k) as Hk by (apply Z.div_pos; lia).
  exists k.
  replace (k * (local_size gs * atom)) with (local_size gs * (atom * k)) in * by lia.
  split; [exact Hk |]. split; [reflexivity |]. split; [lia |].
  destruct (split_nonneg gs (local_size gs * (atom * k)) Hls ltac:(nia) Hh) as [Hq Hr].
  rewrite Hq, Hr. split.
  - rewrite Z.mul_comm. apply Z.div_mul. lia.
  - rewrite Z.mul_comm. apply Z.mod_mul. lia.
Qed.

(** The byte length a rank moves through the host is its element count
    times the element size, when the batch's byte length fits
    [int64_t]. *)
Lemma total_buffer_len_bytes (gs : HorovodGlobalState) (element_size E : Z) :
  0 < local_size gs < 2 ^ 31 -> 0 < element_size -> 0 <= E ->
  E * element_size < 2 ^ 63 ->
  total_buffer_len gs element_size E = total_num_elements gs E * element_size.
Proof.
  intros Hls Hes HE Hlen.
  unfold total_buffer_len, total_num_elements, buffer_len_remaining,
    buffer_len_per_rank, num_elements_per_rank, num_elements_remaining.
  destruct (is_homogeneous gs).
  - pose proof (Z.quot_rem' E (local_size gs)) as Hqr.
    pose proof (Z.rem_bound_pos E (local_size gs) HE ltac:(lia)) as Hr.
    assert (0 <= E ÷ local_size gs) as Hq by (apply Z.quot_pos; lia).
    remember (E ÷ local_size gs) as q eqn:Eq.
    remember (Z.rem E (local_size gs)) as r eqn:Er.
    remember (local_size gs) as ls eqn:Els. clear Eq Er Els.
    int_bounds.
    assert (q + r <= E) as H1 by nia.
    assert (E <= E * element_size) as H2 by nia.
    assert (0 <= element_size * q) as H3 by nia.
    assert (0 <= element_size * r) as H4 by nia.
    assert (element_size * q + element_size * r <= E * element_size) as H5 by nia.
    rewrite (int64_id q) by (int_bounds; lia).
    rewrite (int64_id (element_size * q)) by (int_bounds; lia).
    rewrite (size_t_id (element_size * q)) by (int_bounds; lia).
    rewrite (int64_id (element_size * r)) by (int_bounds; lia).
    rewrite (size_t_id (element_size * r)) by (int_bounds; lia).
    destruct (is_root_rank gs); [| lia].
    rewrite (int64_id (q + r)) by (int_bounds; lia).
    rewrite (size_t_id (element_size * q + element_size * r)) by (int_bounds; lia).
    lia.
  - int_bounds.
    assert (E <= E * element_size) as H2 by nia.
    rewrite Z.mul_0_r.
    rewrite (int64_id (element_size * E)) by (int_bounds; lia).
    rewrite (size_t_id (element_size * E)) by (int_bounds; lia).
    destruct (is_root_rank gs); [| reflexivity].
    change (size_t (int64 0)) with 0. rewrite !Z.add_0_l.
    rewrite (int64_id E) by (int_bounds; lia).
    rewrite (size_t_id (element_size * E)) by (int_bounds; lia).
    lia.
Qed.

(** ** Enabled (C10) *)

(** C10.  On a non-empty batch, [Enabled] of either strategy reads the
    device id of the first entry only (and, for the hierarchical strategy,
    the parameter manager's toggle): the remaining entries and the
    response do not matter, and a batch whose first entry is on a GPU is
    reported enabled by the flat strategy, and by the hierarchical one
    exactly when the toggle is on. *)
Theorem enabled_reads_first_entry_only :
  (forall strategy toggle first rest rest' devices devices',
     Enabled strategy toggle (first :: rest) devices =
     Enabled strategy toggle (first :: rest') devices') /\
  (forall toggle toggle' first rest devices,
     Enabled NCCLAllreduce toggle (first :: rest) devices =
     Enabled NCCLAllreduce toggle' (first :: rest) devices) /\
  (forall toggle first rest devices,
     device first <> CPU_DEVICE_ID ->
     Enabled NCCLAllreduce toggle (first :: rest) devices = Some true /\
     Enabled NCCLHierarchicalAllreduce toggle (first :: rest) devices = Some toggle) /\
  (forall strategy toggle first rest devices,
     device first = CPU_DEVICE_ID ->
     Enabled strategy toggle (first :: rest) devices = Some false).
Proof.
  split; [| split; [| split]].
  - intros [] *; reflexivity.
  - reflexivity.
  - intros toggle first rest devices H. apply Z.eqb_neq in H.
    unfold Enabled, NCCLHierarchicalAllreduce_Enabled, CUDAAllreduce_Enabled.
    rewrite H. split; reflexivity.
  - intros [] * H;
      unfold Enabled, NCCLHierarchicalAllreduce_Enabled, CUDAAllreduce_Enabled;
      rewrite H; reflexivity.
Qed.

(** A batch whose first entry is on GPU 0 and whose second entry names
    the host. *)
Lemma enabled_reads_first_entry_only_witness :
  Enabled NCCLAllreduce false
    [example_entry "a" HOROVOD_FLOAT32 16 0;
     example_entry "b" HOROVOD_FLOAT32 16 CPU_DEVICE_ID] [0; 1] = Some true /\
  Enabled NCCLHierarchicalAllreduce true
    [example_entry "a" HOROVOD_FLOAT32 16 0;
     example_entry "b" HOROVOD_FLOAT32 16 CPU_DEVICE_ID] [0; 1] = Some true.
Proof.
  destruct enabled_reads_first_entry_only as (_ & _ & H & _).
  split.
  - apply (H false); simpl; discriminate.
  - apply (H true); simpl; discriminate.
Defined.

(** ** Communicator keys (C6) *)

Lemma push_back_devices_map (devices ranks acc : list Z) :
  Forall (fun r => 0 <= r < Z.of_nat (length devices)) ranks ->
  push_back_devices devices ranks acc =
    Some (acc ++ map (fun r => nth (Z.to_nat r) devices 0) ranks).
Proof.
  intros H. revert acc. induction H as [| r ranks Hr _ IH]; intros acc; simpl.
  - rewrite app_nil_r. reflexivity.
  - unfold vector_at.
    replace (r <? 0) with false by (symmetry; apply Z.ltb_ge; lia).
    destruct (devices !! Z.to_nat r) as [d |] eqn:E.
    + rewrite IH, <- app_assoc. simpl.
      rewrite (nth_lookup_Some _ _ 0 _ E). reflexivity.
    + apply lookup_ge_None in E. lia.
Qed.

(** C6, as the code has it.  The key under which the communicator is
    looked up or built lists the participating device ids in rank order,
    unsorted: for the flat strategy it is the response's device list as it
    is (the device of worker 0, of worker 1, ...); for the hierarchical
    strategy its i-th component is the device of the i-th intra-node peer,
    [devices[local_comm_ranks[i]]]. *)
Theorem device_map_in_rank_order (gs : HorovodGlobalState) (devices : list Z) :
  GetDeviceMap gs NCCLAllreduce devices = Some devices /\
  (Forall (fun r => 0 <= r < Z.of_nat (length devices)) (local_comm_ranks gs) ->
   GetDeviceMap gs NCCLHierarchicalAllreduce devices =
     Some (map (fun r => nth (Z.to_nat r) devices 0) (local_comm_ranks gs))).
Proof.
  split; [reflexivity |].
  intros H. simpl. unfold NCCLHierarchicalAllreduce_GetDeviceMap.
  rewrite push_back_devices_map by assumption. reflexivity.
Qed.

Lemma device_map_in_rank_order_witness :
  GetDeviceMap (example_worker false true 0) NCCLAllreduce [0; 1; 1; 0]
    = Some [0; 1; 1; 0] /\
  GetDeviceMap (example_worker false true 0) NCCLHierarchicalAllreduce [0; 1; 1; 0]
    = Some [1; 0].
Proof.
  destruct (device_map_in_rank_order (example_worker false true 0) [0; 1; 1; 0])
    as [Hflat Hhier].
  split; [exact Hflat |].
  apply Hhier. repeat constructor; simpl; lia.
Defined.

(** Four workers whose second node uses GPU 1 for local rank 0 and GPU 0
    for local rank 1: neither key is the sorted tuple of the device ids. *)
Lemma device_map_not_sorted :
  GetDeviceMap (example_worker false true 0) NCCLAllreduce [0; 1; 1; 0]
    = Some [0; 1; 1; 0] /\
  [0; 1; 1; 0] <> merge_sort Z.le [0; 1; 1; 0] /\
  ~ Sorted Z.le [0; 1; 1; 0] /\
  GetDeviceMap (example_worker false true 0) NCCLHierarchicalAllreduce [0; 1; 1; 0]
    = Some [1; 0] /\
  [1; 0] <> merge_sort Z.le [1; 0] /\
  ~ Sorted Z.le [1; 0].
Proof.
  repeat split.
  - vm_compute. discriminate.
  - intros H. inversion H as [| ? ? H1 _]; subst.
    inversion H1 as [| ? ? H2 _]; subst.
    inversion H2 as [| ? ? _ H3]; subst.
    inversion H3; subst. lia.
  - vm_compute. discriminate.
  - intros H. inversion H as [| ? ? _ H1]; subst. inversion H1; subst. lia.
Qed.

(** ** A runtime that succeeds *)

Lemma healthy_runtime_succeeds : runtime_succeeds healthy_runtime.
Proof. split; intros n; try reflexivity. unfold nullptr. simpl. lia. Qed.

(** ** The event pool (C5) *)

Lemma GetCudaEvent_recycles (rt : Runtime) (s : State) (event : Z) (rest : list Z) :
  cuda_status rt (length (trace s)) = cudaSuccess ->
  cuda_events s !! current_device s = Some (event :: rest) ->
  GetCudaEvent rt s =
    (Ok (cudaSuccess, event),
     set_cuda_events (insert (current_device s) rest) (log cudaGetDevice s)).
Proof.
  intros Hok Hq.
  unfold GetCudaEvent, cudaGetDevice_, cuda_call, call, gets, ret, bind. simpl.
  rewrite Hok. simpl. unfold cuda_events_at. simpl. rewrite Hq. reflexivity.
Qed.

Lemma GetCudaEvent_creates (rt : Runtime) (s : State) :
  cuda_status rt (length (trace s)) = cudaSuccess ->
  cuda_status rt (S (length (trace s))) = cudaSuccess ->
  event_pool s (current_device s) = [] ->
  exists s',
    GetCudaEvent rt s = (Ok (cudaSuccess, new_handle rt (S (length (trace s)))), s') /\
    trace s' = trace s ++ [cudaGetDevice;
                           cudaEventCreateWithFlags
                             (Z.lor cudaEventBlockingSync cudaEventDisableTiming)] /\
    event_pool s' (current_device s) = [] /\
    current_device s' = current_device s.
Proof.
  intros Hok Hok' Hq. unfold event_pool in Hq.
  unfold GetCudaEvent, cudaGetDevice_, cuda_call, call, gets, ret, bind. simpl.
  rewrite Hok. simpl. unfold cuda_events_at. simpl.
  destruct (cuda_events s !! current_device s) as [queue |] eqn:E; simpl in *.
  - subst queue. simpl. rewrite length_app. simpl.
    replace (length (trace s) + 1)%nat with (S (length (trace s))) by lia.
    rewrite Hok'. eexists. split; [reflexivity |]. simpl.
    rewrite <- app_assoc. unfold event_pool. simpl. rewrite E. auto.
  - rewrite length_app. simpl.
    replace (length (trace s) + 1)%nat with (S (length (trace s))) by lia.
    rewrite Hok'. eexists. split; [reflexivity |]. simpl.
    rewrite <- app_assoc. unfold event_pool. simpl.
    rewrite lookup_insert_eq. auto.
Qed.

Lemma ReleaseCudaEvent_pushes_back (rt : Runtime) (s : State) (event : Z) :
  cuda_status rt (length (trace s)) = cudaSuccess ->
  exists s',
    ReleaseCudaEvent rt event s = (Ok cudaSuccess, s') /\
    trace s' = trace s ++ [cudaGetDevice] /\
    cuda_events s' =
      <[current_device s := event_pool s (current_device s) ++ [event]]> (cuda_events s) /\
    current_device s' = current_device s.
Proof.
  intros Hok.
  unfold ReleaseCudaEvent, cudaGetDevice_, cuda_call, call, gets, ret, bind. simpl.
  rewrite Hok. simpl. unfold cuda_events_at, event_pool. simpl.
  destruct (cuda_events s !! current_device s) as [queue |] eqn:E; simpl.
  - eexists. split; [reflexivity |]. simpl. auto.
  - eexists. split; [reflexivity |]. simpl.
    rewrite insert_insert_eq. auto.
Qed.

Lemma release_all_appends (rt : Runtime) (events : list Z) (s : State) :
  (forall n, cuda_status rt n = cudaSuccess) ->
  exists s',
    release_all rt events s = (Ok tt, s') /\
    event_pool s' (current_device s) = event_pool s (current_device s) ++ events /\
    current_device s' = current_device s /\
    length (trace s') = (length (trace s) + length events)%nat.
Proof.
  intros Hok. revert s. induction events as [| event rest IH]; intros s; simpl.
  - exists s. rewrite app_nil_r. repeat split; auto.
  - destruct (ReleaseCudaEvent_pushes_back rt s event (Hok _))
      as (s1 & E1 & Ht1 & Hp1 & Hd1).
    rewrite (bind_Ok _ _ _ _ _ E1).
    destruct (IH s1) as (s2 & E2 & Hp2 & Hd2 & Hl2).
    exists s2. split; [exact E2 |].
    rewrite Hd1 in *. rewrite Hp2.
    unfold event_pool at 1. rewrite Hp1, lookup_insert_eq. simpl.
    rewrite <- app_assoc. simpl. repeat split; auto.
    rewrite Hl2, Ht1, length_app. simpl. lia.
Qed.

(** C5, as the code has it.  The pool of a device is a FIFO queue: when it
    is non-empty, [GetCudaEvent] returns its front, the event released the
    longest ago, and removes it; when it is empty, [GetCudaEvent] creates
    an event with the blocking-synchronize and timing-disabled flags;
    [ReleaseCudaEvent] appends the event at the back of the pool.  The
    device is the calling thread's current device.  Consequently, after a
    series of releases, the next acquire returns the first event of the
    pool followed by the released events. *)
Theorem event_pool_is_fifo (rt : Runtime) (s : State) :
  (forall n, cuda_status rt n = cudaSuccess) ->
  (forall event rest,
     cuda_events s !! current_device s = Some (event :: rest) ->
     GetCudaEvent rt s =
       (Ok (cudaSuccess, event),
        set_cuda_events (insert (current_device s) rest) (log cudaGetDevice s))) /\
  (event_pool s (current_device s) = [] ->
   exists s',
     GetCudaEvent rt s = (Ok (cudaSuccess, new_handle rt (S (length (trace s)))), s') /\
     trace s' = trace s ++ [cudaGetDevice;
                            cudaEventCreateWithFlags
                              (Z.lor cudaEventBlockingSync cudaEventDisableTiming)]) /\
  (forall event,
   exists s',
     ReleaseCudaEvent rt event s = (Ok cudaSuccess, s') /\
     event_pool s' (current_device s) = event_pool s (current_device s) ++ [event]) /\
  (forall released oldest rest,
     event_pool s (current_device s) ++ released = oldest :: rest ->
     exists s',
       (_ <- release_all rt released ;; GetCudaEvent rt) s
         = (Ok (cudaSuccess, oldest), s') /\
       event_pool s' (current_device s) = rest).
Proof.
  intros Hok. split; [| split; [| split]].
  - intros event rest Hq. apply GetCudaEvent_recycles; auto.
  - intros Hq. destruct (GetCudaEvent_creates rt s (Hok _) (Hok _) Hq)
      as (s' & E & Ht & _). eauto.
  - intros event. destruct (ReleaseCudaEvent_pushes_back rt s event (Hok _))
      as (s' & E & _ & Hp & _).
    exists s'. split; [exact E |].
    unfold event_pool at 1. rewrite Hp, lookup_insert_eq. reflexivity.
  - intros released oldest rest Hq.
    destruct (release_all_appends rt released s Hok) as (s1 & E1 & Hp1 & Hd1 & _).
    rewrite (bind_Ok _ _ _ _ _ E1).
    rewrite Hq in Hp1. unfold event_pool in Hp1.
    destruct (cuda_events s1 !! current_device s) as [queue |] eqn:E;
      simpl in Hp1; [subst queue | discriminate].
    rewrite <- Hd1 in E.
    rewrite (GetCudaEvent_recycles rt s1 oldest rest (Hok _) E).
    eexists. split; [reflexivity |].
    unfold event_pool. simpl. rewrite Hd1, lookup_insert_eq. reflexivity.
Qed.

(** Two events released into an empty pool, then one acquire. *)
Lemma event_pool_is_fifo_witness :
  exists s',
    (_ <- release_all healthy_runtime [7; 9] ;; GetCudaEvent healthy_runtime)
      initial_state = (Ok (cudaSuccess, 7), s') /\
    event_pool s' (current_device initial_state) = [9].
Proof.
  destruct (event_pool_is_fifo healthy_runtime initial_state) as (_ & _ & _ & H).
  - intros n. reflexivity.
  - apply (H [7; 9] 7 [9]). reflexivity.
Defined.

(** Event 7 is released, then event 9; the pool hands out 7, not the most
    recently released event 9. *)
Lemma event_pool_not_lifo :
  fst ((_ <- ReleaseCudaEvent healthy_runtime 7 ;;
        _ <- ReleaseCudaEvent healthy_runtime 9 ;;
        GetCudaEvent healthy_runtime) initial_state)
    = Ok (cudaSuccess, 7) /\
  fst ((_ <- ReleaseCudaEvent healthy_runtime 7 ;;
        _ <- ReleaseCudaEvent healthy_runtime 9 ;;
        GetCudaEvent healthy_runtime) initial_state)
    <> Ok (cudaSuccess, 9).
Proof.
  split.
  - vm_compute. reflexivity.
  - vm_compute. discriminate.
Qed.

(** ** The communicator cache (C4) *)

Section CommunicatorCache.

Variable rt : Runtime.
Variable gs : HorovodGlobalState.

Lemma build_comm_writes_one_slot strategy key s r s' :
  build_comm rt gs strategy key s = (r, s') ->
  nccl_comms s' = nccl_comms s \/
  exists comm, nccl_comms s' = <[key := comm]> (nccl_comms s).
Proof.
  unfold build_comm.
  destruct (PopulateCommStrategy gs strategy) as [[nccl_rank nccl_size] scope].
  unfold bind, call, modify, ret, NCCLContext_ErrorCheck, throw. simpl.
  destruct (nccl_rank =? 0); simpl;
    repeat (match goal with
            | |- context [nccl_status rt ?n] => destruct (nccl_status rt n); simpl
            end);
    intros [= <- <-]; simpl; eauto.
Qed.

Lemma build_comm_succeeds strategy key s :
  runtime_succeeds rt ->
  exists nccl_id comm,
    comm <> nullptr /\
    build_comm rt gs strategy key s =
      (Ok tt,
       {| streams := streams s; cuda_events := cuda_events s;
          nccl_comms := <[key := comm]> (nccl_comms s);
          event_queue_ := event_queue_ s; stream_ := stream_ s;
          host_buffer_ := host_buffer_ s; nccl_comm_ := nccl_comm_ s;
          current_device := current_device s; threads := threads s;
          trace := trace s ++ build_protocol gs strategy nccl_id |}).
Proof.
  intros [_ Hnccl Hnn].
  unfold build_comm, build_protocol.
  destruct (PopulateCommStrategy gs strategy) as [[nccl_rank nccl_size] scope].
  unfold bind, call, modify, ret, NCCLContext_ErrorCheck, throw. simpl.
  destruct (nccl_rank =? 0); simpl; rewrite ?Hnccl; simpl; rewrite ?Hnccl; simpl;
    do 2 eexists; (split; [apply Hnn |]);
    unfold log, set_nccl_comms; simpl; rewrite <- ?app_assoc; simpl; reflexivity.
Qed.

(** A hit in the cache: no call is made and the cache is not touched. *)
Lemma InitComm_hit strategy entries devices key comm s :
  GetDeviceMap gs strategy devices = Some key ->
  nccl_comms s !! key = Some comm -> comm <> nullptr ->
  InitComm rt gs strategy entries devices s = (Ok tt, set_nccl_comm_ (Some key) s).
Proof.
  intros Hkey Hc Hnn. unfold InitComm. rewrite Hkey.
  rewrite (bind_Ok _ _ s s key) by reflexivity.
  rewrite (bind_Ok _ _ s s comm)
    by (unfold nccl_comms_at; rewrite Hc; reflexivity).
  apply Z.eqb_neq in Hnn. rewrite Hnn. reflexivity.
Qed.

(** A miss: the build protocol runs once and binds the key. *)
Lemma InitComm_miss strategy entries devices key s :
  runtime_succeeds rt ->
  GetDeviceMap gs strategy devices = Some key ->
  nccl_comms s !! key = None \/ nccl_comms s !! key = Some nullptr ->
  exists nccl_id comm s',
    comm <> nullptr /\
    InitComm rt gs strategy entries devices s = (Ok tt, s') /\
    nccl_comms s' = <[key := comm]> (nccl_comms s) /\
    trace s' = trace s ++ build_protocol gs strategy nccl_id.
Proof.
  intros Hrt Hkey Hc. unfold InitComm. rewrite Hkey.
  rewrite (bind_Ok _ _ s s key) by reflexivity.
  destruct Hc as [Hc | Hc].
  - rewrite (bind_Ok _ _ s (set_nccl_comms (insert key nullptr) s) nullptr)
      by (unfold nccl_comms_at; rewrite Hc; reflexivity).
    rewrite Z.eqb_refl.
    destruct (build_comm_succeeds strategy key
                (set_nccl_comms (insert key nullptr) s) Hrt)
      as (nccl_id & comm & Hnn & E).
    rewrite (bind_Ok _ _ _ _ _ E). unfold modify. simpl.
    exists nccl_id, comm. eexists. split; [exact Hnn |]. split; [reflexivity |].
    simpl. rewrite insert_insert_eq. auto.
  - rewrite (bind_Ok _ _ s s nullptr)
      by (unfold nccl_comms_at; rewrite Hc; reflexivity).
    rewrite Z.eqb_refl.
    destruct (build_comm_succeeds strategy key s Hrt)
      as (nccl_id & comm & Hnn & E).
    rewrite (bind_Ok _ _ _ _ _ E). unfold modify. simpl.
    exists nccl_id, comm. eexists. split; [exact Hnn |]. split; [reflexivity |].
    simpl. auto.
Qed.

(** Whatever the outcome, a bound key keeps its handle. *)
Lemma InitComm_keeps_entries strategy entries devices s r s' key comm :
  InitComm rt gs strategy entries devices s = (r, s') ->
  nccl_comms s !! key = Some comm -> comm <> nullptr ->
  nccl_comms s' !! key = Some comm.
Proof.
  unfold InitComm.
  destruct (GetDeviceMap gs strategy devices) as [key' |].
  2: { intros [= <- <-]. auto. }
  rewrite (bind_Ok _ _ s s key') by reflexivity.
  intros E Hc Hnn.
  destruct (nccl_comms s !! key') as [comm' |] eqn:Hc'.
  - rewrite (bind_Ok _ _ s s comm') in E
      by (unfold nccl_comms_at; rewrite Hc'; reflexivity).
    destruct (comm' =? nullptr) eqn:Hnull.
    + apply Z.eqb_eq in Hnull. subst comm'.
      assert (key <> key') by congruence.
      unfold bind at 1 in E.
      destruct (build_comm rt gs strategy key' s) as [r1 s1] eqn:E1.
      assert (nccl_comms s1 !! key = Some comm) as H1.
      { destruct (build_comm_writes_one_slot _ _ _ _ _ E1) as [-> | [c ->]]; auto.
        rewrite lookup_insert_ne; auto. }
      destruct r1; inversion E; subst; simpl; auto.
    + inversion E. subst. simpl. auto.
  - assert (key <> key') by congruence.
    rewrite (bind_Ok _ _ s (set_nccl_comms (insert key' nullptr) s) nullptr) in E
      by (unfold nccl_comms_at; rewrite Hc'; reflexivity).
    rewrite Z.eqb_refl in E. unfold bind at 1 in E.
    destruct (build_comm rt gs strategy key' (set_nccl_comms (insert key' nullptr) s))
      as [r1 s1] eqn:E1.
    assert (nccl_comms s1 !! key = Some comm) as H1.
    { destruct (build_comm_writes_one_slot _ _ _ _ _ E1) as [-> | [c ->]]; simpl;
        rewrite ?lookup_insert_ne; auto. }
    destruct r1; inversion E; subst; simpl; auto.
Qed.

Lemma InitComm_jobs_keep_entries jobs s r s' key comm :
  InitComm_jobs rt gs jobs s = (r, s') ->
  nccl_comms s !! key = Some comm -> comm <> nullptr ->
  nccl_comms s' !! key = Some comm.
Proof.
  revert s. induction jobs as [| job rest IH]; intros s; simpl.
  - intros [= <- <-]. auto.
  - unfold bind.
    destruct (InitComm rt gs (job_strategy job) (job_entries job) (job_devices job) s)
      as [r1 s1] eqn:E1.
    intros E Hc Hnn.
    pose proof (InitComm_keeps_entries _ _ _ _ _ _ _ _ E1 Hc Hnn) as H1.
    destruct r1; try (inversion E; subst; auto; fail).
    eapply IH; eauto.
Qed.

Lemma cache_built_insert key comm s s' :
  cache_built s -> comm <> nullptr ->
  nccl_comms s' = <[key := comm]> (nccl_comms s) -> cache_built s'.
Proof.
  intros Hs Hnn E key' comm'. rewrite E.
  destruct (decide (key = key')) as [-> | Hne].
  - rewrite lookup_insert_eq. congruence.
  - rewrite lookup_insert_ne by assumption. apply Hs.
Qed.

Lemma builds_build_protocol strategy nccl_id :
  builds (build_protocol gs strategy nccl_id) = 1%nat.
Proof.
  unfold builds, build_protocol.
  destruct (PopulateCommStrategy gs strategy) as [[nccl_rank nccl_size] scope].
  destruct (nccl_rank =? 0); reflexivity.
Qed.

Lemma builds_app calls calls' :
  builds (calls ++ calls') = (builds calls + builds calls')%nat.
Proof. unfold builds. rewrite List.filter_app, length_app. reflexivity. Qed.

(** Over any sequence of jobs, the communicators built are as many as
    the distinct keys not yet in the cache. *)
Lemma InitComm_jobs_builds jobs keys s :
  runtime_succeeds rt ->
  Forall2 (fun job key => job_key gs job = Some key) jobs keys ->
  cache_built s ->
  exists s' delta,
    InitComm_jobs rt gs jobs s = (Ok tt, s') /\
    trace s' = trace s ++ delta /\
    builds delta = base.size (list_to_set keys ∖ dom (nccl_comms s) : gset (list Z)) /\
    cache_built s'.
Proof.
  intros Hrt Hkeys. revert s.
  induction Hkeys as [| job key jobs keys Hkey _ IH]; intros s Hbuilt; simpl.
  - exists s, []. rewrite app_nil_r. repeat split; auto.
    replace (∅ ∖ dom (nccl_comms s)) with (∅ : gset (list Z)) by set_solver.
    reflexivity.
  - unfold job_key in Hkey.
    destruct (nccl_comms s !! key) as [comm |] eqn:Hc.
    + pose proof (Hbuilt _ _ Hc) as Hnn.
      rewrite (bind_Ok _ _ _ _ _ (InitComm_hit _ (job_entries job) _ _ _ _ Hkey Hc Hnn)).
      destruct (IH (set_nccl_comm_ (Some key) s)) as (s' & delta & E & Ht & Hb & Hb');
        [exact Hbuilt |].
      exists s', delta. repeat split; auto.
      rewrite Hb. simpl. f_equal.
      assert (key ∈ dom (nccl_comms s)) by (apply elem_of_dom; eauto).
      set_solver.
    + destruct (InitComm_miss _ (job_entries job) _ _ s Hrt Hkey (or_introl Hc))
        as (nccl_id & comm & s1 & Hnn & E1 & Hm1 & Ht1).
      rewrite (bind_Ok _ _ _ _ _ E1).
      destruct (IH s1) as (s' & delta & E & Ht & Hb & Hb');
        [eapply cache_built_insert; eauto |].
      exists s', (build_protocol gs (job_strategy job) nccl_id ++ delta).
      split; [exact E |]. split; [rewrite Ht, Ht1, <- app_assoc; reflexivity |].
      split; [| exact Hb'].
      rewrite builds_app, builds_build_protocol, Hb, Hm1, dom_insert_L. simpl.
      assert (key ∉ dom (nccl_comms s)) by (apply not_elem_of_dom; auto).
      replace (({[key]} ∪ list_to_set keys) ∖ dom (nccl_comms s))
        with ({[key]} ∪ (list_to_set keys ∖ ({[key]} ∪ dom (nccl_comms s)))
              : gset (list Z)).
      * pose proof (@size_union (list Z) (gset (list Z)) _ _ _ _ _ _ _ _ _ {[key]}
                      (list_to_set keys ∖ ({[key]} ∪ dom (nccl_comms s)))) as Hsz.
        rewrite Hsz by set_solver.
        pose proof (@size_singleton (list Z) (gset (list Z)) _ _ _ _ _ _ _ _ _ key) as H1.
        rewrite H1. reflexivity.
      * apply set_eq. intros k. destruct (decide (k = key)); set_solver.
Qed.

End CommunicatorCache.

(** C4.  The cache builds at most one communicator per key.  A lookup
    that finds a non-null handle makes no call at all; a lookup that finds
    the key absent (or bound to a null handle) runs the build protocol
    once - unique id on rank 0 of the group, broadcast, init-with-rank,
    barrier - and binds the key to the new handle; whatever the outcome of
    later jobs, a bound key keeps its handle; over any sequence of jobs the
    number of builds is the number of distinct keys not yet in the cache,
    so two batches with the same device tuple perform exactly one build. *)
Theorem communicator_built_once_per_key (rt : Runtime) (gs : HorovodGlobalState) :
  (forall strategy entries devices key comm s,
     GetDeviceMap gs strategy devices = Some key ->
     nccl_comms s !! key = Some comm -> comm <> nullptr ->
     exists s',
       InitComm rt gs strategy entries devices s = (Ok tt, s') /\
       trace s' = trace s /\ nccl_comms s' = nccl_comms s) /\
  (runtime_succeeds rt ->
   forall strategy entries devices key s,
     GetDeviceMap gs strategy devices = Some key ->
     nccl_comms s !! key = None \/ nccl_comms s !! key = Some nullptr ->
     exists nccl_id comm s',
       comm <> nullptr /\
       InitComm rt gs strategy entries devices s = (Ok tt, s') /\
       nccl_comms s' = <[key := comm]> (nccl_comms s) /\
       trace s' = trace s ++ build_protocol gs strategy nccl_id) /\
  (forall jobs s r s' key comm,
     InitComm_jobs rt gs jobs s = (r, s') ->
     nccl_comms s !! key = Some comm -> comm <> nullptr ->
     nccl_comms s' !! key = Some comm) /\
  (runtime_succeeds rt ->
   forall jobs keys s,
     Forall2 (fun job key => job_key gs job = Some key) jobs keys ->
     cache_built s ->
     exists s' delta,
       InitComm_jobs rt gs jobs s = (Ok tt, s') /\
       trace s' = trace s ++ delta /\
       builds delta = base.size (list_to_set keys ∖ dom (nccl_comms s) : gset (list Z))) /\
  (runtime_succeeds rt ->
   forall job1 job2 key s,
     job_key gs job1 = Some key -> job_key gs job2 = Some key ->
     cache_built s -> nccl_comms s !! key = None ->
     exists s' delta,
       InitComm_jobs rt gs [job1; job2] s = (Ok tt, s') /\
       trace s' = trace s ++ delta /\
       builds delta = 1%nat).
Proof.
  split; [| split; [| split; [| split]]].
  - intros strategy entries devices key comm s Hkey Hc Hnn.
    rewrite (InitComm_hit rt gs _ entries _ _ _ _ Hkey Hc Hnn).
    eexists. split; [reflexivity |]. split; reflexivity.
  - intros Hrt strategy entries devices key s Hkey Hc.
    apply InitComm_miss; assumption.
  - intros jobs s r s' key comm. apply InitComm_jobs_keep_entries.
  - intros Hrt jobs keys s Hkeys Hbuilt.
    destruct (InitComm_jobs_builds rt gs jobs keys s Hrt Hkeys Hbuilt)
      as (s' & delta & E & Ht & Hb & _).
    eauto.
  - intros Hrt job1 job2 key s Hk1 Hk2 Hbuilt Hc.
    destruct (InitComm_jobs_builds rt gs [job1; job2] [key; key] s Hrt) as
      (s' & delta & E & Ht & Hb & _); [repeat constructor; assumption | assumption |].
    exists s', delta. split; [exact E |]. split; [exact Ht |].
    rewrite Hb.
    assert (key ∉ dom (nccl_comms s)) by (apply not_elem_of_dom; auto).
    replace (list_to_set [key; key] ∖ dom (nccl_comms s))
      with ({[key]} : gset (list Z)) by set_solver.
    apply (@size_singleton (list Z) (gset (list Z)) _ _ _ _ _ _ _ _ _ key).
Qed.

(** Two batches of the worker on GPU 1 of the second node, same device
    tuple, starting from an empty cache: one [ncclCommInitRank]. *)
Lemma communicator_built_once_per_key_witness :
  exists s' delta,
    InitComm_jobs healthy_runtime (example_worker false true 1)
      [ {| job_strategy := NCCLHierarchicalAllreduce;
           job_entries := [example_entry "a" HOROVOD_FLOAT32 16 1];
           job_devices := [0; 1; 0; 1] |};
        {| job_strategy := NCCLHierarchicalAllreduce;
           job_entries := [example_entry "b" HOROVOD_FLOAT32 64 1];
           job_devices := [0; 1; 0; 1] |} ] initial_state = (Ok tt, s') /\
    trace s' = trace initial_state ++ delta /\
    builds delta = 1%nat.
Proof.
  destruct (communicator_built_once_per_key healthy_runtime (example_worker false true 1))
    as (_ & _ & _ & _ & H).
  apply (H healthy_runtime_succeeds _ _ [0; 1]).
  - reflexivity.
  - reflexivity.
  - intros key comm Hc. simpl in Hc. rewrite lookup_empty in Hc. discriminate.
  - reflexivity.
Defined.

(** ** How a computation moves the state *)

Lemma extends_refl s : extends s s [].
Proof. split; auto. rewrite app_nil_r. reflexivity. Qed.

Lemma extends_trans s s' s'' delta delta' :
  extends s s' delta -> extends s' s'' delta' -> extends s s'' (delta ++ delta').
Proof.
  intros [] []. split; try congruence.
  rewrite app_assoc. congruence.
Qed.

Lemma extends_log s c : extends s (log c s) [c].
Proof. split; reflexivity. Qed.

Lemma quiet_app delta delta' : quiet delta -> quiet delta' -> quiet (delta ++ delta').
Proof. apply Forall_app_2. Qed.

Lemma data_path_app delta delta' :
  data_path (delta ++ delta') = data_path delta ++ data_path delta'.
Proof. apply List.filter_app. Qed.

Lemma data_path_quiet delta : quiet delta -> data_path delta = [].
Proof.
  induction 1 as [| c delta Hc _ IH]; [reflexivity |].
  unfold data_path in *. simpl. rewrite Hc. exact IH.
Qed.

Lemma device_collectives_app delta delta' :
  device_collectives (delta ++ delta') =
    device_collectives delta ++ device_collectives delta'.
Proof. apply List.filter_app. Qed.

Lemma device_collectives_data_path delta :
  device_collectives (data_path delta) = device_collectives delta.
Proof.
  induction delta as [| c delta IH]; [reflexivity |].
  unfold device_collectives, data_path in *. simpl.
  destruct c; simpl; rewrite ?IH; reflexivity.
Qed.

Lemma callbacks_app delta delta' :
  callbacks (delta ++ delta') = callbacks delta ++ callbacks delta'.
Proof. apply List.filter_app. Qed.

Lemma callbacks_data_path delta : callbacks (data_path delta) = callbacks delta.
Proof.
  induction delta as [| c delta IH]; [reflexivity |].
  unfold callbacks, data_path in *. simpl.
  destruct c; simpl; rewrite ?IH; reflexivity.
Qed.

Lemma bound_extends s s' delta dev stream key comm :
  extends s s' delta -> bound s dev stream key comm -> bound s' dev stream key comm.
Proof. intros [] []. split; congruence. Qed.

Lemma deref_stream_bound s dev stream key comm :
  bound s dev stream key comm -> deref_stream_ s = (Ok stream, s).
Proof. intros [H1 H2 _ _]. unfold deref_stream_. rewrite H1, H2. reflexivity. Qed.

Lemma deref_nccl_comm_bound s dev stream key comm :
  bound s dev stream key comm -> deref_nccl_comm_ s = (Ok comm, s).
Proof. intros [_ _ H1 H2]. unfold deref_nccl_comm_. rewrite H1, H2. reflexivity. Qed.

Lemma streams_at_bound s dev stream key comm :
  bound s dev stream key comm -> streams_at dev s = (Ok stream, s).
Proof. intros [_ H _ _]. unfold streams_at. rewrite H. reflexivity. Qed.

Section Events.

Variable rt : Runtime.
Variable gs : HorovodGlobalState.
Hypothesis Hrt : runtime_succeeds rt.

Lemma cuda_call_succeeds c s : cuda_call rt c s = (Ok cudaSuccess, log c s).
Proof. unfold cuda_call, call, bind, ret. rewrite (cuda_ok rt Hrt). reflexivity. Qed.

Lemma nccl_call_succeeds c s : nccl_call rt c s = (Ok ncclSuccess, log c s).
Proof. unfold nccl_call, call, bind, ret. rewrite (nccl_ok rt Hrt). reflexivity. Qed.

Lemma GetCudaEvent_succeeds s :
  exists event s' delta,
    GetCudaEvent rt s = (Ok (cudaSuccess, event), s') /\
    extends s s' delta /\ quiet delta /\ event_waits delta = [] /\
    host_buffer_ s' = host_buffer_ s /\ event_queue_ s' = event_queue_ s.
Proof.
  destruct (event_pool s (current_device s)) as [| event rest] eqn:Hq.
  - unfold event_pool in Hq.
    unfold GetCudaEvent, cudaGetDevice_, cuda_call, call, gets, ret, bind. simpl.
    rewrite (cuda_ok rt Hrt). simpl. unfold cuda_events_at. simpl.
    destruct (cuda_events s !! current_device s) as [queue |] eqn:E; simpl in *;
      [subst queue |]; simpl; rewrite (cuda_ok rt Hrt);
      do 3 eexists; (split; [reflexivity |]);
      (split; [split; simpl; try reflexivity; rewrite <- app_assoc; reflexivity |]);
      (split; [repeat constructor | repeat split; reflexivity]).
  - unfold event_pool in Hq.
    destruct (cuda_events s !! current_device s) as [queue |] eqn:E;
      simpl in Hq; [subst queue | discriminate].
    rewrite (GetCudaEvent_recycles rt s event rest (cuda_ok rt Hrt _) E).
    exists event. eexists. exists [cudaGetDevice].
    split; [reflexivity |]. split; [split; reflexivity |].
    split; [repeat constructor | repeat split; reflexivity].
Qed.

Lemma ReleaseCudaEvent_succeeds event s :
  exists s',
    ReleaseCudaEvent rt event s = (Ok cudaSuccess, s') /\
    extends s s' [cudaGetDevice] /\
    host_buffer_ s' = host_buffer_ s /\ event_queue_ s' = event_queue_ s.
Proof.
  unfold ReleaseCudaEvent, cudaGetDevice_, cuda_call, call, gets, ret, bind. simpl.
  rewrite (cuda_ok rt Hrt). simpl. unfold cuda_events_at. simpl.
  destruct (cuda_events s !! current_device s) as [queue |]; simpl;
    eexists; (split; [reflexivity |]); (split; [split; reflexivity |]);
    split; reflexivity.
Qed.

Lemma event_waits_app delta delta' :
  event_waits (delta ++ delta') = event_waits delta ++ event_waits delta'.
Proof. apply List.filter_app. Qed.

Lemma RecordEvent_succeeds name stream s :
  exists s' delta,
    RecordEvent rt name stream s = (Ok tt, s') /\
    extends s s' delta /\ quiet delta /\ event_waits delta = [] /\
    host_buffer_ s' = host_buffer_ s /\
    exists event, event_queue_ s' = event_queue_ s ++ [(name, event)].
Proof.
  unfold RecordEvent.
  destruct (GetCudaEvent_succeeds s)
    as (event & s1 & delta & E1 & X1 & Q1 & W1 & Hb1 & Hq1).
  rewrite (bind_Ok _ _ _ _ _ E1). simpl.
  rewrite (bind_Ok _ _ s1 s1 tt) by reflexivity.
  rewrite (bind_Ok _ _ _ _ _ (cuda_call_succeeds _ s1)). simpl.
  rewrite (bind_Ok _ _ _ (log (cudaEventRecord event stream) s1) tt) by reflexivity.
  unfold modify. do 2 eexists. split; [reflexivity |].
  split; [| split; [| split; [| split]]].
  - eapply extends_trans; [exact X1 |]. split; reflexivity.
  - apply quiet_app; [exact Q1 | repeat constructor].
  - rewrite event_waits_app, W1. reflexivity.
  - simpl. exact Hb1.
  - exists event. simpl. rewrite Hq1. reflexivity.
Qed.

(** Draining a queue waits on each of its events, front first. *)
Lemma WaitForEvents_loop_succeeds queue s :
  exists s' delta,
    WaitForEvents_loop rt queue s = (Ok tt, s') /\
    extends s s' delta /\ quiet delta /\
    event_waits delta = map (fun slot => cudaEventSynchronize (snd slot)) queue /\
    host_buffer_ s' = host_buffer_ s /\
    event_queue_ s' = match queue with [] => event_queue_ s | _ => [] end.
Proof.
  revert s. induction queue as [| [name event] rest IH]; intros s.
  - exists s, []. simpl. repeat split; try reflexivity.
    + rewrite app_nil_r. reflexivity.
    + constructor.
  - cbn [WaitForEvents_loop].
    set (s0 := set_event_queue_ rest s).
    rewrite (bind_Ok _ _ s s0 tt) by reflexivity.
    set (started := if (name =? "")%string then [] else [Timeline_ActivityStartAll name]).
    set (ended := if (name =? "")%string then [] else [Timeline_ActivityEndAll]).
    assert (exists s1,
      (if (name =? "")%string then ret tt
       else _ <- call (Timeline_ActivityStartAll name);; ret tt) s0 = (Ok tt, s1) /\
      extends s0 s1 started /\ host_buffer_ s1 = host_buffer_ s0 /\
      event_queue_ s1 = event_queue_ s0) as (s1 & E1 & X1 & Hb1 & Hq1).
    { subst started. destruct (name =? "")%string.
      - exists s0. repeat split; try reflexivity. rewrite app_nil_r. reflexivity.
      - eexists. split; [reflexivity |]. repeat split; reflexivity. }
    rewrite (bind_Ok _ _ _ _ _ E1).
    rewrite (bind_Ok _ _ _ _ _ (cuda_call_succeeds _ s1)). simpl.
    set (s2 := log (cudaEventSynchronize event) s1).
    rewrite (bind_Ok _ _ s2 s2 tt) by reflexivity.
    assert (exists s3,
      (if (name =? "")%string then ret tt
       else _ <- call Timeline_ActivityEndAll;; ret tt) s2 = (Ok tt, s3) /\
      extends s2 s3 ended /\ host_buffer_ s3 = host_buffer_ s2 /\
      event_queue_ s3 = event_queue_ s2) as (s3 & E3 & X3 & Hb3 & Hq3).
    { subst ended. destruct (name =? "")%string.
      - exists s2. repeat split; try reflexivity. rewrite app_nil_r. reflexivity.
      - eexists. split; [reflexivity |]. repeat split; reflexivity. }
    rewrite (bind_Ok _ _ _ _ _ E3).
    destruct (ReleaseCudaEvent_succeeds event s3) as (s4 & E4 & X4 & Hb4 & Hq4).
    rewrite (bind_Ok _ _ _ _ _ E4). simpl.
    rewrite (bind_Ok _ _ s4 s4 tt) by reflexivity.
    destruct (IH s4) as (s5 & delta & E5 & X5 & Q5 & W5 & Hb5 & Hq5).
    exists s5, (started ++ [cudaEventSynchronize event] ++ ended
                ++ [cudaGetDevice] ++ delta).
    split; [exact E5 |]. split; [| split; [| split; [| split]]].
    + assert (extends s s0 []) as X0.
      { subst s0. split; try reflexivity. simpl. rewrite app_nil_r. reflexivity. }
      assert (extends s1 s2 [cudaEventSynchronize event]) as X2
        by (subst s2; apply extends_log).
      pose proof (extends_trans _ _ _ _ _ X0
                   (extends_trans _ _ _ _ _ X1
                     (extends_trans _ _ _ _ _ X2
                       (extends_trans _ _ _ _ _ X3
                         (extends_trans _ _ _ _ _ X4 X5))))) as X.
      exact X.
    + subst started ended.
      destruct (name =? "")%string; repeat (apply quiet_app || constructor);
        try reflexivity; exact Q5.
    + subst started ended. rewrite !event_waits_app, W5.
      destruct (name =? "")%string; reflexivity.
    + rewrite Hb5, Hb4, Hb3. subst s2. simpl. rewrite Hb1. reflexivity.
    + rewrite Hq5. destruct rest; [| reflexivity].
      rewrite Hq4, Hq3. subst s2. simpl. rewrite Hq1. reflexivity.
Qed.

Lemma WaitForEvents_succeeds s :
  exists s' delta,
    WaitForEvents rt s = (Ok tt, s') /\
    extends s s' delta /\ quiet delta /\
    event_waits delta =
      map (fun slot => cudaEventSynchronize (snd slot)) (event_queue_ s) /\
    host_buffer_ s' = host_buffer_ s /\ event_queue_ s' = [].
Proof.
  unfold WaitForEvents.
  rewrite (bind_Ok _ _ s s (event_queue_ s)) by reflexivity.
  destruct (WaitForEvents_loop_succeeds (event_queue_ s) s)
    as (s' & delta & E & X & Q & W & Hb & Hq).
  exists s', delta.
  split; [exact E |]. split; [exact X |]. split; [exact Q |].
  split; [exact W |]. split; [exact Hb |].
  rewrite Hq. destruct (event_queue_ s); reflexivity.
Qed.

Lemma RecordEventEnd_succeeds event_name entries s dev stream key comm :
  bound s dev stream key comm ->
  exists s' delta,
    RecordEventEnd rt gs event_name entries s = (Ok tt, s') /\
    extends s s' delta /\ quiet delta /\ event_waits delta = [] /\
    host_buffer_ s' = host_buffer_ s.
Proof.
  intros Hb. unfold RecordEventEnd.
  destruct (timeline_initialized gs).
  - rewrite (bind_Ok _ _ _ _ _ (deref_stream_bound _ _ _ _ _ Hb)).
    destruct (RecordEvent_succeeds event_name stream s)
      as (s' & delta & E & X & Q & W & H & _).
    eauto 10.
  - exists s, []. repeat split; try reflexivity.
    + rewrite app_nil_r. reflexivity.
    + constructor.
Qed.

End Events.

(** ** The hierarchical allreduce, phase by phase *)

Section HierarchicalTrace.

Variable DataType_Name : DataType -> string.
Variable atom : Z.
Variable rt : Runtime.
Variable gs : HorovodGlobalState.

Hypothesis Hrt : runtime_succeeds rt.

(** A collective whose data type maps: the call is issued, then the
    stage event is recorded. *)
Lemma collective_succeeds (mk : ncclDataType_t -> Z -> Z -> Call)
    op_name event_name entries first_entry dt s dev stream key comm :
  GetNCCLDataType DataType_Name (tensor_dtype first_entry) = Ok dt ->
  bound s dev stream key comm ->
  exists s' delta,
    (dt <- lift (GetNCCLDataType DataType_Name (tensor_dtype first_entry)) ;;
     comm <- deref_nccl_comm_ ;;
     stream <- deref_stream_ ;;
     nccl_result <- nccl_call rt (mk dt comm stream) ;;
     NCCLContext_ErrorCheck rt op_name nccl_result ;;;
     RecordEventEnd rt gs event_name entries) s = (Ok tt, s') /\
    extends s s' delta /\
    data_path delta = data_path [mk dt comm stream] /\
    host_buffer_ s' = host_buffer_ s.
Proof.
  intros Hdt Hb. rewrite Hdt.
  rewrite (bind_Ok _ _ s s dt) by reflexivity.
  rewrite (bind_Ok _ _ _ _ _ (deref_nccl_comm_bound _ _ _ _ _ Hb)).
  rewrite (bind_Ok _ _ _ _ _ (deref_stream_bound _ _ _ _ _ Hb)).
  rewrite (bind_Ok _ _ _ _ _ (nccl_call_succeeds rt Hrt _ s)).
  set (s1 := log (mk dt comm stream) s).
  rewrite (bind_Ok _ _ s1 s1 tt) by reflexivity.
  assert (bound s1 dev stream key comm) as Hb1
    by (eapply bound_extends; [apply extends_log | exact Hb]).
  destruct (RecordEventEnd_succeeds rt gs Hrt event_name entries s1 _ _ _ _ Hb1)
    as (s' & delta & E & X & Q & _ & Hh).
  exists s', ([mk dt comm stream] ++ delta).
  split; [exact E |]. split; [| split].
  - eapply extends_trans; [apply extends_log | exact X].
  - rewrite data_path_app, (data_path_quiet _ Q), app_nil_r. reflexivity.
  - rewrite Hh. reflexivity.
Qed.

(** A collective whose data type does not map: the exception leaves
    before anything is issued. *)
Lemma collective_throws (mk : ncclDataType_t -> Z -> Z -> Call)
    op_name event_name entries first_entry what s :
  GetNCCLDataType DataType_Name (tensor_dtype first_entry) = Throw what ->
  (dt <- lift (GetNCCLDataType DataType_Name (tensor_dtype first_entry)) ;;
   comm <- deref_nccl_comm_ ;;
   stream <- deref_stream_ ;;
   nccl_result <- nccl_call rt (mk dt comm stream) ;;
   NCCLContext_ErrorCheck rt op_name nccl_result ;;;
   RecordEventEnd rt gs event_name entries) s = (Throw what, s).
Proof. intros Hdt. rewrite Hdt. reflexivity. Qed.

Section Phases.

Variable entries : list TensorTableEntry.
Variable first_entry : TensorTableEntry.
Variables fused_input_data buffer_data E : Z.
Variable dt : ncclDataType_t.
Variable dev stream : Z.
Variable key : list Z.
Variable comm : Z.
Hypothesis Hdt : GetNCCLDataType DataType_Name (tensor_dtype first_entry) = Ok dt.

Lemma reduce_scatter_phase_succeeds s :
  bound s dev stream key comm ->
  exists s' delta,
    reduce_scatter_phase DataType_Name rt gs entries first_entry fused_input_data
      (job_rank_offset rt gs first_entry buffer_data E)
      (num_elements_per_rank gs E) s = (Ok tt, s') /\
    extends s s' delta /\
    data_path delta =
      reduce_scatter_calls rt gs first_entry fused_input_data buffer_data E dt comm stream /\
    host_buffer_ s' = host_buffer_ s.
Proof.
  intros Hb. unfold reduce_scatter_phase, reduce_scatter_calls.
  destruct (num_elements_per_rank gs E >? 0).
  - apply (collective_succeeds
             (fun dt comm stream => ncclReduceScatter _ _ _ dt ncclSum comm stream)
             _ _ _ _ _ _ _ _ _ _ Hdt Hb).
  - exists s, []. split; [reflexivity |]. split; [apply extends_refl |].
    split; reflexivity.
Qed.

Lemma reduce_phase_succeeds s :
  bound s dev stream key comm ->
  exists s' delta,
    reduce_phase DataType_Name rt gs entries first_entry
      (fused_input_data + remainder_offset gs (job_element_size rt first_entry) E)
      (buffer_data + remainder_offset gs (job_element_size rt first_entry) E)
      (num_elements_remaining gs E) s = (Ok tt, s') /\
    extends s s' delta /\
    data_path delta =
      reduce_calls rt gs first_entry fused_input_data buffer_data E dt comm stream /\
    host_buffer_ s' = host_buffer_ s.
Proof.
  intros Hb. unfold reduce_phase, reduce_calls.
  destruct (num_elements_remaining gs E >? 0).
  - apply (collective_succeeds
             (fun dt comm stream => ncclReduce _ _ _ dt ncclSum _ comm stream)
             _ _ _ _ _ _ _ _ _ _ Hdt Hb).
  - exists s, []. split; [reflexivity |]. split; [apply extends_refl |].
    split; reflexivity.
Qed.

Lemma allgather_phase_succeeds s :
  bound s dev stream key comm ->
  exists s' delta,
    allgather_phase DataType_Name rt gs entries first_entry
      (job_rank_offset rt gs first_entry buffer_data E) buffer_data
      (num_elements_per_rank gs E) s = (Ok tt, s') /\
    extends s s' delta /\
    data_path delta = allgather_calls rt gs first_entry buffer_data E dt comm stream /\
    host_buffer_ s' = host_buffer_ s.
Proof.
  intros Hb. unfold allgather_phase, allgather_calls.
  destruct (num_elements_per_rank gs E >? 0).
  - apply (collective_succeeds
             (fun dt comm stream => ncclAllGather _ _ _ dt comm stream)
             _ _ _ _ _ _ _ _ _ _ Hdt Hb).
  - exists s, []. split; [reflexivity |]. split; [apply extends_refl |].
    split; reflexivity.
Qed.

Lemma bcast_phase_succeeds s :
  bound s dev stream key comm ->
  exists s' delta,
    bcast_phase DataType_Name rt gs entries first_entry
      (buffer_data + remainder_offset gs (job_element_size rt first_entry) E)
      (num_elements_remaining gs E) s = (Ok tt, s') /\
    extends s s' delta /\
    data_path delta = bcast_calls rt gs first_entry buffer_data E dt comm stream /\
    host_buffer_ s' = host_buffer_ s.
Proof.
  intros Hb. unfold bcast_phase, bcast_calls.
  destruct (num_elements_remaining gs E >? 0).
  - apply (collective_succeeds
             (fun dt comm stream => ncclBcast _ _ dt _ comm stream)
             _ _ _ _ _ _ _ _ _ _ Hdt Hb).
  - exists s, []. split; [reflexivity |]. split; [apply extends_refl |].
    split; reflexivity.
Qed.

(** The cross-node phase runs on a homogeneous cluster and on the root
    rank; it leaves the block it allocated in [host_buffer_]. *)
Lemma cross_node_phase_succeeds s :
  bound s dev stream key comm ->
  exists s' delta,
    cross_node_phase rt gs entries first_entry
      (job_rank_offset rt gs first_entry buffer_data E)
      (total_num_elements gs E)
      (total_buffer_len gs (job_element_size rt first_entry) E) s = (Ok tt, s') /\
    extends s s' delta /\
    data_path delta =
      cross_node_calls rt gs first_entry buffer_data E stream (host_buffer_ s') /\
    (if is_homogeneous gs || is_root_rank gs
     then host_buffer_ s' <> nullptr
     else host_buffer_ s' = host_buffer_ s).
Proof.
  intros Hb. unfold cross_node_phase, cross_node_calls.
  destruct (is_homogeneous gs || is_root_rank gs).
  2: { exists s, []. split; [reflexivity |]. split; [apply extends_refl |].
       split; reflexivity. }
  set (len := total_buffer_len gs (job_element_size rt first_entry) E).
  set (off := job_rank_offset rt gs first_entry buffer_data E).
  step_call.
  set (p := new_handle rt (length (trace s))).
  set (s2 := set_host_buffer_ p (log (malloc len) s)).
  rewrite (bind_Ok _ _ (log (malloc len) s) s2 tt) by reflexivity.
  assert (extends s s2 [malloc len]) as X2 by (split; reflexivity).
  destruct (WaitForEvents_succeeds rt Hrt s2)
    as (s3 & d3 & E3 & X3 & Q3 & _ & Hh3 & _).
  rewrite (bind_Ok _ _ _ _ _ E3).
  assert (extends s s3 ([malloc len] ++ d3)) as X
    by (eapply extends_trans; [exact X2 | exact X3]).
  pose proof (bound_extends _ _ _ _ _ _ _ X Hb) as [B1 B2 _ _].
  assert (host_buffer_ s3 = p) as Hp by (rewrite Hh3; reflexivity).
  step_call.
  rewrite (bind_Ok _ _ _ _ p) by (unfold gets; simpl; rewrite Hp; reflexivity).
  rewrite (bind_Ok _ _ _ _ stream)
    by (unfold deref_stream_; simpl; rewrite B1, B2; reflexivity).
  rewrite (bind_Ok _ _ _ _ _ (cuda_call_succeeds rt Hrt _ _)).
  step_ret.
  do 5 step_call.
  rewrite (bind_Ok _ _ _ _ _ (cuda_call_succeeds rt Hrt _ _)).
  step_ret.
  step_call.
  exists (log Timeline_ActivityEndAll
            (log (cudaMemcpyAsync off p len cudaMemcpyHostToDevice stream)
            (log (Timeline_ActivityStartAll MEMCPY_OUT_HOST_BUFFER)
            (log Timeline_ActivityEndAll
            (log (Channel_Allreduce p (total_num_elements gs E) first_entry CROSS)
            (log (Timeline_ActivityStartAll MPI_ALLREDUCE)
            (log Timeline_ActivityEndAll
            (log (cudaMemcpyAsync p off len cudaMemcpyDeviceToHost stream)
            (log (Timeline_ActivityStartAll MEMCPY_IN_HOST_BUFFER) s3))))))))).
  exists (([malloc len] ++ d3)
          ++ [Timeline_ActivityStartAll MEMCPY_IN_HOST_BUFFER;
              cudaMemcpyAsync p off len cudaMemcpyDeviceToHost stream;
              Timeline_ActivityEndAll;
              Timeline_ActivityStartAll MPI_ALLREDUCE;
              Channel_Allreduce p (total_num_elements gs E) first_entry CROSS;
              Timeline_ActivityEndAll;
              Timeline_ActivityStartAll MEMCPY_OUT_HOST_BUFFER;
              cudaMemcpyAsync off p len cudaMemcpyHostToDevice stream;
              Timeline_ActivityEndAll]).
  split; [reflexivity |]. split; [| split].
  - eapply extends_trans; [exact X |]. split; try reflexivity.
    simpl. rewrite <- !app_assoc. reflexivity.
  - simpl. rewrite Hp.
    rewrite !data_path_app, (data_path_quiet _ Q3). reflexivity.
  - simpl. rewrite Hp. apply (handle_nonnull rt Hrt).
Qed.

End Phases.

End HierarchicalTrace.

Section HierarchicalAllreduce.

Variable DataType_Name : DataType -> string.
Variable atom : Z.
Variable rt : Runtime.
Variable gs : HorovodGlobalState.
Hypothesis Hrt : runtime_succeeds rt.

Variable first_entry : TensorTableEntry.
Variable more_entries : list TensorTableEntry.
Variables fused_input_data buffer_data num_elements buffer_len : Z.
Variable dt : ncclDataType_t.
Variable dev stream : Z.
Variable key : list Z.
Variable comm : Z.
Hypothesis Hdt : GetNCCLDataType DataType_Name (tensor_dtype first_entry) = Ok dt.

(** The element count after padding. *)
Local Abbreviation effective :=
  (effective_num_elements atom gs first_entry more_entries num_elements).

(** The whole of [NCCLHierarchicalAllreduce::DoAllreduce] on a bound op
    whose element type NCCL accepts, with every runtime call
    succeeding. *)
Lemma hierarchical_DoAllreduce_succeeds s :
  bound s dev stream key comm ->
  exists s' delta len,
    NCCLHierarchicalAllreduce_DoAllreduce DataType_Name atom rt gs
      (first_entry :: more_entries) fused_input_data buffer_data
      num_elements buffer_len s = (Ok (effective, len), s') /\
    extends s s' delta /\
    data_path delta =
      reduce_scatter_calls rt gs first_entry fused_input_data buffer_data
        effective dt comm stream
      ++ reduce_calls rt gs first_entry fused_input_data buffer_data
           effective dt comm stream
      ++ cross_node_calls rt gs first_entry buffer_data effective
           stream (host_buffer_ s')
      ++ allgather_calls rt gs first_entry buffer_data effective dt comm stream
      ++ bcast_calls rt gs first_entry buffer_data effective dt comm stream /\
    (if is_homogeneous gs || is_root_rank gs
     then host_buffer_ s' <> nullptr
     else host_buffer_ s' = host_buffer_ s).
Proof.
  intros Hb. unfold NCCLHierarchicalAllreduce_DoAllreduce.
  rewrite (bind_Ok _ _ s s first_entry) by reflexivity.
  cbv zeta.
  fold (effective_num_elements atom gs first_entry more_entries num_elements).
  set (E := effective_num_elements atom gs first_entry more_entries num_elements).
  destruct (reduce_scatter_phase_succeeds DataType_Name rt gs Hrt
              (first_entry :: more_entries) first_entry fused_input_data buffer_data
              E dt dev stream key comm Hdt s Hb)
    as (s1 & d1 & E1 & X1 & P1 & H1).
  unfold job_rank_offset, job_element_size in E1.
  rewrite (bind_Ok _ _ _ _ _ E1).
  pose proof (bound_extends _ _ _ _ _ _ _ X1 Hb) as Hb1.
  destruct (reduce_phase_succeeds DataType_Name rt gs Hrt
              (first_entry :: more_entries) first_entry fused_input_data buffer_data
              E dt dev stream key comm Hdt s1 Hb1)
    as (s2 & d2 & E2 & X2 & P2 & H2).
  unfold job_element_size in E2.
  rewrite (bind_Ok _ _ _ _ _ E2).
  pose proof (bound_extends _ _ _ _ _ _ _ X2 Hb1) as Hb2.
  destruct (cross_node_phase_succeeds rt gs Hrt
              (first_entry :: more_entries) first_entry buffer_data
              E dev stream key comm s2 Hb2)
    as (s3 & d3 & E3 & X3 & P3 & H3).
  unfold job_rank_offset, job_element_size in E3.
  rewrite (bind_Ok _ _ _ _ _ E3).
  pose proof (bound_extends _ _ _ _ _ _ _ X3 Hb2) as Hb3.
  destruct (allgather_phase_succeeds DataType_Name rt gs Hrt
              (first_entry :: more_entries) first_entry buffer_data
              E dt dev stream key comm Hdt s3 Hb3)
    as (s4 & d4 & E4 & X4 & P4 & H4).
  unfold job_rank_offset, job_element_size in E4.
  rewrite (bind_Ok _ _ _ _ _ E4).
  pose proof (bound_extends _ _ _ _ _ _ _ X4 Hb3) as Hb4.
  destruct (bcast_phase_succeeds DataType_Name rt gs Hrt
              (first_entry :: more_entries) first_entry buffer_data
              E dt dev stream key comm Hdt s4 Hb4)
    as (s5 & d5 & E5 & X5 & P5 & H5).
  unfold job_element_size in E5.
  rewrite (bind_Ok _ _ _ _ _ E5).
  exists s5, (d1 ++ d2 ++ d3 ++ d4 ++ d5). eexists.
  split; [reflexivity |]. split; [| split].
  - eapply extends_trans; [exact X1 |].
    eapply extends_trans; [exact X2 |].
    eapply extends_trans; [exact X3 |].
    eapply extends_trans; [exact X4 | exact X5].
  - rewrite !data_path_app, P1, P2, P3, P4, P5, H5, H4. reflexivity.
  - rewrite H5, H4.
    destruct (is_homogeneous gs || is_root_rank gs); [exact H3 | congruence].
Qed.

Lemma device_collectives_of_phases host_buffer E :
  device_collectives
    (reduce_scatter_calls rt gs first_entry fused_input_data buffer_data E dt comm stream
     ++ reduce_calls rt gs first_entry fused_input_data buffer_data E dt comm stream
     ++ cross_node_calls rt gs first_entry buffer_data E stream host_buffer
     ++ allgather_calls rt gs first_entry buffer_data E dt comm stream
     ++ bcast_calls rt gs first_entry buffer_data E dt comm stream)
  = reduce_scatter_calls rt gs first_entry fused_input_data buffer_data E dt comm stream
    ++ reduce_calls rt gs first_entry fused_input_data buffer_data E dt comm stream
    ++ allgather_calls rt gs first_entry buffer_data E dt comm stream
    ++ bcast_calls rt gs first_entry buffer_data E dt comm stream.
Proof.
  rewrite !device_collectives_app.
  unfold reduce_scatter_calls, reduce_calls, cross_node_calls, allgather_calls,
    bcast_calls.
  destruct (num_elements_per_rank gs E >? 0), (num_elements_remaining gs E >? 0),
    (is_homogeneous gs || is_root_rank gs); reflexivity.
Qed.

End HierarchicalAllreduce.

Lemma bound_state_bound dev stream key comm :
  bound (bound_state dev stream key comm) dev stream key comm.
Proof. split; simpl; try reflexivity; apply lookup_singleton_eq. Qed.

(** ** Order of the device collectives (C1) *)

(** C1.  In a hierarchical allreduce job (element type accepted by NCCL,
    runtime calls succeeding) the device collectives issued are exactly, in
    this order: a reduce-scatter on the op's communicator iff [Eper > 0], a
    reduce of the trailing [Erem] elements to the root iff [Erem > 0], an
    allgather iff [Eper > 0], a broadcast of the tail from the root iff
    [Erem > 0]; the calls of the host-side cross-node phase (allocation,
    copy to the host, channel allreduce, copy back), where that phase runs,
    lie between the reduce and the allgather; every other call of the job
    is event or timeline bookkeeping. *)
Theorem hierarchical_collectives_in_order
    (DataType_Name : DataType -> string) (atom : Z) (rt : Runtime)
    (gs : HorovodGlobalState) (first_entry : TensorTableEntry)
    (more_entries : list TensorTableEntry)
    (fused_input_data buffer_data num_elements buffer_len : Z)
    (dt : ncclDataType_t) (dev stream : Z) (key : list Z) (comm : Z) (s : State) :
  runtime_succeeds rt ->
  GetNCCLDataType DataType_Name (tensor_dtype first_entry) = Ok dt ->
  bound s dev stream key comm ->
  let E := effective_num_elements atom gs first_entry more_entries num_elements in
  exists s' delta len,
    NCCLHierarchicalAllreduce_DoAllreduce DataType_Name atom rt gs
      (first_entry :: more_entries) fused_input_data buffer_data
      num_elements buffer_len s = (Ok (E, len), s') /\
    trace s' = trace s ++ delta /\
    device_collectives delta =
      reduce_scatter_calls rt gs first_entry fused_input_data buffer_data E dt comm stream
      ++ reduce_calls rt gs first_entry fused_input_data buffer_data E dt comm stream
      ++ allgather_calls rt gs first_entry buffer_data E dt comm stream
      ++ bcast_calls rt gs first_entry buffer_data E dt comm stream /\
    data_path delta =
      reduce_scatter_calls rt gs first_entry fused_input_data buffer_data E dt comm stream
      ++ reduce_calls rt gs first_entry fused_input_data buffer_data E dt comm stream
      ++ cross_node_calls rt gs first_entry buffer_data E stream (host_buffer_ s')
      ++ allgather_calls rt gs first_entry buffer_data E dt comm stream
      ++ bcast_calls rt gs first_entry buffer_data E dt comm stream.
Proof.
  intros Hrt Hdt Hb E.
  destruct (hierarchical_DoAllreduce_succeeds DataType_Name atom rt gs Hrt
              first_entry more_entries fused_input_data buffer_data num_elements
              buffer_len dt dev stream key comm Hdt s Hb)
    as (s' & delta & len & Hrun & X & P & _).
  exists s', delta, len. split; [exact Hrun |]. split; [apply X |].
  split; [| exact P].
  rewrite <- device_collectives_data_path, P.
  apply device_collectives_of_phases.
Qed.

(** Scenario 4 of the spec on the root rank: 3 FLOAT32 elements,
    [local_size = 2]. *)
Lemma hierarchical_collectives_in_order_witness :
  exists s' delta len,
    NCCLHierarchicalAllreduce_DoAllreduce example_DataType_Name 64 healthy_runtime
      (example_worker false true 1) [example_entry "t" HOROVOD_FLOAT32 12 1]
      8192 8192 3 12 (bound_state 1 77 [0; 1] 88) = (Ok (3, len), s') /\
    trace s' = delta /\
    device_collectives delta =
      [ncclReduceScatter 8192 8196 1 ncclFloat32 ncclSum 88 77;
       ncclReduce 8200 8200 1 ncclFloat32 ncclSum 1 88 77;
       ncclAllGather 8196 8192 1 ncclFloat32 88 77;
       ncclBcast 8200 1 ncclFloat32 1 88 77] /\
    data_path delta =
      [ncclReduceScatter 8192 8196 1 ncclFloat32 ncclSum 88 77;
       ncclReduce 8200 8200 1 ncclFloat32 ncclSum 1 88 77;
       malloc 8;
       cudaMemcpyAsync (host_buffer_ s') 8196 8 cudaMemcpyDeviceToHost 77;
       Channel_Allreduce (host_buffer_ s') 2
         (example_entry "t" HOROVOD_FLOAT32 12 1) CROSS;
       cudaMemcpyAsync 8196 (host_buffer_ s') 8 cudaMemcpyHostToDevice 77;
       ncclAllGather 8196 8192 1 ncclFloat32 88 77;
       ncclBcast 8200 1 ncclFloat32 1 88 77].
Proof.
  exact (hierarchical_collectives_in_order example_DataType_Name 64 healthy_runtime
           (example_worker false true 1) (example_entry "t" HOROVOD_FLOAT32 12 1) []
           8192 8192 3 12 ncclFloat32 1 77 [0; 1] 88 (bound_state 1 77 [0; 1] 88)
           healthy_runtime_succeeds eq_refl (bound_state_bound 1 77 [0; 1] 88)).
Defined.

(** ** The split on the trace of a job (C2) *)

(** What [DoAllreduce] returns: the element count after padding, and the
    byte length recomputed from it when the count was padded. *)
Lemma hierarchical_DoAllreduce_returns
    (DataType_Name : DataType -> string) (atom : Z) (rt : Runtime)
    (gs : HorovodGlobalState) (first_entry : TensorTableEntry)
    (more_entries : list TensorTableEntry)
    (fused_input_data buffer_data num_elements buffer_len : Z)
    (s s' : State) (r : Z * Z) :
  NCCLHierarchicalAllreduce_DoAllreduce DataType_Name atom rt gs
    (first_entry :: more_entries) fused_input_data buffer_data
    num_elements buffer_len s = (Ok r, s') ->
  r = (effective_num_elements atom gs first_entry more_entries num_elements,
       if is_homogeneous gs && (1 <? Z.of_nat (length (first_entry :: more_entries)))
       then size_t (int64 (effective_num_elements atom gs first_entry more_entries
                             num_elements
                           * job_element_size rt first_entry))
       else buffer_len).
Proof.
  unfold NCCLHierarchicalAllreduce_DoAllreduce. intros H.
  apply bind_Ok_inv in H. destruct H as (fe & s0 & Hf & H).
  unfold front, defined in Hf. simpl in Hf. injection Hf as <- <-.
  cbv zeta in H.
  do 5 (apply bind_Ok_inv in H; destruct H as (? & ? & _ & H)).
  unfold ret in H. injection H as <- _. reflexivity.
Qed.

(** C2.  In a hierarchical allreduce job, with [E] the element count
    after padding: on a homogeneous cluster the reduce-scatter and the
    allgather move [Eper = E / local_size] elements per rank, the reduce
    and the broadcast of the tail move [Erem = E % local_size] elements
    (C++ [/] and [%]) with root [local_size - 1]; on a heterogeneous
    cluster [Eper = 0], [Erem = E] and the root is 0; and the cross-node
    allreduce a local rank makes on its host buffer is over [Eper + Erem]
    elements on the root rank and over [Eper] elements on the others, in
    a buffer allocated, and copied to and from, with the byte length of
    that many elements. *)
Theorem hierarchical_split
    (DataType_Name : DataType -> string) (atom : Z) (rt : Runtime)
    (gs : HorovodGlobalState) (first_entry : TensorTableEntry)
    (more_entries : list TensorTableEntry)
    (fused_input_data buffer_data num_elements buffer_len : Z)
    (dt : ncclDataType_t) (dev stream : Z) (key : list Z) (comm : Z) (s : State) :
  runtime_succeeds rt ->
  GetNCCLDataType DataType_Name (tensor_dtype first_entry) = Ok dt ->
  bound s dev stream key comm ->
  0 < local_size gs < 2 ^ 31 ->
  - 2 ^ 63 <= num_elements < 2 ^ 63 ->
  let E := effective_num_elements atom gs first_entry more_entries num_elements in
  let Eper := if is_homogeneous gs then E ÷ local_size gs else 0 in
  let Erem := if is_homogeneous gs then Z.rem E (local_size gs) else E in
  let root := if is_homogeneous gs then local_size gs - 1 else 0 in
  let count := if local_rank gs =? root then Eper + Erem else Eper in
  let element_size := job_element_size rt first_entry in
  let shard := job_rank_offset rt gs first_entry buffer_data E in
  let tail := remainder_offset gs element_size E in
  let bytes := total_buffer_len gs element_size E in
  exists s' delta len,
    NCCLHierarchicalAllreduce_DoAllreduce DataType_Name atom rt gs
      (first_entry :: more_entries) fused_input_data buffer_data
      num_elements buffer_len s = (Ok (E, len), s') /\
    trace s' = trace s ++ delta /\
    data_path delta =
      (if Eper >? 0
       then [ncclReduceScatter fused_input_data shard (size_t Eper) dt ncclSum
               comm stream]
       else [])
      ++ (if Erem >? 0
          then [ncclReduce (fused_input_data + tail) (buffer_data + tail)
                  (size_t Erem) dt ncclSum root comm stream]
          else [])
      ++ (if is_homogeneous gs || (local_rank gs =? root)
          then [malloc bytes;
                cudaMemcpyAsync (host_buffer_ s') shard bytes cudaMemcpyDeviceToHost
                  stream;
                Channel_Allreduce (host_buffer_ s') count first_entry CROSS;
                cudaMemcpyAsync shard (host_buffer_ s') bytes cudaMemcpyHostToDevice
                  stream]
          else [])
      ++ (if Eper >? 0
          then [ncclAllGather shard buffer_data (size_t Eper) dt comm stream]
          else [])
      ++ (if Erem >? 0
          then [ncclBcast (buffer_data + tail) (size_t Erem) dt root comm stream]
          else []) /\
    (0 < element_size -> 0 <= E -> E * element_size < 2 ^ 63 ->
     bytes = count * element_size).
Proof.
  intros Hrt Hdt Hb Hls Hn E Eper Erem root count element_size shard tail bytes.
  assert (- 2 ^ 63 <= E < 2 ^ 63) as HE by (apply padded_in_int64; exact Hn).
  destruct (split_values gs E Hls HE) as (Hhom & Hhet & Htot).
  destruct (hierarchical_DoAllreduce_succeeds DataType_Name atom rt gs Hrt
              first_entry more_entries fused_input_data buffer_data num_elements
              buffer_len dt dev stream key comm Hdt s Hb)
    as (s' & delta & len & Hrun & X & P & _).
  fold E in Hrun, P.
  assert (num_elements_per_rank gs E = Eper /\
          num_elements_remaining gs E = Erem /\ root_rank gs = root)
    as (Hper & Hrem & Hroot).
  { subst Eper Erem root. destruct (is_homogeneous gs).
    - apply Hhom. reflexivity.
    - apply Hhet. reflexivity. }
  assert (total_num_elements gs E = count) as Hcount
    by (subst count; rewrite Htot, Hper, Hrem, Hroot; reflexivity).
  exists s', delta, len. split; [exact Hrun |]. split; [apply X |]. split.
  - rewrite P.
    unfold reduce_scatter_calls, reduce_calls, cross_node_calls, allgather_calls,
      bcast_calls, is_root_rank.
    rewrite Hper, Hrem, Hroot, Hcount. reflexivity.
  - intros Hes HE0 Hlen. subst bytes. rewrite <- Hcount.
    apply total_buffer_len_bytes; [exact Hls | exact Hes | exact HE0 | exact Hlen].
Qed.

(** Scenario 4 of the spec on the root rank: 3 FLOAT32 elements,
    [local_size = 2]: one element per shard, one in the tail, two on the
    host of the root. *)
Lemma hierarchical_split_witness :
  exists s' delta len,
    NCCLHierarchicalAllreduce_DoAllreduce example_DataType_Name 64 healthy_runtime
      (example_worker false true 1) [example_entry "t" HOROVOD_FLOAT32 12 1]
      8192 8192 3 12 (bound_state 1 77 [0; 1] 88) = (Ok (3, len), s') /\
    trace s' = delta /\
    data_path delta =
      [ncclReduceScatter 8192 8196 1 ncclFloat32 ncclSum 88 77;
       ncclReduce 8200 8200 1 ncclFloat32 ncclSum 1 88 77;
       malloc 8;
       cudaMemcpyAsync (host_buffer_ s') 8196 8 cudaMemcpyDeviceToHost 77;
       Channel_Allreduce (host_buffer_ s') 2
         (example_entry "t" HOROVOD_FLOAT32 12 1) CROSS;
       cudaMemcpyAsync 8196 (host_buffer_ s') 8 cudaMemcpyHostToDevice 77;
       ncclAllGather 8196 8192 1 ncclFloat32 88 77;
       ncclBcast 8200 1 ncclFloat32 1 88 77].
Proof.
  destruct (hierarchical_split example_DataType_Name 64 healthy_runtime
              (example_worker false true 1) (example_entry "t" HOROVOD_FLOAT32 12 1) []
              8192 8192 3 12 ncclFloat32 1 77 [0; 1] 88 (bound_state 1 77 [0; 1] 88)
              healthy_runtime_succeeds eq_refl (bound_state_bound 1 77 [0; 1] 88)
              ltac:(simpl; lia) ltac:(lia))
    as (s' & delta & len & Hrun & Ht & Hdp & _).
  exists s', delta, len. split; [exact Hrun |]. split; [exact Ht | exact Hdp].
Defined.

(** ** The padded count a job returns (C3) *)

(** C3.  On a homogeneous cluster, for a batch of at least two entries,
    [DoAllreduce] rounds [num_elements] up to the smallest multiple of
    [local_size * FUSION_ATOM] not below it, returns that count through
    [num_elements] and the byte length of that many elements through
    [buffer_len]; for a single-entry batch and on a heterogeneous cluster
    it returns both as they came; 1026 elements with [local_size = 2] and
    an atom of 64 are returned as 1152, and the job's device collectives
    are a reduce-scatter and an allgather of [Eper = 576] elements, with
    no tail ([Erem = 0]). *)
Theorem padding_rounds_up
    (DataType_Name : DataType -> string) (atom : Z) (rt : Runtime)
    (gs : HorovodGlobalState) (first_entry : TensorTableEntry)
    (more_entries : list TensorTableEntry)
    (fused_input_data buffer_data num_elements buffer_len : Z)
    (dt : ncclDataType_t) (dev stream : Z) (key : list Z) (comm : Z) (s : State) :
  runtime_succeeds rt ->
  GetNCCLDataType DataType_Name (tensor_dtype first_entry) = Ok dt ->
  bound s dev stream key comm ->
  0 < local_size gs -> 0 < atom -> local_size gs * atom < 2 ^ 31 ->
  0 <= num_elements -> num_elements + local_size gs * atom < 2 ^ 63 ->
  exists s' delta E len,
    NCCLHierarchicalAllreduce_DoAllreduce DataType_Name atom rt gs
      (first_entry :: more_entries) fused_input_data buffer_data
      num_elements buffer_len s = (Ok (E, len), s') /\
    trace s' = trace s ++ delta /\
    (is_homogeneous gs = true -> more_entries <> [] ->
       E mod (local_size gs * atom) = 0 /\
       num_elements <= E /\
       (forall m, num_elements <= m -> m mod (local_size gs * atom) = 0 -> E <= m) /\
       len = size_t (int64 (E * job_element_size rt first_entry)) /\
       (0 <= job_element_size rt first_entry ->
        E * job_element_size rt first_entry < 2 ^ 63 ->
        len = E * job_element_size rt first_entry)) /\
    (more_entries = [] \/ is_homogeneous gs = false ->
       E = num_elements /\ len = buffer_len) /\
    (is_homogeneous gs = true -> more_entries <> [] ->
     local_size gs = 2 -> atom = 64 -> num_elements = 1026 ->
       E = 1152 /\
       device_collectives delta =
         [ncclReduceScatter fused_input_data
            (job_rank_offset rt gs first_entry buffer_data 1152) 576 dt ncclSum
            comm stream;
          ncclAllGather (job_rank_offset rt gs first_entry buffer_data 1152)
            buffer_data 576 dt comm stream]).
Proof.
  intros Hrt Hdt Hb Hls Hat Hdiv Hn Hov.
  destruct (hierarchical_DoAllreduce_succeeds DataType_Name atom rt gs Hrt
              first_entry more_entries fused_input_data buffer_data num_elements
              buffer_len dt dev stream key comm Hdt s Hb)
    as (s' & delta & len & Hrun & X & P & _).
  pose proof (hierarchical_DoAllreduce_returns _ _ _ _ _ _ _ _ _ _ _ _ _ Hrun) as Hr.
  injection Hr as Hlen.
  set (E := effective_num_elements atom gs first_entry more_entries num_elements) in *.
  assert (more_entries <> [] -> (2 <= length (first_entry :: more_entries))%nat) as Htwo
    by (destruct more_entries; [congruence | simpl; lia]).
  assert (is_homogeneous gs = true -> more_entries <> [] ->
          E = (num_elements + local_size gs * atom - 1) / (local_size gs * atom)
              * (local_size gs * atom)) as Hround.
  { intros Hh Hmore. subst E. unfold effective_num_elements.
    apply padded_num_elements_round_up; auto. }
  assert (0 < local_size gs * atom) as Hd by nia.
  exists s', delta, E, len. split; [exact Hrun |]. split; [apply X |].
  split; [| split].
  - intros Hh Hmore.
    destruct (round_up_multiple num_elements _ Hd Hn) as (Hmod & Hle & _ & Hmin).
    rewrite <- (Hround Hh Hmore) in Hmod, Hle, Hmin.
    assert (len = size_t (int64 (E * job_element_size rt first_entry))) as Hlen'.
    { assert ((1 <? Z.of_nat (length (first_entry :: more_entries))) = true) as Hc
        by (apply Z.ltb_lt; specialize (Htwo Hmore); lia).
      cbn [length] in Hc. rewrite Hlen, Hh, Hc. reflexivity. }
    split; [exact Hmod |]. split; [exact Hle |]. split; [exact Hmin |].
    split; [exact Hlen' |].
    intros Hes Hfit. rewrite Hlen'.
    assert (0 <= E) by lia.
    assert (0 <= E * job_element_size rt first_entry) by nia.
    rewrite int64_id by (int_bounds; lia). apply size_t_id. int_bounds. lia.
  - intros Hcase.
    assert (is_homogeneous gs && (1 <? Z.of_nat (length (first_entry :: more_entries)))
            = false) as Hno
      by (destruct Hcase as [-> | ->]; [apply andb_false_r | reflexivity]).
    split.
    + subst E. unfold effective_num_elements, padded_num_elements.
      rewrite Hno. reflexivity.
    + cbn [length] in Hno. rewrite Hlen, Hno. reflexivity.
  - intros Hh Hmore Hls2 Hat64 Hn1026.
    assert (E = 1152) as HE.
    { rewrite (Hround Hh Hmore), Hls2, Hat64, Hn1026. reflexivity. }
    split; [exact HE |].
    rewrite <- device_collectives_data_path, P, device_collectives_of_phases, HE.
    unfold reduce_scatter_calls, reduce_calls, allgather_calls, bcast_calls,
      num_elements_per_rank, num_elements_remaining.
    rewrite Hh, Hls2. reflexivity.
Qed.

(** Scenario 3 of the spec on local rank 0 of the second node: two
    entries of 1026 FLOAT32 elements in all. *)
Lemma padding_rounds_up_witness :
  exists s' delta,
    NCCLHierarchicalAllreduce_DoAllreduce example_DataType_Name 64 healthy_runtime
      (example_worker false true 0)
      [example_entry "a" HOROVOD_FLOAT32 4000 0; example_entry "b" HOROVOD_FLOAT32 104 0]
      8192 8192 1026 4104 (bound_state 0 77 [0; 1] 88) = (Ok (1152, 4608), s') /\
    trace s' = delta /\
    device_collectives delta =
      [ncclReduceScatter 8192 8192 576 ncclFloat32 ncclSum 88 77;
       ncclAllGather 8192 8192 576 ncclFloat32 88 77].
Proof.
  destruct (padding_rounds_up example_DataType_Name 64 healthy_runtime
              (example_worker false true 0) (example_entry "a" HOROVOD_FLOAT32 4000 0)
              [example_entry "b" HOROVOD_FLOAT32 104 0]
              8192 8192 1026 4104 ncclFloat32 0 77 [0; 1] 88 (bound_state 0 77 [0; 1] 88)
              healthy_runtime_succeeds eq_refl (bound_state_bound 0 77 [0; 1] 88)
              ltac:(simpl; lia) ltac:(lia) ltac:(simpl; lia) ltac:(lia)
              ltac:(simpl; lia))
    as (s' & delta & E & len & Hrun & Ht & Hfused & _ & Hex).
  destruct (Hfused eq_refl ltac:(discriminate)) as (_ & _ & _ & _ & Hlen).
  destruct (Hex eq_refl ltac:(discriminate) eq_refl eq_refl eq_refl) as (HE & Hdc).
  specialize (Hlen ltac:(simpl; lia)).
  rewrite HE in Hlen, Hrun. rewrite (Hlen ltac:(simpl; lia)) in Hrun.
  exists s', delta. split; [exact Hrun |]. split; [exact Ht | exact Hdc].
Defined.

(** ** Fewer elements than local ranks (C8) *)

Lemma per_rank_zero (gs : HorovodGlobalState) (E : Z) :
  is_homogeneous gs = false \/ 0 <= E < local_size gs ->
  num_elements_per_rank gs E = 0 /\ num_elements_remaining gs E = E.
Proof.
  unfold num_elements_per_rank, num_elements_remaining.
  intros [Hh | HE].
  - rewrite Hh. auto.
  - destruct (is_homogeneous gs); [| auto].
    rewrite Z.quot_small, Z.rem_small by lia. auto.
Qed.

Lemma padded_at_least_one_block (atom : Z) (gs : HorovodGlobalState)
    (nentries : nat) (n : Z) :
  0 < local_size gs -> 0 < atom -> local_size gs * atom < 2 ^ 31 ->
  0 < n -> n + local_size gs * atom < 2 ^ 63 ->
  is_homogeneous gs = true -> (2 <= nentries)%nat ->
  atom <= num_elements_per_rank gs (padded_num_elements atom gs nentries n).
Proof.
  intros Hls Hat Hdiv Hn Hov Hh He.
  rewrite (padded_num_elements_round_up atom gs nentries n Hls Hat Hdiv
             (Z.lt_le_incl _ _ Hn) Hov Hh He).
  assert (Hd : 0 < local_size gs * atom) by nia.
  pose proof (round_up_multiple n _ Hd ltac:(lia)) as (_ & Hle & Hlt & _).
  cbv zeta in Hle, Hlt.
  set (q := (n + local_size gs * atom - 1) / (local_size gs * atom)) in *.
  assert (1 <= q) by nia.
  unfold num_elements_per_rank. rewrite Hh.
  replace (q * (local_size gs * atom)) with (q * atom * local_size gs) in * by lia.
  rewrite Z.quot_mul by lia.
  int_bounds. rewrite int64_id by (int_bounds; nia). nia.
Qed.

(** C8, as the code has it.  The comparison is made on the element count
    after padding.  That count is the batch's own for a single-entry batch
    and on a heterogeneous cluster.  Whenever the count after padding is
    below [local_size], or the cluster is heterogeneous, [Eper = 0]: no
    reduce-scatter and no allgather are issued, the device collectives are
    the reduce to the root and the broadcast (when there is any element),
    with the cross-node phase in between on the ranks that run it.  A
    batch of two or more entries on a homogeneous cluster with at least
    one element is padded to a multiple of [local_size * FUSION_ATOM]
    first, so its [Eper] is at least [FUSION_ATOM]: the device collectives
    of the job are a reduce-scatter and an allgather of [Eper] elements,
    and nothing else. *)
Theorem tail_path_below_local_size
    (DataType_Name : DataType -> string) (atom : Z) (rt : Runtime)
    (gs : HorovodGlobalState) (first_entry : TensorTableEntry)
    (more_entries : list TensorTableEntry)
    (fused_input_data buffer_data num_elements buffer_len : Z)
    (dt : ncclDataType_t) (dev stream : Z) (key : list Z) (comm : Z) (s : State) :
  runtime_succeeds rt ->
  GetNCCLDataType DataType_Name (tensor_dtype first_entry) = Ok dt ->
  bound s dev stream key comm ->
  let E := effective_num_elements atom gs first_entry more_entries num_elements in
  (more_entries = [] \/ is_homogeneous gs = false -> E = num_elements) /\
  (is_homogeneous gs = false \/ 0 <= E < local_size gs ->
   num_elements_per_rank gs E = 0 /\
   num_elements_remaining gs E = E /\
   exists s' delta len,
     NCCLHierarchicalAllreduce_DoAllreduce DataType_Name atom rt gs
       (first_entry :: more_entries) fused_input_data buffer_data
       num_elements buffer_len s = (Ok (E, len), s') /\
     trace s' = trace s ++ delta /\
     device_collectives delta =
       reduce_calls rt gs first_entry fused_input_data buffer_data E dt comm stream
       ++ bcast_calls rt gs first_entry buffer_data E dt comm stream /\
     data_path delta =
       reduce_calls rt gs first_entry fused_input_data buffer_data E dt comm stream
       ++ cross_node_calls rt gs first_entry buffer_data E stream (host_buffer_ s')
       ++ bcast_calls rt gs first_entry buffer_data E dt comm stream) /\
  (is_homogeneous gs = true -> more_entries <> [] ->
   0 < local_size gs -> 0 < atom -> local_size gs * atom < 2 ^ 31 ->
   0 < num_elements -> num_elements + local_size gs * atom < 2 ^ 63 ->
   atom <= num_elements_per_rank gs E /\
   exists s' delta len,
     NCCLHierarchicalAllreduce_DoAllreduce DataType_Name atom rt gs
       (first_entry :: more_entries) fused_input_data buffer_data
       num_elements buffer_len s = (Ok (E, len), s') /\
     trace s' = trace s ++ delta /\
     device_collectives delta =
       [ncclReduceScatter fused_input_data
          (job_rank_offset rt gs first_entry buffer_data E)
          (size_t (num_elements_per_rank gs E)) dt ncclSum comm stream;
        ncclAllGather (job_rank_offset rt gs first_entry buffer_data E) buffer_data
          (size_t (num_elements_per_rank gs E)) dt comm stream]).
Proof.
  intros Hrt Hdt Hb E. split; [| split].
  - subst E. unfold effective_num_elements, padded_num_elements.
    intros [-> | ->]; [rewrite andb_false_r | ]; reflexivity.
  - intros HE. destruct (per_rank_zero gs E HE) as [Hper Hrem].
    split; [exact Hper |]. split; [exact Hrem |].
    destruct (hierarchical_DoAllreduce_succeeds DataType_Name atom rt gs Hrt
                first_entry more_entries fused_input_data buffer_data num_elements
                buffer_len dt dev stream key comm Hdt s Hb)
      as (s' & delta & len & Hrun & X & P & _).
    fold E in Hrun, P.
    assert (reduce_scatter_calls rt gs first_entry fused_input_data buffer_data E
              dt comm stream = []) as HRS
      by (unfold reduce_scatter_calls; rewrite Hper; reflexivity).
    assert (allgather_calls rt gs first_entry buffer_data E dt comm stream = []) as HAG
      by (unfold allgather_calls; rewrite Hper; reflexivity).
    exists s', delta, len. split; [exact Hrun |]. split; [apply X |].
    rewrite HRS, HAG in P. simpl in P. split; [| exact P].
    rewrite <- device_collectives_data_path, P.
    pose proof (device_collectives_of_phases rt gs first_entry fused_input_data
                  buffer_data dt stream comm (host_buffer_ s') E) as Hdc.
    rewrite HRS, HAG in Hdc. exact Hdc.
  - intros Hh Hmore Hls Hat Hdiv Hn Hov.
    assert (2 <= length (first_entry :: more_entries))%nat as Htwo
      by (destruct more_entries; [congruence | simpl; lia]).
    assert (atom <= num_elements_per_rank gs E) as Hper
      by (subst E; unfold effective_num_elements;
          apply padded_at_least_one_block; assumption).
    assert (num_elements_remaining gs E = 0) as Hrem.
    { destruct (fused_split atom gs (length (first_entry :: more_entries)) num_elements
                  Hh Htwo Hls Hat Hdiv (Z.lt_le_incl _ _ Hn) Hov)
        as (k & _ & _ & _ & _ & Hr). exact Hr. }
    split; [exact Hper |].
    destruct (hierarchical_DoAllreduce_succeeds DataType_Name atom rt gs Hrt
                first_entry more_entries fused_input_data buffer_data num_elements
                buffer_len dt dev stream key comm Hdt s Hb)
      as (s' & delta & len & Hrun & X & P & _).
    fold E in Hrun, P.
    exists s', delta, len. split; [exact Hrun |]. split; [apply X |].
    rewrite <- device_collectives_data_path, P, device_collectives_of_phases.
    unfold reduce_scatter_calls, reduce_calls, allgather_calls, bcast_calls.
    rewrite Hrem.
    replace (num_elements_per_rank gs E >? 0) with true
      by (symmetry; apply Z.gtb_lt; lia).
    reflexivity.
Qed.

(** A single entry of 1 element on the root rank of a 2-GPU node goes
    through the tail; two entries of one element each on a node of four
    GPUs are padded to 256 elements and go through the shards. *)
Lemma tail_path_below_local_size_witness :
  (num_elements_per_rank (example_worker false true 1) 1 = 0 /\
   exists s' delta len,
     NCCLHierarchicalAllreduce_DoAllreduce example_DataType_Name 64 healthy_runtime
       (example_worker false true 1) [example_entry "t" HOROVOD_FLOAT32 4 1]
       8192 8192 1 4 (bound_state 1 77 [0; 1] 88) = (Ok (1, len), s') /\
     trace s' = delta /\
     device_collectives delta =
       [ncclReduce 8192 8192 1 ncclFloat32 ncclSum 1 88 77;
        ncclBcast 8192 1 ncclFloat32 1 88 77]) /\
  (exists s' delta len,
     NCCLHierarchicalAllreduce_DoAllreduce example_DataType_Name 64 healthy_runtime
       (example_worker4 3)
       [example_entry "a" HOROVOD_FLOAT32 4 3; example_entry "b" HOROVOD_FLOAT32 4 3]
       8192 8192 2 8 (bound_state 3 77 [0; 1; 2; 3] 88) = (Ok (256, len), s') /\
     trace s' = delta /\
     device_collectives delta =
       [ncclReduceScatter 8192 8960 64 ncclFloat32 ncclSum 88 77;
        ncclAllGather 8960 8192 64 ncclFloat32 88 77]).
Proof.
  split.
  - destruct (tail_path_below_local_size example_DataType_Name 64 healthy_runtime
                (example_worker false true 1) (example_entry "t" HOROVOD_FLOAT32 4 1) []
                8192 8192 1 4 ncclFloat32 1 77 [0; 1] 88 (bound_state 1 77 [0; 1] 88)
                healthy_runtime_succeeds eq_refl (bound_state_bound 1 77 [0; 1] 88))
      as (_ & H & _).
    destruct H as (Hper & _ & s' & delta & len & Hrun & Ht & Hdc & _).
    + right. vm_compute. split; [discriminate | reflexivity].
    + split; [exact Hper |]. exists s', delta, len.
      split; [exact Hrun |]. split; [exact Ht | exact Hdc].
  - destruct (tail_path_below_local_size example_DataType_Name 64 healthy_runtime
                (example_worker4 3) (example_entry "a" HOROVOD_FLOAT32 4 3)
                [example_entry "b" HOROVOD_FLOAT32 4 3]
                8192 8192 2 8 ncclFloat32 3 77 [0; 1; 2; 3] 88
                (bound_state 3 77 [0; 1; 2; 3] 88)
                healthy_runtime_succeeds eq_refl
                (bound_state_bound 3 77 [0; 1; 2; 3] 88))
      as (_ & _ & H).
    destruct (H eq_refl ltac:(discriminate) ltac:(simpl; lia) ltac:(lia)
                ltac:(simpl; lia) ltac:(lia) ltac:(simpl; lia))
      as (_ & s' & delta & len & Hrun & Ht & Hdc).
    exists s', delta, len. split; [exact Hrun |]. split; [exact Ht | exact Hdc].
Defined.

(** Two entries of one FLOAT32 element each on a node of four GPUs:
    [num_elements = 2 < local_size = 4], yet the count is padded to 256,
    [Eper = 64], and a reduce-scatter and an allgather are issued. *)
Lemma tail_path_counterexample :
  let run :=
    NCCLHierarchicalAllreduce_DoAllreduce example_DataType_Name 64 healthy_runtime
      (example_worker4 3)
      [example_entry "a" HOROVOD_FLOAT32 4 3; example_entry "b" HOROVOD_FLOAT32 4 3]
      8192 8192 2 8 (bound_state 3 77 [0; 1; 2; 3] 88) in
  2 < local_size (example_worker4 3) /\
  fst run = Ok (256, 1024) /\
  num_elements_per_rank (example_worker4 3) 256 = 64 /\
  device_collectives (trace (snd run)) =
    [ncclReduceScatter 8192 8960 64 ncclFloat32 ncclSum 88 77;
     ncclAllGather 8960 8192 64 ncclFloat32 88 77].
Proof. vm_compute. repeat split; reflexivity. Qed.

(** ** Initialize, the copies into the fusion buffer, Finalize *)

Lemma preparatory_app delta delta' :
  preparatory delta -> preparatory delta' -> preparatory (delta ++ delta').
Proof.
  intros [H1 H2] [H1' H2']. split.
  - rewrite device_collectives_app, H1, H1'. reflexivity.
  - rewrite callbacks_app, H2, H2'. reflexivity.
Qed.

Lemma preparatory_quiet delta : quiet delta -> preparatory delta.
Proof.
  intros Q. split.
  - rewrite <- device_collectives_data_path, (data_path_quiet _ Q). reflexivity.
  - rewrite <- callbacks_data_path, (data_path_quiet _ Q). reflexivity.
Qed.

Lemma preparatory_memcpy_in_calls todo at_offset stream :
  preparatory (memcpy_in_calls todo at_offset stream).
Proof.
  revert at_offset. induction todo as [| e rest IH]; intros at_offset.
  - split; reflexivity.
  - apply (preparatory_app [_]); [split; reflexivity | apply IH].
Qed.

Section Lifecycle.

Variable DataType_Name : DataType -> string.
Variable atom : Z.
Variable rt : Runtime.
Variable gs : HorovodGlobalState.
Hypothesis Hrt : runtime_succeeds rt.

Lemma InitCUDA_succeeds first_entry more_entries s :
  exists s' delta stream,
    InitCUDA rt (first_entry :: more_entries) s = (Ok tt, s') /\
    streams s' !! device first_entry = Some stream /\
    nccl_comms s' = nccl_comms s /\ threads s' = threads s /\
    trace s' = trace s ++ delta /\ preparatory delta.
Proof.
  unfold InitCUDA.
  rewrite (bind_Ok _ _ s s first_entry) by reflexivity.
  set (dev := device first_entry).
  set (s1 := set_current_device dev (log (cudaSetDevice dev) s)).
  rewrite (bind_Ok _ _ s s1 cudaSuccess)
    by (unfold cudaSetDevice_; rewrite (bind_Ok _ _ _ _ _ (cuda_call_succeeds rt Hrt _ s));
        reflexivity).
  step_ret.
  assert (forall s2, streams s2 = <[dev := nullptr]> (streams s1) \/
                     (streams s2 = streams s1 /\ streams s1 !! dev = Some nullptr) ->
                     nccl_comms s2 = nccl_comms s -> threads s2 = threads s ->
                     trace s2 = trace s ++ [cudaSetDevice dev] ->
          exists s' delta stream,
            (n <- call cudaDeviceGetStreamPriorityRange ;;
             CUDAContext_ErrorCheck rt "cudaDeviceGetStreamPriorityRange"
               (cuda_status rt n) ;;;
             m <- call (cudaStreamCreateWithPriority cudaStreamNonBlocking
                          (new_value rt n)) ;;
             match cuda_status rt m with
             | cudaSuccess => modify (set_streams (insert dev (new_handle rt m)))
             | status => CUDAContext_ErrorCheck rt "cudaStreamCreateWithPriority" status
             end) s2 = (Ok tt, s') /\
            streams s' !! dev = Some stream /\
            nccl_comms s' = nccl_comms s /\ threads s' = threads s /\
            trace s' = trace s ++ delta /\ preparatory delta) as Hcreate.
  { intros s2 _ Hc Ht Htr. step_call. rewrite (cuda_ok rt Hrt). step_ret. step_call.
    rewrite (cuda_ok rt Hrt). unfold modify.
    do 3 eexists. split; [reflexivity |]. simpl.
    split; [apply lookup_insert_eq |]. split; [exact Hc |]. split; [exact Ht |].
    split; [rewrite Htr, <- !app_assoc; reflexivity | split; reflexivity]. }
  unfold streams_at at 1.
  destruct (streams s1 !! dev) as [stream |] eqn:Hs.
  - rewrite (bind_Ok _ _ s1 s1 stream)
      by (unfold streams_at; rewrite Hs; reflexivity).
    destruct (stream =? nullptr) eqn:Hnull.
    + apply Z.eqb_eq in Hnull. subst stream.
      apply Hcreate; auto.
    + exists s1, [cudaSetDevice dev], stream.
      split; [reflexivity |]. split; [exact Hs |].
      repeat split; reflexivity.
  - rewrite (bind_Ok _ _ s1 (set_streams (insert dev nullptr) s1) nullptr)
      by (unfold streams_at; rewrite Hs; reflexivity).
    rewrite Z.eqb_refl. apply Hcreate; auto.
Qed.

Lemma preparatory_build_protocol strategy nccl_id :
  preparatory (build_protocol gs strategy nccl_id).
Proof.
  unfold build_protocol.
  destruct (PopulateCommStrategy gs strategy) as [[nccl_rank nccl_size] scope].
  destruct (nccl_rank =? 0); split; reflexivity.
Qed.

Lemma InitComm_succeeds strategy entries devices key s :
  GetDeviceMap gs strategy devices = Some key ->
  exists s' delta comm,
    InitComm rt gs strategy entries devices s = (Ok tt, s') /\
    nccl_comm_ s' = Some key /\ nccl_comms s' !! key = Some comm /\
    streams s' = streams s /\ threads s' = threads s /\
    trace s' = trace s ++ delta /\ preparatory delta.
Proof.
  intros Hkey.
  destruct (nccl_comms s !! key) as [comm |] eqn:Hc.
  - destruct (decide (comm = nullptr)) as [-> | Hnn].
    + unfold InitComm. rewrite Hkey.
      rewrite (bind_Ok _ _ s s key) by reflexivity.
      rewrite (bind_Ok _ _ s s nullptr)
        by (unfold nccl_comms_at; rewrite Hc; reflexivity).
      rewrite Z.eqb_refl.
      destruct (build_comm_succeeds rt gs strategy key s Hrt)
        as (nccl_id & comm & _ & E).
      rewrite (bind_Ok _ _ _ _ _ E). unfold modify.
      do 3 eexists. split; [reflexivity |]. simpl.
      split; [reflexivity |]. split; [apply lookup_insert_eq |].
      split; [reflexivity |]. split; [reflexivity |].
      split; [reflexivity | apply preparatory_build_protocol].
    + rewrite (InitComm_hit rt gs _ entries _ _ _ _ Hkey Hc Hnn).
      exists (set_nccl_comm_ (Some key) s), [], comm.
      split; [reflexivity |]. simpl. rewrite app_nil_r.
      repeat split; auto.
  - unfold InitComm. rewrite Hkey.
    rewrite (bind_Ok _ _ s s key) by reflexivity.
    rewrite (bind_Ok _ _ s (set_nccl_comms (insert key nullptr) s) nullptr)
      by (unfold nccl_comms_at; rewrite Hc; reflexivity).
    rewrite Z.eqb_refl.
    destruct (build_comm_succeeds rt gs strategy key
                (set_nccl_comms (insert key nullptr) s) Hrt)
      as (nccl_id & comm & _ & E).
    rewrite (bind_Ok _ _ _ _ _ E). unfold modify.
    do 3 eexists. split; [reflexivity |]. simpl.
    split; [reflexivity |]. split; [apply lookup_insert_eq |].
    split; [reflexivity |]. split; [reflexivity |].
    split; [reflexivity | apply preparatory_build_protocol].
Qed.

(** [Initialize] binds the op, empties the event queue and clears the
    host-buffer pointer; it issues no collective and fires no callback. *)
Lemma Initialize_succeeds strategy first_entry more_entries devices key s :
  GetDeviceMap gs strategy devices = Some key ->
  exists s' delta stream comm,
    Initialize rt gs strategy (first_entry :: more_entries) devices s = (Ok tt, s') /\
    bound s' (device first_entry) stream key comm /\
    host_buffer_ s' = nullptr /\ threads s' = threads s /\
    trace s' = trace s ++ delta /\ preparatory delta.
Proof.
  intros Hkey. unfold Initialize.
  destruct (InitCUDA_succeeds first_entry more_entries s)
    as (s1 & d1 & stream & E1 & Hs1 & Hc1 & Ht1 & Htr1 & P1).
  rewrite (bind_Ok _ _ _ _ _ E1).
  destruct (InitComm_succeeds strategy (first_entry :: more_entries) devices key s1 Hkey)
    as (s2 & d2 & comm & E2 & Hk2 & Hc2 & Hs2 & Ht2 & Htr2 & P2).
  rewrite (bind_Ok _ _ _ _ _ E2).
  step_modify.
  rewrite (bind_Ok _ _ _ (set_event_queue_ [] s2) first_entry) by reflexivity.
  rewrite (bind_Ok _ _ _ (set_event_queue_ [] s2) stream)
    by (unfold streams_at; simpl; rewrite Hs2, Hs1; reflexivity).
  step_modify. step_modify.
  set (s3 := set_host_buffer_ nullptr
               (set_stream_ (Some (device first_entry)) (set_event_queue_ [] s2))).
  assert (bound s3 (device first_entry) stream key comm) as Hb3.
  { split; simpl; auto. rewrite Hs2. exact Hs1. }
  destruct (timeline_initialized gs).
  - rewrite (bind_Ok _ _ _ _ _ (deref_stream_bound _ _ _ _ _ Hb3)).
    destruct (RecordEvent_succeeds rt Hrt QUEUE stream s3)
      as (s4 & d4 & E4 & X4 & Q4 & _ & Hh4 & _).
    exists s4, (d1 ++ d2 ++ d4), stream, comm.
    split; [exact E4 |]. split; [exact (bound_extends _ _ _ _ _ _ _ X4 Hb3) |].
    split; [rewrite Hh4; reflexivity |].
    split; [rewrite (ext_threads _ _ _ X4); simpl; congruence |].
    split.
    + rewrite (ext_trace _ _ _ X4). simpl. rewrite Htr2, Htr1, <- !app_assoc.
      reflexivity.
    + apply preparatory_app; [exact P1 |].
      apply preparatory_app; [exact P2 | apply preparatory_quiet; exact Q4].
  - exists s3, (d1 ++ d2), stream, comm.
    split; [reflexivity |]. split; [exact Hb3 |].
    split; [reflexivity |]. split; [simpl; congruence |].
    split; [simpl; rewrite Htr2, Htr1, <- !app_assoc; reflexivity |].
    apply preparatory_app; assumption.
Qed.

Lemma MemcpyIn_all_succeeds todo first_entry more_entries at_offset s stream key comm :
  bound s (device first_entry) stream key comm ->
  exists s',
    MemcpyIn_all rt todo (first_entry :: more_entries) at_offset s = (Ok tt, s') /\
    extends s s' (memcpy_in_calls todo at_offset stream) /\
    host_buffer_ s' = host_buffer_ s.
Proof.
  revert at_offset s. induction todo as [| e rest IH]; intros at_offset s Hb.
  - exists s. split; [reflexivity |]. split; [apply extends_refl | reflexivity].
  - cbn [MemcpyIn_all memcpy_in_calls].
    set (c := cudaMemcpyAsync at_offset (tensor_data e) (size_t (tensor_size e))
                cudaMemcpyDeviceToDevice stream).
    assert (MemcpyInFusionBuffer rt at_offset e (first_entry :: more_entries) s
            = (Ok tt, log c s)) as E1.
    { unfold MemcpyInFusionBuffer.
      rewrite (bind_Ok _ _ s s first_entry) by reflexivity.
      rewrite (bind_Ok _ _ _ _ _ (streams_at_bound _ _ _ _ _ Hb)).
      rewrite (bind_Ok _ _ _ _ _ (cuda_call_succeeds rt Hrt _ s)).
      reflexivity. }
    rewrite (bind_Ok _ _ _ _ _ E1).
    destruct (IH (at_offset + tensor_size e) (log c s)) as (s' & E & X & Hh).
    { eapply bound_extends; [apply extends_log | exact Hb]. }
    exists s'. split; [exact E |]. split; [| exact Hh].
    apply (extends_trans _ _ _ [c] _ (extends_log s c) X).
Qed.

(** [Finalize] records the terminal unnamed event and spawns the
    finalizer with the present value of [host_buffer_]. *)
Lemma Finalize_succeeds first_entry more_entries s dev stream key comm :
  bound s dev stream key comm ->
  exists s' delta event,
    Finalize rt (first_entry :: more_entries) s = (Ok Status_InProgress, s') /\
    threads s' = threads s ++
      [{| fin_entries := first_entry :: more_entries;
          fin_first_entry := first_entry;
          fin_host_buffer := host_buffer_ s |}] /\
    event_queue_ s' = event_queue_ s ++ [(""%string, event)] /\
    host_buffer_ s' = host_buffer_ s /\
    trace s' = trace s ++ delta /\ quiet delta.
Proof.
  intros Hb. unfold Finalize.
  rewrite (bind_Ok _ _ _ _ _ (deref_stream_bound _ _ _ _ _ Hb)).
  destruct (RecordEvent_succeeds rt Hrt "" stream s)
    as (s1 & delta & E1 & X1 & Q1 & _ & Hh1 & event & Hq1).
  rewrite (bind_Ok _ _ _ _ _ E1).
  rewrite (bind_Ok _ _ s1 s1 first_entry) by reflexivity.
  rewrite (bind_Ok _ _ s1 s1 (host_buffer_ s1)) by reflexivity.
  step_modify.
  eexists. exists delta, event. split; [reflexivity |]. simpl.
  rewrite Hh1, (ext_threads _ _ _ X1), (ext_trace _ _ _ X1).
  repeat split; auto.
Qed.

Lemma finalizer_callbacks_run entries s :
  exists s',
    finalizer_callbacks entries s = (Ok tt, s') /\
    extends s s' (completion_calls entries) /\
    host_buffer_ s' = host_buffer_ s /\ event_queue_ s' = event_queue_ s.
Proof.
  revert s. induction entries as [| e rest IH]; intros s.
  - exists s. split; [reflexivity |]. split; [apply extends_refl |]. split; reflexivity.
  - cbn [finalizer_callbacks]. do 2 step_call.
    destruct (IH (log (entry_callback (tensor_name e) Status_OK)
                    (log (Timeline_End (tensor_name e)) s)))
      as (s' & E & X & Hh & Hq).
    exists s'. split; [exact E |]. split; [| split; [exact Hh | exact Hq]].
    change (completion_calls (e :: rest))
      with ([Timeline_End (tensor_name e); entry_callback (tensor_name e) Status_OK]
            ++ completion_calls rest).
    eapply extends_trans; [| exact X].
    split; try reflexivity. simpl. rewrite <- app_assoc. reflexivity.
Qed.

(** The finalizer thread: set the device, drain the event queue waiting on
    each event front first, free the captured host buffer when it is not
    null, then complete the entries. *)
Lemma finalizer_thread_runs f s :
  exists s' drain,
    in_new_thread (finalizer_thread rt f) s = (Ok tt, s') /\
    trace s' = trace s
               ++ [cudaSetDevice (device (fin_first_entry f))]
               ++ drain
               ++ (if fin_host_buffer f =? nullptr then [] else [free (fin_host_buffer f)])
               ++ completion_calls (fin_entries f) /\
    quiet drain /\
    event_waits drain =
      map (fun slot => cudaEventSynchronize (snd slot)) (event_queue_ s) /\
    event_queue_ s' = [] /\
    threads s' = threads s.
Proof.
  unfold in_new_thread, finalizer_thread.
  set (s0 := set_current_device 0 s).
  set (dev := device (fin_first_entry f)).
  set (s1 := set_current_device dev (log (cudaSetDevice dev) s0)).
  rewrite (bind_Ok _ _ s0 s1 cudaSuccess)
    by (unfold cudaSetDevice_; rewrite (bind_Ok _ _ _ _ _ (cuda_call_succeeds rt Hrt _ s0));
        reflexivity).
  step_ret.
  destruct (WaitForEvents_succeeds rt Hrt s1) as (s2 & drain & E2 & X2 & Q2 & W2 & _ & Hq2).
  rewrite (bind_Ok _ _ _ _ _ E2).
  set (freed := if fin_host_buffer f =? nullptr then [] else [free (fin_host_buffer f)]).
  assert (exists s3,
    (if fin_host_buffer f =? nullptr then ret tt
     else _ <- call (free (fin_host_buffer f)) ;; ret tt) s2 = (Ok tt, s3) /\
    extends s2 s3 freed /\ event_queue_ s3 = event_queue_ s2) as (s3 & E3 & X3 & Hq3).
  { subst freed. destruct (fin_host_buffer f =? nullptr).
    - exists s2. split; [reflexivity |]. split; [apply extends_refl | reflexivity].
    - eexists. split; [reflexivity |]. split; [apply extends_log | reflexivity]. }
  rewrite (bind_Ok _ _ _ _ _ E3).
  destruct (finalizer_callbacks_run (fin_entries f) s3) as (s4 & E4 & X4 & _ & Hq4).
  rewrite E4.
  eexists. exists drain. split; [reflexivity |]. simpl.
  pose proof (extends_trans _ _ _ _ _ X2 (extends_trans _ _ _ _ _ X3 X4)) as X.
  split; [| split; [exact Q2 | split; [exact W2 | split]]].
  - rewrite (ext_trace _ _ _ X). subst s1 s0. simpl.
    rewrite <- !app_assoc. reflexivity.
  - rewrite Hq4, Hq3. exact Hq2.
  - rewrite (ext_threads _ _ _ X). reflexivity.
Qed.

(** With an element type NCCL does not accept, [DoAllreduce] throws at its
    first collective, before making any call. *)
Lemma DoAllreduce_throws strategy first_entry more_entries fused_input_data
    buffer_data num_elements buffer_len what s :
  GetNCCLDataType DataType_Name (tensor_dtype first_entry) = Throw what ->
  strategy = NCCLAllreduce \/
  0 < num_elements_per_rank gs
        (effective_num_elements atom gs first_entry more_entries num_elements) \/
  0 < num_elements_remaining gs
        (effective_num_elements atom gs first_entry more_entries num_elements) ->
  DoAllreduce DataType_Name atom rt gs strategy (first_entry :: more_entries)
    fused_input_data buffer_data num_elements buffer_len s = (Throw what, s).
Proof.
  intros Hdt Hcond.
  destruct strategy; cbn [DoAllreduce].
  - unfold NCCLAllreduce_DoAllreduce.
    rewrite (bind_Ok _ _ s s first_entry) by reflexivity.
    rewrite Hdt. reflexivity.
  - destruct Hcond as [Hflat | Hcond]; [discriminate |].
    unfold NCCLHierarchicalAllreduce_DoAllreduce.
    rewrite (bind_Ok _ _ s s first_entry) by reflexivity.
    cbv zeta. fold (effective_num_elements atom gs first_entry more_entries num_elements).
    set (E := effective_num_elements atom gs first_entry more_entries num_elements) in *.
    unfold reduce_scatter_phase at 1.
    destruct (num_elements_per_rank gs E >? 0) eqn:Hper.
    + rewrite Hdt. reflexivity.
    + step_ret. unfold reduce_phase at 1.
      replace (num_elements_remaining gs E >? 0) with true
        by (symmetry; apply Z.gtb_lt; rewrite Z.gtb_ltb in Hper;
            apply Z.ltb_ge in Hper; lia).
      rewrite Hdt. reflexivity.
Qed.

(** A hierarchical batch without elements reaches no collective: the
    data type is never mapped, whatever it is. *)
Lemma hierarchical_empty_batch_returns first_entry more_entries fused_input_data
    buffer_data num_elements buffer_len s dev stream key comm :
  bound s dev stream key comm ->
  effective_num_elements atom gs first_entry more_entries num_elements = 0 ->
  exists s' delta r,
    NCCLHierarchicalAllreduce_DoAllreduce DataType_Name atom rt gs
      (first_entry :: more_entries) fused_input_data buffer_data
      num_elements buffer_len s = (Ok r, s') /\
    trace s' = trace s ++ delta /\
    device_collectives delta = [].
Proof.
  intros Hb HE. unfold NCCLHierarchicalAllreduce_DoAllreduce.
  rewrite (bind_Ok _ _ s s first_entry) by reflexivity.
  cbv zeta. fold (effective_num_elements atom gs first_entry more_entries num_elements).
  rewrite HE.
  assert ((num_elements_per_rank gs 0 >? 0) = false) as Hper
    by (unfold num_elements_per_rank; destruct (is_homogeneous gs); reflexivity).
  assert ((num_elements_remaining gs 0 >? 0) = false) as Hrem
    by (unfold num_elements_remaining; destruct (is_homogeneous gs); reflexivity).
  unfold reduce_scatter_phase, reduce_phase, allgather_phase, bcast_phase.
  rewrite Hper, Hrem. do 2 step_ret.
  destruct (cross_node_phase_succeeds rt gs Hrt (first_entry :: more_entries)
              first_entry buffer_data 0 dev stream key comm s Hb)
    as (s1 & d1 & E1 & X1 & P1 & _).
  unfold job_rank_offset, job_element_size in E1.
  rewrite (bind_Ok _ _ _ _ _ E1). do 2 step_ret.
  exists s1, d1. eexists. split; [reflexivity |]. split; [apply X1 |].
  rewrite <- device_collectives_data_path, P1.
  unfold cross_node_calls. destruct (is_homogeneous gs || is_root_rank gs); reflexivity.
Qed.

End Lifecycle.

(** ** Host-buffer allocation and free (C9) *)

Lemma allocations_app delta delta' :
  allocations (delta ++ delta') = allocations delta ++ allocations delta'.
Proof. apply List.filter_app. Qed.

Lemma frees_app delta delta' : frees (delta ++ delta') = frees delta ++ frees delta'.
Proof. apply List.filter_app. Qed.

Lemma allocations_data_path delta : allocations (data_path delta) = allocations delta.
Proof.
  unfold allocations, data_path. induction delta as [| c delta IH]; [reflexivity |].
  simpl. destruct c; simpl; rewrite IH; reflexivity.
Qed.

Lemma frees_data_path delta : frees (data_path delta) = frees delta.
Proof.
  unfold frees, data_path. induction delta as [| c delta IH]; [reflexivity |].
  simpl. destruct c; simpl; rewrite IH; reflexivity.
Qed.

(** The cross-node phase, where it runs, starts with the allocation and
    leaves the op's pointer on the block allocated. *)
Lemma cross_node_phase_allocates (rt : Runtime) (gs : HorovodGlobalState)
    (entries : list TensorTableEntry) (first_entry : TensorTableEntry)
    (at_rank_offset total_elements total_len : Z) (s : State)
    (dev stream : Z) (key : list Z) (comm : Z) :
  runtime_succeeds rt ->
  is_homogeneous gs || is_root_rank gs = true ->
  bound s dev stream key comm ->
  exists s' rest,
    cross_node_phase rt gs entries first_entry at_rank_offset total_elements
      total_len s = (Ok tt, s') /\
    trace s' = trace s ++ malloc total_len :: rest /\
    host_buffer_ s' = new_handle rt (length (trace s)).
Proof.
  intros Hrt Hhost Hb. unfold cross_node_phase. rewrite Hhost.
  step_call.
  set (p := new_handle rt (length (trace s))).
  set (s2 := set_host_buffer_ p (log (malloc total_len) s)).
  rewrite (bind_Ok _ _ (log (malloc total_len) s) s2 tt) by reflexivity.
  assert (extends s s2 [malloc total_len]) as X2 by (split; reflexivity).
  destruct (WaitForEvents_succeeds rt Hrt s2)
    as (s3 & d3 & E3 & X3 & Q3 & _ & Hh3 & _).
  rewrite (bind_Ok _ _ _ _ _ E3).
  assert (extends s s3 ([malloc total_len] ++ d3)) as X
    by (eapply extends_trans; [exact X2 | exact X3]).
  pose proof (bound_extends _ _ _ _ _ _ _ X Hb) as [B1 B2 _ _].
  assert (host_buffer_ s3 = p) as Hp by (rewrite Hh3; reflexivity).
  step_call.
  rewrite (bind_Ok _ _ _ _ p) by (unfold gets; simpl; rewrite Hp; reflexivity).
  rewrite (bind_Ok _ _ _ _ stream)
    by (unfold deref_stream_; simpl; rewrite B1, B2; reflexivity).
  rewrite (bind_Ok _ _ _ _ _ (cuda_call_succeeds rt Hrt _ _)).
  step_ret.
  do 5 step_call.
  rewrite (bind_Ok _ _ _ _ _ (cuda_call_succeeds rt Hrt _ _)).
  step_ret.
  step_call.
  eexists. eexists. split; [reflexivity |]. split.
  - simpl. rewrite (ext_trace _ _ _ X). rewrite <- !app_assoc. simpl. reflexivity.
  - simpl. exact Hp.
Qed.

(** A job on a rank that runs the cross-node phase: the allocation is one
    of its calls, and the op's pointer is left on the block it returned. *)
Lemma hierarchical_DoAllreduce_allocates
    (DataType_Name : DataType -> string) (atom : Z) (rt : Runtime)
    (gs : HorovodGlobalState) (first_entry : TensorTableEntry)
    (more_entries : list TensorTableEntry)
    (fused_input_data buffer_data num_elements buffer_len : Z)
    (dt : ncclDataType_t) (dev stream : Z) (key : list Z) (comm : Z) (s : State) :
  runtime_succeeds rt ->
  GetNCCLDataType DataType_Name (tensor_dtype first_entry) = Ok dt ->
  is_homogeneous gs || is_root_rank gs = true ->
  bound s dev stream key comm ->
  let E := effective_num_elements atom gs first_entry more_entries num_elements in
  exists s' pre post r,
    NCCLHierarchicalAllreduce_DoAllreduce DataType_Name atom rt gs
      (first_entry :: more_entries) fused_input_data buffer_data
      num_elements buffer_len s = (Ok r, s') /\
    trace s' = trace s ++ pre
               ++ malloc (total_buffer_len gs (job_element_size rt first_entry) E)
                  :: post /\
    host_buffer_ s' = new_handle rt (length (trace s ++ pre)).
Proof.
  intros Hrt Hdt Hhost Hb E. unfold NCCLHierarchicalAllreduce_DoAllreduce.
  rewrite (bind_Ok _ _ s s first_entry) by reflexivity.
  cbv zeta.
  fold (effective_num_elements atom gs first_entry more_entries num_elements).
  fold E.
  destruct (reduce_scatter_phase_succeeds DataType_Name rt gs Hrt
              (first_entry :: more_entries) first_entry fused_input_data buffer_data
              E dt dev stream key comm Hdt s Hb)
    as (s1 & d1 & E1 & X1 & _ & _).
  unfold job_rank_offset, job_element_size in E1.
  rewrite (bind_Ok _ _ _ _ _ E1).
  pose proof (bound_extends _ _ _ _ _ _ _ X1 Hb) as Hb1.
  destruct (reduce_phase_succeeds DataType_Name rt gs Hrt
              (first_entry :: more_entries) first_entry fused_input_data buffer_data
              E dt dev stream key comm Hdt s1 Hb1)
    as (s2 & d2 & E2 & X2 & _ & _).
  unfold job_element_size in E2.
  rewrite (bind_Ok _ _ _ _ _ E2).
  pose proof (bound_extends _ _ _ _ _ _ _ X2 Hb1) as Hb2.
  destruct (cross_node_phase_allocates rt gs (first_entry :: more_entries) first_entry
              (buffer_data_at_rank_offset gs (type_size rt (tensor_dtype first_entry))
                 buffer_data E)
              (total_num_elements gs E)
              (total_buffer_len gs (type_size rt (tensor_dtype first_entry)) E)
              s2 dev stream key comm Hrt Hhost Hb2)
    as (s3 & rest & E3 & T3 & Hp3).
  rewrite (bind_Ok _ _ _ _ _ E3).
  assert (bound s3 dev stream key comm) as Hb3.
  { destruct (cross_node_phase_succeeds rt gs Hrt (first_entry :: more_entries)
                first_entry buffer_data E dev stream key comm s2 Hb2)
      as (s3' & d3 & E3' & X3 & _ & _).
    unfold job_rank_offset, job_element_size in E3'.
    rewrite E3 in E3'. injection E3' as <-.
    exact (bound_extends _ _ _ _ _ _ _ X3 Hb2). }
  destruct (allgather_phase_succeeds DataType_Name rt gs Hrt
              (first_entry :: more_entries) first_entry buffer_data
              E dt dev stream key comm Hdt s3 Hb3)
    as (s4 & d4 & E4 & X4 & _ & H4).
  unfold job_rank_offset, job_element_size in E4.
  rewrite (bind_Ok _ _ _ _ _ E4).
  pose proof (bound_extends _ _ _ _ _ _ _ X4 Hb3) as Hb4.
  destruct (bcast_phase_succeeds DataType_Name rt gs Hrt
              (first_entry :: more_entries) first_entry buffer_data
              E dt dev stream key comm Hdt s4 Hb4)
    as (s5 & d5 & E5 & X5 & _ & H5).
  unfold job_element_size in E5.
  rewrite (bind_Ok _ _ _ _ _ E5).
  exists s5, (d1 ++ d2), (rest ++ d4 ++ d5). eexists.
  split; [reflexivity |]. split.
  - rewrite (ext_trace _ _ _ X5), (ext_trace _ _ _ X4), T3,
      (ext_trace _ _ _ X2), (ext_trace _ _ _ X1).
    unfold job_element_size. rewrite <- !app_assoc. simpl. reflexivity.
  - rewrite H5, H4, Hp3, (ext_trace _ _ _ X2), (ext_trace _ _ _ X1), <- app_assoc.
    reflexivity.
Qed.

(** C9.  For every combination of [is_homogeneous], root or not, [Eper]
    and [Erem]: [Initialize] clears the host-buffer pointer; the
    hierarchical [DoAllreduce] makes one allocation, of the byte length of
    the rank's cross-node share, if and only if the cluster is homogeneous
    or the local rank is the root rank, leaves the op's pointer on the
    block allocated (non-null exactly in that case) and frees nothing;
    [Finalize] hands that pointer to the finalizer, which first waits on
    every queued event, front first, and then frees the buffer exactly
    when the pointer is non-null, before completing the entries. *)
Theorem host_buffer_alloc_free_paired
    (DataType_Name : DataType -> string) (atom : Z) (rt : Runtime)
    (gs : HorovodGlobalState) (first_entry : TensorTableEntry)
    (more_entries : list TensorTableEntry) (devices key : list Z)
    (fused_input_data buffer_data num_elements buffer_len : Z)
    (dt : ncclDataType_t) (s : State) :
  runtime_succeeds rt ->
  GetDeviceMap gs NCCLHierarchicalAllreduce devices = Some key ->
  GetNCCLDataType DataType_Name (tensor_dtype first_entry) = Ok dt ->
  threads s = [] ->
  let E := effective_num_elements atom gs first_entry more_entries num_elements in
  let bytes := total_buffer_len gs (job_element_size rt first_entry) E in
  exists s1 s2 s3 s4 r job marker drain,
    Initialize rt gs NCCLHierarchicalAllreduce (first_entry :: more_entries) devices s
      = (Ok tt, s1) /\
    host_buffer_ s1 = nullptr /\
    NCCLHierarchicalAllreduce_DoAllreduce DataType_Name atom rt gs
      (first_entry :: more_entries) fused_input_data buffer_data
      num_elements buffer_len s1 = (Ok r, s2) /\
    trace s2 = trace s1 ++ job /\
    allocations job =
      (if is_homogeneous gs || is_root_rank gs then [malloc bytes] else []) /\
    frees job = [] /\
    (is_homogeneous gs || is_root_rank gs = true ->
     exists pre post,
       job = pre ++ malloc bytes :: post /\
       host_buffer_ s2 = new_handle rt (length (trace s1 ++ pre))) /\
    (host_buffer_ s2 <> nullptr <->
       is_homogeneous gs = true \/ local_rank gs = root_rank gs) /\
    Finalize rt (first_entry :: more_entries) s2 = (Ok Status_InProgress, s3) /\
    trace s3 = trace s2 ++ marker /\
    quiet marker /\
    run_finalizer rt s3 = (Ok tt, s4) /\
    trace s4 = trace s3
               ++ [cudaSetDevice (device first_entry)]
               ++ drain
               ++ (if host_buffer_ s2 =? nullptr then [] else [free (host_buffer_ s2)])
               ++ completion_calls (first_entry :: more_entries) /\
    quiet drain /\
    event_waits drain =
      map (fun slot => cudaEventSynchronize (snd slot)) (event_queue_ s3).
Proof.
  intros Hrt Hkey Hdt Hth E bytes.
  destruct (Initialize_succeeds rt gs Hrt NCCLHierarchicalAllreduce first_entry
              more_entries devices key s Hkey)
    as (s1 & d1 & stream & comm & E1 & Hb1 & Hh1 & Ht1 & _).
  destruct (hierarchical_DoAllreduce_succeeds DataType_Name atom rt gs Hrt
              first_entry more_entries fused_input_data buffer_data num_elements
              buffer_len dt (device first_entry) stream key comm Hdt s1 Hb1)
    as (s2 & d2 & len & E2 & X2 & P2 & Hh2).
  fold E in E2, P2.
  pose proof (bound_extends _ _ _ _ _ _ _ X2 Hb1) as Hb2.
  destruct (Finalize_succeeds rt Hrt first_entry more_entries s2 _ _ _ _ Hb2)
    as (s3 & d3 & event & E3 & Ht3 & _ & _ & Htr3 & Q3).
  rewrite (ext_threads _ _ _ X2), Ht1, Hth in Ht3. simpl in Ht3.
  set (f := {| fin_entries := first_entry :: more_entries;
               fin_first_entry := first_entry;
               fin_host_buffer := host_buffer_ s2 |}) in *.
  set (s3' := set_threads (fun _ => []) s3).
  destruct (finalizer_thread_runs rt Hrt f s3') as (s4 & drain & E4 & Htr4 & Q4 & W4 & _).
  exists s1, s2, s3, s4, (E, len), d2, d3, drain.
  split; [exact E1 |]. split; [exact Hh1 |]. split; [exact E2 |].
  split; [apply X2 |].
  split; [| split; [| split; [| split; [| split; [exact E3 |
    split; [exact Htr3 | split; [exact Q3 | split; [| split; [exact Htr4 | auto]]]]]]]]].
  - rewrite <- allocations_data_path, P2, !allocations_app.
    unfold reduce_scatter_calls, reduce_calls, cross_node_calls, allgather_calls,
      bcast_calls.
    destruct (num_elements_per_rank gs E >? 0), (num_elements_remaining gs E >? 0),
      (is_homogeneous gs || is_root_rank gs); reflexivity.
  - rewrite <- frees_data_path, P2, !frees_app.
    unfold reduce_scatter_calls, reduce_calls, cross_node_calls, allgather_calls,
      bcast_calls.
    destruct (num_elements_per_rank gs E >? 0), (num_elements_remaining gs E >? 0),
      (is_homogeneous gs || is_root_rank gs); reflexivity.
  - intros Hhost.
    destruct (hierarchical_DoAllreduce_allocates DataType_Name atom rt gs first_entry
                more_entries fused_input_data buffer_data num_elements buffer_len dt
                (device first_entry) stream key comm s1 Hrt Hdt Hhost Hb1)
      as (s2' & pre & post & r & E2' & T2' & Hp2').
    rewrite E2 in E2'. injection E2' as _ <-.
    exists pre, post. split; [| exact Hp2'].
    rewrite (ext_trace _ _ _ X2) in T2'. apply app_inv_head in T2'. exact T2'.
  - unfold is_root_rank in Hh2.
    destruct (is_homogeneous gs); simpl in Hh2.
    + split; auto.
    + destruct (local_rank gs =? root_rank gs) eqn:Hroot.
      * apply Z.eqb_eq in Hroot. split; auto.
      * apply Z.eqb_neq in Hroot. rewrite Hh1 in Hh2. split.
        -- intros Hnn. contradiction.
        -- intros [Hh | Hr]; [discriminate | contradiction].
  - unfold run_finalizer.
    rewrite (bind_Ok _ _ s3 s3 (threads s3)) by reflexivity.
    rewrite Ht3. step_modify. exact E4.
Qed.

(** Scenario 4 of the spec on the root rank of the second node of a
    homogeneous cluster: the job allocates 8 bytes for the shard and the
    tail, and the finalizer frees the block after the wait on the marker
    of [Finalize]. *)
Lemma host_buffer_alloc_free_paired_witness :
  exists s1 s2 s3 s4 r job marker drain,
    Initialize healthy_runtime (example_worker false true 1) NCCLHierarchicalAllreduce
      [example_entry "t" HOROVOD_FLOAT32 12 1] [0; 1; 0; 1] initial_state = (Ok tt, s1) /\
    host_buffer_ s1 = nullptr /\
    NCCLHierarchicalAllreduce_DoAllreduce example_DataType_Name 64 healthy_runtime
      (example_worker false true 1) [example_entry "t" HOROVOD_FLOAT32 12 1]
      8192 8192 3 12 s1 = (Ok r, s2) /\
    trace s2 = trace s1 ++ job /\
    allocations job = [malloc 8] /\
    frees job = [] /\
    host_buffer_ s2 <> nullptr /\
    Finalize healthy_runtime [example_entry "t" HOROVOD_FLOAT32 12 1] s2
      = (Ok Status_InProgress, s3) /\
    trace s3 = trace s2 ++ marker /\
    run_finalizer healthy_runtime s3 = (Ok tt, s4) /\
    trace s4 = trace s3
               ++ [cudaSetDevice 1]
               ++ drain
               ++ (if host_buffer_ s2 =? nullptr then [] else [free (host_buffer_ s2)])
               ++ completion_calls [example_entry "t" HOROVOD_FLOAT32 12 1] /\
    quiet drain.
Proof.
  destruct (host_buffer_alloc_free_paired example_DataType_Name 64 healthy_runtime
              (example_worker false true 1) (example_entry "t" HOROVOD_FLOAT32 12 1) []
              [0; 1; 0; 1] [0; 1] 8192 8192 3 12 ncclFloat32 initial_state
              healthy_runtime_succeeds eq_refl eq_refl eq_refl)
    as (s1 & s2 & s3 & s4 & r & job & marker & drain & E1 & Hh1 & E2 & T2 & Ha & Hf
        & _ & Hnn & E3 & T3 & _ & E4 & T4 & Q4 & _).
  exists s1, s2, s3, s4, r, job, marker, drain.
  split; [exact E1 |]. split; [exact Hh1 |]. split; [exact E2 |].
  split; [exact T2 |]. split; [exact Ha |]. split; [exact Hf |].
  split; [apply Hnn; left; reflexivity |].
  split; [exact E3 |]. split; [exact T3 |]. split; [exact E4 |].
  split; [exact T4 | exact Q4].
Defined.

(** ** Unsupported element types (C7) *)

(** A batch with at least one element reaches a device collective. *)
Lemma nonempty_batch_reaches_collective (gs : HorovodGlobalState) (E : Z) :
  0 < local_size gs -> 0 < E < 2 ^ 63 ->
  0 < num_elements_per_rank gs E \/ 0 < num_elements_remaining gs E.
Proof.
  intros Hls HE. unfold num_elements_per_rank, num_elements_remaining.
  destruct (is_homogeneous gs); [| right; lia].
  rewrite int64_id by (apply quot_in_int64; int_bounds; lia).
  pose proof (Z.quot_rem' E (local_size gs)) as Hqr.
  pose proof (Z.rem_bound_pos E (local_size gs) ltac:(lia) Hls) as Hr.
  assert (0 <= E ÷ local_size gs) by (apply Z.quot_pos; lia).
  destruct (Z.eq_dec (E ÷ local_size gs) 0) as [Hq | Hq]; [right | left]; nia.
Qed.

(** C7, as the code has it.  The data-type mapping succeeds on INT32,
    INT64, FLOAT16, FLOAT32 and FLOAT64 and on every other type raises the
    error "Type X is not supported in NCCL mode." with X the type's name.
    The mapping is evaluated as an argument of the first device collective
    of [DoAllreduce] (for the hierarchical strategy that is when [Eper > 0]
    or [Erem > 0], which a batch of at least one element ensures): the
    error leaves [DoAllreduce] before it has made any call.  In a job it
    is therefore raised after [Initialize] and after the copies into the
    fusion buffer have been enqueued on the stream, but before any device
    collective; [Finalize] is not reached, no finalizer is spawned and no
    entry callback is fired. *)
Theorem unsupported_type_raises
    (DataType_Name : DataType -> string) (atom : Z) (rt : Runtime)
    (gs : HorovodGlobalState) :
  (forall dtype, nccl_supported dtype = true ->
     exists dt, GetNCCLDataType DataType_Name dtype = Ok dt) /\
  (forall dtype, nccl_supported dtype = false ->
     GetNCCLDataType DataType_Name dtype
       = Throw (unsupported_message DataType_Name dtype)) /\
  (forall strategy first_entry more_entries fused_input_data buffer_data
          num_elements buffer_len s,
     nccl_supported (tensor_dtype first_entry) = false ->
     strategy = NCCLAllreduce \/
     0 < num_elements_per_rank gs
           (effective_num_elements atom gs first_entry more_entries num_elements) \/
     0 < num_elements_remaining gs
           (effective_num_elements atom gs first_entry more_entries num_elements) ->
     DoAllreduce DataType_Name atom rt gs strategy (first_entry :: more_entries)
       fused_input_data buffer_data num_elements buffer_len s
       = (Throw (unsupported_message DataType_Name (tensor_dtype first_entry)), s)) /\
  (forall E, 0 < local_size gs -> 0 < E < 2 ^ 63 ->
     0 < num_elements_per_rank gs E \/ 0 < num_elements_remaining gs E) /\
  (runtime_succeeds rt ->
   forall strategy fusion_buffer first_entry more_entries devices key s,
     GetDeviceMap gs strategy devices = Some key ->
     nccl_supported (tensor_dtype first_entry) = false ->
     strategy = NCCLAllreduce \/
     0 < num_elements_per_rank gs
           (effective_num_elements atom gs first_entry more_entries
              (batch_num_elements rt first_entry more_entries)) \/
     0 < num_elements_remaining gs
           (effective_num_elements atom gs first_entry more_entries
              (batch_num_elements rt first_entry more_entries)) ->
     exists s' prefix stream,
       Execute DataType_Name atom rt gs strategy fusion_buffer
         (first_entry :: more_entries) devices s
         = (Throw (unsupported_message DataType_Name (tensor_dtype first_entry)), s') /\
       trace s' = trace s ++ prefix
                  ++ memcpy_in_calls (first_entry :: more_entries) fusion_buffer stream /\
       preparatory prefix /\
       device_collectives
         (prefix ++ memcpy_in_calls (first_entry :: more_entries) fusion_buffer stream)
         = [] /\
       callbacks
         (prefix ++ memcpy_in_calls (first_entry :: more_entries) fusion_buffer stream)
         = [] /\
       threads s' = threads s).
Proof.
  assert (Hthrow : forall dtype, nccl_supported dtype = false ->
            GetNCCLDataType DataType_Name dtype
              = Throw (unsupported_message DataType_Name dtype)).
  { intros [] H; try discriminate; reflexivity. }
  split; [| split; [exact Hthrow | split; [| split]]].
  - intros [] H; try discriminate; eexists; reflexivity.
  - intros strategy first_entry more_entries fused_input_data buffer_data
      num_elements buffer_len s Hun Hcond.
    apply DoAllreduce_throws; [apply Hthrow; exact Hun | exact Hcond].
  - intros E. apply nonempty_batch_reaches_collective.
  - intros Hrt strategy fusion_buffer first_entry more_entries devices key s
      Hkey Hun Hcond.
    unfold Execute.
    rewrite (bind_Ok _ _ s s first_entry) by reflexivity.
    destruct (Initialize_succeeds rt gs Hrt strategy first_entry more_entries
                devices key s Hkey)
      as (s1 & d1 & stream & comm & E1 & Hb1 & _ & Ht1 & Htr1 & P1).
    rewrite (bind_Ok _ _ _ _ _ E1).
    destruct (MemcpyIn_all_succeeds rt Hrt (first_entry :: more_entries) first_entry
                more_entries fusion_buffer s1 stream key comm Hb1)
      as (s2 & E2 & X2 & _).
    rewrite (bind_Ok _ _ _ _ _ E2). cbv zeta.
    rewrite (bind_Throw _ _ s2 s2
               (unsupported_message DataType_Name (tensor_dtype first_entry)))
      by (apply DoAllreduce_throws; [apply Hthrow; exact Hun | exact Hcond]).
    exists s2, d1, stream. split; [reflexivity |].
    pose proof (preparatory_app _ _ P1
                  (preparatory_memcpy_in_calls (first_entry :: more_entries)
                     fusion_buffer stream)) as [Hdc Hcb].
    split; [rewrite (ext_trace _ _ _ X2), Htr1, <- app_assoc; reflexivity |].
    split; [exact P1 |]. split; [exact Hdc |]. split; [exact Hcb |].
    rewrite (ext_threads _ _ _ X2). exact Ht1.
Qed.

(** Scenario 6 of the spec with a fused batch of two INT8 tensors, flat
    strategy. *)
Lemma unsupported_type_raises_witness :
  exists s' prefix stream,
    Execute example_DataType_Name 64 healthy_runtime (example_worker false true 1)
      NCCLAllreduce 8192
      [example_entry "a" HOROVOD_INT8 16 1; example_entry "b" HOROVOD_INT8 16 1]
      [0; 1; 0; 1] initial_state
      = (Throw "Type INT8 is not supported in NCCL mode.", s') /\
    trace s' = trace initial_state ++ prefix
               ++ memcpy_in_calls
                    [example_entry "a" HOROVOD_INT8 16 1;
                     example_entry "b" HOROVOD_INT8 16 1] 8192 stream /\
    preparatory prefix /\
    device_collectives
      (prefix ++ memcpy_in_calls
                   [example_entry "a" HOROVOD_INT8 16 1;
                    example_entry "b" HOROVOD_INT8 16 1] 8192 stream) = [] /\
    callbacks
      (prefix ++ memcpy_in_calls
                   [example_entry "a" HOROVOD_INT8 16 1;
                    example_entry "b" HOROVOD_INT8 16 1] 8192 stream) = [] /\
    threads s' = threads initial_state.
Proof.
  destruct (unsupported_type_raises example_DataType_Name 64 healthy_runtime
              (example_worker false true 1)) as (_ & _ & _ & _ & H).
  apply (H healthy_runtime_succeeds NCCLAllreduce 8192
           (example_entry "a" HOROVOD_INT8 16 1) [example_entry "b" HOROVOD_INT8 16 1]
           [0; 1; 0; 1] [0; 1; 0; 1] initial_state).
  - reflexivity.
  - reflexivity.
  - left. reflexivity.
Defined.

(** The same job: when the error is raised, two copies have already been
    enqueued on the stream. *)
Lemma unsupported_type_raised_after_copies :
  let run :=
    Execute example_DataType_Name 64 healthy_runtime (example_worker false true 1)
      NCCLAllreduce 8192
      [example_entry "a" HOROVOD_INT8 16 1; example_entry "b" HOROVOD_INT8 16 1]
      [0; 1; 0; 1] initial_state in
  fst run = Throw "Type INT8 is not supported in NCCL mode." /\
  stream_work (trace (snd run)) =
    [cudaMemcpyAsync 8192 1024 16 cudaMemcpyDeviceToDevice 4098;
     cudaMemcpyAsync 8208 1024 16 cudaMemcpyDeviceToDevice 4098] /\
  stream_work (trace (snd run)) <> [].
Proof. vm_compute. repeat split; try reflexivity. discriminate. Qed.

(** * Further properties of the operations *)

(** ** The flat allreduce *)

Lemma RecordEventEnd_queue rt gs event_name entries s dev stream key comm :
  runtime_succeeds rt ->
  bound s dev stream key comm ->
  exists s' delta,
    RecordEventEnd rt gs event_name entries s = (Ok tt, s') /\
    extends s s' delta /\ quiet delta /\
    host_buffer_ s' = host_buffer_ s /\
    (if timeline_initialized gs
     then exists event, event_queue_ s' = event_queue_ s ++ [(event_name, event)]
     else delta = [] /\ event_queue_ s' = event_queue_ s).
Proof.
  intros Hrt Hb. unfold RecordEventEnd.
  destruct (timeline_initialized gs).
  - rewrite (bind_Ok _ _ _ _ _ (deref_stream_bound _ _ _ _ _ Hb)).
    destruct (RecordEvent_succeeds rt Hrt event_name stream s)
      as (s' & delta & E & X & Q & _ & H & Hq).
    exists s', delta. auto 10.
  - exists s, []. split; [reflexivity |]. split; [apply extends_refl |].
    split; [constructor |]. auto.
Qed.

(** X1.  [NCCLAllreduce::DoAllreduce] issues a single device collective, a sum
    allreduce of [num_elements] elements from the fused input into the
    buffer on the op's communicator and stream; it leaves [num_elements],
    [buffer_len] and the host buffer alone; with tracing it queues one
    event named NCCL_ALLREDUCE, without tracing the collective is its only
    call. *)
Theorem flat_allreduce_one_collective
    (DataType_Name : DataType -> string) (rt : Runtime) (gs : HorovodGlobalState)
    (first_entry : TensorTableEntry) (more_entries : list TensorTableEntry)
    (fused_input_data buffer_data num_elements buffer_len : Z)
    (dt : ncclDataType_t) (dev stream : Z) (key : list Z) (comm : Z) (s : State) :
  runtime_succeeds rt ->
  GetNCCLDataType DataType_Name (tensor_dtype first_entry) = Ok dt ->
  bound s dev stream key comm ->
  exists s' delta,
    NCCLAllreduce_DoAllreduce DataType_Name rt gs (first_entry :: more_entries)
      fused_input_data buffer_data num_elements buffer_len s
      = (Ok (num_elements, buffer_len), s') /\
    trace s' = trace s ++ delta /\
    data_path delta =
      [ncclAllReduce fused_input_data buffer_data (size_t num_elements) dt ncclSum
         comm stream] /\
    host_buffer_ s' = host_buffer_ s /\
    (if timeline_initialized gs
     then exists event,
            event_queue_ s' = event_queue_ s ++ [(NCCL_ALLREDUCE, event)]
     else delta = [ncclAllReduce fused_input_data buffer_data (size_t num_elements)
                     dt ncclSum comm stream] /\
          event_queue_ s' = event_queue_ s).
Proof.
  intros Hrt Hdt Hb. unfold NCCLAllreduce_DoAllreduce.
  rewrite (bind_Ok _ _ s s first_entry) by reflexivity.
  rewrite Hdt. rewrite (bind_Ok _ _ s s dt) by reflexivity.
  rewrite (bind_Ok _ _ _ _ _ (deref_nccl_comm_bound _ _ _ _ _ Hb)).
  rewrite (bind_Ok _ _ _ _ _ (deref_stream_bound _ _ _ _ _ Hb)).
  rewrite (bind_Ok _ _ _ _ _ (nccl_call_succeeds rt Hrt _ s)).
  set (c := ncclAllReduce fused_input_data buffer_data (size_t num_elements) dt
              ncclSum comm stream).
  rewrite (bind_Ok _ _ (log c s) (log c s) tt) by reflexivity.
  assert (bound (log c s) dev stream key comm) as Hb1
    by (eapply bound_extends; [apply extends_log | exact Hb]).
  destruct (RecordEventEnd_queue rt gs NCCL_ALLREDUCE (first_entry :: more_entries)
              (log c s) _ _ _ _ Hrt Hb1)
    as (s' & delta & E & X & Q & Hh & Hq).
  rewrite (bind_Ok _ _ _ _ _ E).
  exists s', ([c] ++ delta). split; [reflexivity |].
  split; [rewrite (ext_trace _ _ _ X); simpl; rewrite <- app_assoc; reflexivity |].
  split; [rewrite data_path_app, (data_path_quiet _ Q); reflexivity |].
  split; [rewrite Hh; reflexivity |].
  destruct (timeline_initialized gs).
  - destruct Hq as [event Hq]. exists event. exact Hq.
  - destruct Hq as [-> Hq]. split; [reflexivity | exact Hq].
Qed.

(** Scenario 1 of the spec on one worker: 100 FLOAT32 elements, no
    tracing. *)
Lemma flat_allreduce_one_collective_witness :
  exists s' delta,
    NCCLAllreduce_DoAllreduce example_DataType_Name healthy_runtime
      (example_worker false true 1) [example_entry "t" HOROVOD_FLOAT32 400 1]
      1024 2048 100 400 (bound_state 1 77 [0; 1; 0; 1] 88) = (Ok (100, 400), s') /\
    trace s' = delta /\
    data_path delta = [ncclAllReduce 1024 2048 100 ncclFloat32 ncclSum 88 77] /\
    host_buffer_ s' = nullptr /\
    delta = [ncclAllReduce 1024 2048 100 ncclFloat32 ncclSum 88 77] /\
    event_queue_ s' = [].
Proof.
  exact (flat_allreduce_one_collective example_DataType_Name healthy_runtime
           (example_worker false true 1) (example_entry "t" HOROVOD_FLOAT32 400 1) []
           1024 2048 100 400 ncclFloat32 1 77 [0; 1; 0; 1] 88
           (bound_state 1 77 [0; 1; 0; 1] 88)
           healthy_runtime_succeeds eq_refl (bound_state_bound 1 77 [0; 1; 0; 1] 88)).
Defined.

(** X2.  When [ncclAllReduce] reports an error, [NCCLAllreduce::DoAllreduce]
    throws "ncclAllReduce failed: " followed by the NCCL error string; the
    collective is its only call and no event is recorded. *)
Theorem flat_allreduce_failure_throws
    (DataType_Name : DataType -> string) (rt : Runtime) (gs : HorovodGlobalState)
    (first_entry : TensorTableEntry) (more_entries : list TensorTableEntry)
    (fused_input_data buffer_data num_elements buffer_len : Z)
    (dt : ncclDataType_t) (dev stream : Z) (key : list Z) (comm : Z) (s : State)
    (code : Z) :
  GetNCCLDataType DataType_Name (tensor_dtype first_entry) = Ok dt ->
  bound s dev stream key comm ->
  nccl_status rt (length (trace s)) = ncclError code ->
  NCCLAllreduce_DoAllreduce DataType_Name rt gs (first_entry :: more_entries)
    fused_input_data buffer_data num_elements buffer_len s
  = (Throw ("ncclAllReduce failed: " +:+ ncclGetErrorString rt (ncclError code)),
     log (ncclAllReduce fused_input_data buffer_data (size_t num_elements) dt ncclSum
            comm stream) s).
Proof.
  intros Hdt Hb Hfail. unfold NCCLAllreduce_DoAllreduce.
  rewrite (bind_Ok _ _ s s first_entry) by reflexivity.
  rewrite Hdt. rewrite (bind_Ok _ _ s s dt) by reflexivity.
  rewrite (bind_Ok _ _ _ _ _ (deref_nccl_comm_bound _ _ _ _ _ Hb)).
  rewrite (bind_Ok _ _ _ _ _ (deref_stream_bound _ _ _ _ _ Hb)).
  unfold nccl_call, call, bind, ret. simpl. rewrite Hfail. reflexivity.
Qed.

Lemma flat_allreduce_failure_throws_witness :
  NCCLAllreduce_DoAllreduce example_DataType_Name (nccl_failing_at 0)
    (example_worker true true 1) [example_entry "t" HOROVOD_FLOAT32 400 1]
    1024 2048 100 400 (bound_state 1 77 [0; 1; 0; 1] 88)
  = (Throw "ncclAllReduce failed: unhandled system error",
     log (ncclAllReduce 1024 2048 100 ncclFloat32 ncclSum 88 77)
       (bound_state 1 77 [0; 1; 0; 1] 88)).
Proof.
  exact (flat_allreduce_failure_throws example_DataType_Name (nccl_failing_at 0)
           (example_worker true true 1) (example_entry "t" HOROVOD_FLOAT32 400 1) []
           1024 2048 100 400 ncclFloat32 1 77 [0; 1; 0; 1] 88
           (bound_state 1 77 [0; 1; 0; 1] 88) 2
           eq_refl (bound_state_bound 1 77 [0; 1; 0; 1] 88) eq_refl).
Defined.

(** ** The stream registry *)

Lemma InitCUDA_hit rt first_entry more_entries s stream :
  cuda_status rt (length (trace s)) = cudaSuccess ->
  streams s !! device first_entry = Some stream -> stream <> nullptr ->
  InitCUDA rt (first_entry :: more_entries) s =
    (Ok tt, set_current_device (device first_entry)
              (log (cudaSetDevice (device first_entry)) s)).
Proof.
  intros Hok Hs Hnn. unfold InitCUDA.
  rewrite (bind_Ok _ _ s s first_entry) by reflexivity.
  rewrite (bind_Ok _ _ s (set_current_device (device first_entry)
                            (log (cudaSetDevice (device first_entry)) s)) cudaSuccess)
    by (unfold cudaSetDevice_, cuda_call, call, bind, ret, modify; simpl;
        rewrite Hok; reflexivity).
  step_ret.
  rewrite (bind_Ok _ _ _ _ stream)
    by (unfold streams_at; simpl; rewrite Hs; reflexivity).
  apply Z.eqb_neq in Hnn. rewrite Hnn. reflexivity.
Qed.

Lemma InitCUDA_miss rt first_entry more_entries s :
  runtime_succeeds rt ->
  streams s !! device first_entry = None \/
  streams s !! device first_entry = Some nullptr ->
  exists s',
    InitCUDA rt (first_entry :: more_entries) s = (Ok tt, s') /\
    trace s' = trace s
               ++ [cudaSetDevice (device first_entry);
                   cudaDeviceGetStreamPriorityRange;
                   cudaStreamCreateWithPriority cudaStreamNonBlocking
                     (new_value rt (S (length (trace s))))] /\
    streams s' = <[device first_entry := new_handle rt (S (S (length (trace s))))]>
                   (streams s) /\
    new_handle rt (S (S (length (trace s)))) <> nullptr /\
    current_device s' = device first_entry.
Proof.
  intros Hrt Hs. unfold InitCUDA.
  rewrite (bind_Ok _ _ s s first_entry) by reflexivity.
  set (dev := device first_entry) in *.
  set (s1 := set_current_device dev (log (cudaSetDevice dev) s)).
  rewrite (bind_Ok _ _ s s1 cudaSuccess)
    by (unfold cudaSetDevice_;
        rewrite (bind_Ok _ _ _ _ _ (cuda_call_succeeds rt Hrt _ s)); reflexivity).
  step_ret.
  assert (length (trace s1) = S (length (trace s))) as Hlen
    by (subst s1; simpl; rewrite length_app; simpl; lia).
  destruct Hs as [Hs | Hs].
  - rewrite (bind_Ok _ _ s1 (set_streams (insert dev nullptr) s1) nullptr)
      by (unfold streams_at; simpl; rewrite Hs; reflexivity).
    rewrite Z.eqb_refl. step_call. rewrite (cuda_ok rt Hrt). step_ret. step_call.
    rewrite (cuda_ok rt Hrt). unfold modify.
    eexists. split; [reflexivity |]. simpl.
    rewrite !length_app. simpl.
    replace (length (trace s) + 1)%nat with (S (length (trace s))) by lia.
    replace (S (length (trace s)) + 1)%nat with (S (S (length (trace s)))) by lia.
    split; [rewrite <- !app_assoc; reflexivity |].
    split; [apply insert_insert_eq |].
    split; [apply (handle_nonnull rt Hrt) | reflexivity].
  - rewrite (bind_Ok _ _ s1 s1 nullptr)
      by (unfold streams_at; simpl; rewrite Hs; reflexivity).
    rewrite Z.eqb_refl. step_call. rewrite (cuda_ok rt Hrt). step_ret. step_call.
    rewrite (cuda_ok rt Hrt). unfold modify.
    eexists. split; [reflexivity |]. simpl.
    rewrite !length_app. simpl.
    replace (length (trace s) + 1)%nat with (S (length (trace s))) by lia.
    replace (S (length (trace s)) + 1)%nat with (S (S (length (trace s)))) by lia.
    split; [rewrite <- !app_assoc; reflexivity |].
    split; [reflexivity |].
    split; [apply (handle_nonnull rt Hrt) | reflexivity].
Qed.

Lemma InitCUDA_keeps_streams rt entries s r s' dev stream :
  InitCUDA rt entries s = (r, s') ->
  streams s !! dev = Some stream -> stream <> nullptr ->
  streams s' !! dev = Some stream.
Proof.
  unfold InitCUDA. destruct entries as [| first_entry more_entries].
  { intros [= <- <-]. auto. }
  rewrite (bind_Ok _ _ s s first_entry) by reflexivity.
  intros E Hs Hnn. revert E.
  unfold cudaSetDevice_, cuda_call, call, bind, ret, modify, throw,
    CUDAContext_ErrorCheck, streams_at. simpl.
  destruct (cuda_status rt (length (trace s))); simpl.
  2: { intros [= <- <-]. exact Hs. }
  destruct (streams s !! device first_entry) as [stream' |] eqn:Hs'; simpl.
  - destruct (stream' =? nullptr) eqn:Hnull; simpl.
    + apply Z.eqb_eq in Hnull. subst stream'.
      assert (dev <> device first_entry) by congruence.
      repeat (match goal with
              | |- context [cuda_status rt ?n] => destruct (cuda_status rt n); simpl
              end);
        intros [= <- <-]; simpl; rewrite ?lookup_insert_ne by auto; exact Hs.
    + intros [= <- <-]. exact Hs.
  - assert (dev <> device first_entry) by congruence.
    repeat (match goal with
            | |- context [cuda_status rt ?n] => destruct (cuda_status rt n); simpl
            end);
      intros [= <- <-]; simpl; rewrite ?lookup_insert_ne by auto; exact Hs.
Qed.

(** X3.  [InitCUDA] keeps one stream per device.  When the device of the first
    entry already has a stream, the only call is [cudaSetDevice] and the
    registry is untouched; when it has none (or a null one) the priority
    range is queried and one non-blocking stream is created at the
    greatest priority reported, and registered; whatever the outcome, the
    stream registered for any device is never replaced or removed. *)
Theorem stream_created_once_per_device
    (rt : Runtime) (first_entry : TensorTableEntry)
    (more_entries : list TensorTableEntry) (s : State) :
  (forall stream,
     cuda_status rt (length (trace s)) = cudaSuccess ->
     streams s !! device first_entry = Some stream -> stream <> nullptr ->
     InitCUDA rt (first_entry :: more_entries) s =
       (Ok tt, set_current_device (device first_entry)
                 (log (cudaSetDevice (device first_entry)) s))) /\
  (runtime_succeeds rt ->
   streams s !! device first_entry = None \/
   streams s !! device first_entry = Some nullptr ->
   exists s',
     InitCUDA rt (first_entry :: more_entries) s = (Ok tt, s') /\
     trace s' = trace s
                ++ [cudaSetDevice (device first_entry);
                    cudaDeviceGetStreamPriorityRange;
                    cudaStreamCreateWithPriority cudaStreamNonBlocking
                      (new_value rt (S (length (trace s))))] /\
     streams s' = <[device first_entry := new_handle rt (S (S (length (trace s))))]>
                    (streams s) /\
     new_handle rt (S (S (length (trace s)))) <> nullptr) /\
  (forall r s' dev stream,
     InitCUDA rt (first_entry :: more_entries) s = (r, s') ->
     streams s !! dev = Some stream -> stream <> nullptr ->
     streams s' !! dev = Some stream).
Proof.
  split; [| split].
  - intros stream. apply InitCUDA_hit.
  - intros Hrt Hs.
    destruct (InitCUDA_miss rt first_entry more_entries s Hrt Hs)
      as (s' & E & Ht & Hs' & Hnn & _).
    eauto.
  - intros r s' dev stream. apply InitCUDA_keeps_streams.
Qed.

(** A first job on GPU 1: the stream is created with the priority the
    runtime reported for the second call of the run. *)
Lemma stream_created_once_per_device_witness :
  exists s',
    InitCUDA healthy_runtime [example_entry "t" HOROVOD_FLOAT32 16 1] initial_state
      = (Ok tt, s') /\
    trace s' = [cudaSetDevice 1; cudaDeviceGetStreamPriorityRange;
                cudaStreamCreateWithPriority cudaStreamNonBlocking 1] /\
    streams s' = <[1 := 4098]> ∅ /\
    4098 <> nullptr.
Proof.
  destruct (stream_created_once_per_device healthy_runtime
              (example_entry "t" HOROVOD_FLOAT32 16 1) [] initial_state)
    as (_ & H & _).
  apply (H healthy_runtime_succeeds). left. reflexivity.
Defined.

(** X4.  Failures of [InitCUDA].  A failing [cudaSetDevice] throws
    "cudaSetDevice failed: ..." before the registry is looked at.  A
    failing [cudaStreamCreateWithPriority] throws after the slot of the
    device has been entered in the registry: the slot holds a null stream,
    and the next [InitCUDA] for that device creates the stream. *)
Theorem stream_creation_failure_leaves_null_slot
    (rt : Runtime) (first_entry : TensorTableEntry)
    (more_entries : list TensorTableEntry) (s : State) (code : Z) :
  (cuda_status rt (length (trace s)) = cudaError code ->
   InitCUDA rt (first_entry :: more_entries) s =
     (Throw ("cudaSetDevice failed: " +:+ cudaGetErrorString rt (cudaError code)),
      log (cudaSetDevice (device first_entry)) s)) /\
  (cuda_status rt (length (trace s)) = cudaSuccess ->
   cuda_status rt (S (length (trace s))) = cudaSuccess ->
   cuda_status rt (S (S (length (trace s)))) = cudaError code ->
   streams s !! device first_entry = None \/
   streams s !! device first_entry = Some nullptr ->
   exists s',
     InitCUDA rt (first_entry :: more_entries) s =
       (Throw ("cudaStreamCreateWithPriority failed: "
               +:+ cudaGetErrorString rt (cudaError code)), s') /\
     streams s' !! device first_entry = Some nullptr /\
     forall rt',
       runtime_succeeds rt' ->
       exists s'' stream,
         InitCUDA rt' (first_entry :: more_entries) s' = (Ok tt, s'') /\
         streams s'' !! device first_entry = Some stream /\ stream <> nullptr).
Proof.
  split.
  - intros Hfail. unfold InitCUDA.
    rewrite (bind_Ok _ _ s s first_entry) by reflexivity.
    unfold cudaSetDevice_, cuda_call, call, bind, ret. simpl.
    rewrite Hfail. reflexivity.
  - intros H0 H1 H2 Hs.
    assert (exists s',
      InitCUDA rt (first_entry :: more_entries) s =
        (Throw ("cudaStreamCreateWithPriority failed: "
                +:+ cudaGetErrorString rt (cudaError code)), s') /\
      streams s' !! device first_entry = Some nullptr) as (s' & E & Hs').
    { unfold InitCUDA.
      rewrite (bind_Ok _ _ s s first_entry) by reflexivity.
      unfold cudaSetDevice_, cuda_call, call, bind, ret, modify, throw,
        CUDAContext_ErrorCheck, streams_at. simpl.
      rewrite H0. simpl.
      destruct Hs as [Hs | Hs]; rewrite Hs; simpl;
        rewrite !length_app; simpl;
        replace (length (trace s) + 1)%nat with (S (length (trace s))) by lia;
        rewrite H1; simpl; rewrite !length_app; simpl;
        replace (length (trace s) + 1 + 1)%nat with (S (S (length (trace s)))) by lia;
        rewrite H2; eexists; (split; [reflexivity |]); simpl.
      - apply lookup_insert_eq.
      - exact Hs. }
    exists s'. split; [exact E |]. split; [exact Hs' |].
    intros rt' Hrt'.
    destruct (InitCUDA_miss rt' first_entry more_entries s' Hrt' (or_intror Hs'))
      as (s'' & E'' & _ & Hs'' & Hnn & _).
    exists s'', (new_handle rt' (S (S (length (trace s'))))).
    split; [exact E'' |]. split; [| exact Hnn].
    rewrite Hs''. apply lookup_insert_eq.
Qed.

(** The third call of a first job, the stream creation, fails. *)
Lemma stream_creation_failure_leaves_null_slot_witness :
  exists s',
    InitCUDA (cuda_failing_at 2) [example_entry "t" HOROVOD_FLOAT32 16 1] initial_state =
      (Throw "cudaStreamCreateWithPriority failed: unspecified launch failure", s') /\
    streams s' !! 1 = Some nullptr /\
    forall rt',
      runtime_succeeds rt' ->
      exists s'' stream,
        InitCUDA rt' [example_entry "t" HOROVOD_FLOAT32 16 1] s' = (Ok tt, s'') /\
        streams s'' !! 1 = Some stream /\ stream <> nullptr.
Proof.
  destruct (stream_creation_failure_leaves_null_slot (cuda_failing_at 2)
              (example_entry "t" HOROVOD_FLOAT32 16 1) [] initial_state 700)
    as (_ & H).
  apply H; try reflexivity. left. reflexivity.
Defined.

(** ** Failures while a communicator is built *)

(** Bring the positions of the calls of a run to successors of the length
    of the initial trace. *)
Ltac call_positions :=
  rewrite ?length_app; cbn [length]; rewrite ?Nat.add_1_r.

(** X5.  When [ncclCommInitRank] fails, [InitComm] throws "ncclCommInitRank
    failed: ..." after the rendezvous of the broadcast: the barrier is not
    entered, the timeline activity stays open, the op's communicator
    pointer is not set and the key stays in the cache with a null handle,
    so that the next [InitComm] for the key runs the build protocol
    again. *)
Theorem failed_build_leaves_key_unbuilt
    (rt : Runtime) (gs : HorovodGlobalState) (strategy : Strategy)
    (entries : list TensorTableEntry) (devices key : list Z) (s : State) (code : Z) :
  let nccl_rank := fst (fst (PopulateCommStrategy gs strategy)) in
  let nccl_size := snd (fst (PopulateCommStrategy gs strategy)) in
  let scope := snd (PopulateCommStrategy gs strategy) in
  GetDeviceMap gs strategy devices = Some key ->
  nccl_comms s !! key = None \/ nccl_comms s !! key = Some nullptr ->
  (if nccl_rank =? 0
   then nccl_status rt (S (length (trace s))) = ncclSuccess /\
        nccl_status rt (S (S (S (length (trace s))))) = ncclError code
   else nccl_status rt (S (S (length (trace s)))) = ncclError code) ->
  exists s' nccl_id,
    InitComm rt gs strategy entries devices s =
      (Throw ("ncclCommInitRank failed: " +:+ ncclGetErrorString rt (ncclError code)),
       s') /\
    trace s' = trace s
               ++ [Timeline_ActivityStartAll INIT_NCCL]
               ++ (if nccl_rank =? 0 then [ncclGetUniqueId] else [])
               ++ [Channel_Broadcast sizeof_ncclUniqueId HOROVOD_BYTE 0 scope;
                   ncclCommInitRank nccl_size nccl_id nccl_rank] /\
    nccl_comms s' !! key = Some nullptr /\
    nccl_comm_ s' = nccl_comm_ s /\
    forall rt',
      runtime_succeeds rt' ->
      exists s'' comm,
        InitComm rt' gs strategy entries devices s' = (Ok tt, s'') /\
        nccl_comms s'' !! key = Some comm /\ comm <> nullptr /\
        builds (drop (length (trace s')) (trace s'')) = 1%nat.
Proof.
  intros nccl_rank nccl_size scope Hkey Hc Hfail.
  assert (exists s' nccl_id,
    InitComm rt gs strategy entries devices s =
      (Throw ("ncclCommInitRank failed: " +:+ ncclGetErrorString rt (ncclError code)),
       s') /\
    trace s' = trace s
               ++ [Timeline_ActivityStartAll INIT_NCCL]
               ++ (if nccl_rank =? 0 then [ncclGetUniqueId] else [])
               ++ [Channel_Broadcast sizeof_ncclUniqueId HOROVOD_BYTE 0 scope;
                   ncclCommInitRank nccl_size nccl_id nccl_rank] /\
    nccl_comms s' !! key = Some nullptr /\
    nccl_comm_ s' = nccl_comm_ s) as (s' & nccl_id & E & Ht & Hc' & Hp).
  { unfold InitComm. rewrite Hkey.
    rewrite (bind_Ok _ _ s s key) by reflexivity.
    subst nccl_rank nccl_size scope. revert Hfail.
    destruct Hc as [Hc | Hc].
    - rewrite (bind_Ok _ _ s (set_nccl_comms (insert key nullptr) s) nullptr)
        by (unfold nccl_comms_at; rewrite Hc; reflexivity).
      rewrite Z.eqb_refl. unfold build_comm.
      destruct (PopulateCommStrategy gs strategy) as [[nccl_rank nccl_size] scope].
      cbn [fst snd].
      unfold bind, call, modify, ret, NCCLContext_ErrorCheck, throw. simpl.
      destruct (nccl_rank =? 0); simpl; call_positions.
      + intros [H1 H3]. rewrite H1. simpl. call_positions. rewrite H3.
        do 2 eexists. split; [reflexivity |]. simpl.
        rewrite <- !app_assoc. split; [reflexivity |].
        split; [apply lookup_insert_eq | reflexivity].
      + intros H2. rewrite H2.
        do 2 eexists. split; [reflexivity |]. simpl.
        rewrite <- !app_assoc. split; [reflexivity |].
        split; [apply lookup_insert_eq | reflexivity].
    - rewrite (bind_Ok _ _ s s nullptr)
        by (unfold nccl_comms_at; rewrite Hc; reflexivity).
      rewrite Z.eqb_refl. unfold build_comm.
      destruct (PopulateCommStrategy gs strategy) as [[nccl_rank nccl_size] scope].
      cbn [fst snd].
      unfold bind, call, modify, ret, NCCLContext_ErrorCheck, throw. simpl.
      destruct (nccl_rank =? 0); simpl; call_positions.
      + intros [H1 H3]. rewrite H1. simpl. call_positions. rewrite H3.
        do 2 eexists. split; [reflexivity |]. simpl.
        rewrite <- !app_assoc. split; [reflexivity |].
        split; [exact Hc | reflexivity].
      + intros H2. rewrite H2.
        do 2 eexists. split; [reflexivity |]. simpl.
        rewrite <- !app_assoc. split; [reflexivity |].
        split; [exact Hc | reflexivity]. }
  exists s', nccl_id. split; [exact E |]. split; [exact Ht |].
  split; [exact Hc' |]. split; [exact Hp |].
  intros rt' Hrt'.
  destruct (InitComm_miss rt' gs strategy entries devices key s' Hrt' Hkey
              (or_intror Hc'))
    as (nccl_id' & comm & s'' & Hnn & E'' & Hm & Ht'').
  exists s'', comm. split; [exact E'' |].
  split; [rewrite Hm; apply lookup_insert_eq |]. split; [exact Hnn |].
  rewrite Ht'', drop_app_length. apply builds_build_protocol.
Qed.

(** The hierarchical build of local rank 1: its third call,
    [ncclCommInitRank], fails. *)
Lemma failed_build_leaves_key_unbuilt_witness :
  exists s' nccl_id,
    InitComm (nccl_failing_at 2) (example_worker false true 1) NCCLHierarchicalAllreduce
      [example_entry "t" HOROVOD_FLOAT32 16 1] [0; 1; 0; 1] initial_state =
      (Throw "ncclCommInitRank failed: unhandled system error", s') /\
    trace s' = [Timeline_ActivityStartAll INIT_NCCL;
                Channel_Broadcast sizeof_ncclUniqueId HOROVOD_BYTE 0 LOCAL;
                ncclCommInitRank 2 nccl_id 1] /\
    nccl_comms s' !! [0; 1] = Some nullptr /\
    nccl_comm_ s' = None /\
    forall rt',
      runtime_succeeds rt' ->
      exists s'' comm,
        InitComm rt' (example_worker false true 1) NCCLHierarchicalAllreduce
          [example_entry "t" HOROVOD_FLOAT32 16 1] [0; 1; 0; 1] s' = (Ok tt, s'') /\
        nccl_comms s'' !! [0; 1] = Some comm /\ comm <> nullptr /\
        builds (drop (length (trace s')) (trace s'')) = 1%nat.
Proof.
  apply (failed_build_leaves_key_unbuilt (nccl_failing_at 2)
           (example_worker false true 1) NCCLHierarchicalAllreduce
           [example_entry "t" HOROVOD_FLOAT32 16 1] [0; 1; 0; 1] [0; 1]
           initial_state 2).
  - reflexivity.
  - left. reflexivity.
  - reflexivity.
Defined.

(** X6.  On rank 0 of the group a failing [ncclGetUniqueId] throws
    "ncclGetUniqueId failed: ..." before the broadcast is entered: the
    only calls are the opening of the timeline activity and the id
    request, and the key is left in the cache with a null handle. *)
Theorem unique_id_failure_precedes_broadcast
    (rt : Runtime) (gs : HorovodGlobalState) (strategy : Strategy)
    (entries : list TensorTableEntry) (devices key : list Z) (s : State) (code : Z) :
  GetDeviceMap gs strategy devices = Some key ->
  nccl_comms s !! key = None \/ nccl_comms s !! key = Some nullptr ->
  fst (fst (PopulateCommStrategy gs strategy)) = 0 ->
  nccl_status rt (S (length (trace s))) = ncclError code ->
  exists s',
    InitComm rt gs strategy entries devices s =
      (Throw ("ncclGetUniqueId failed: " +:+ ncclGetErrorString rt (ncclError code)),
       s') /\
    trace s' = trace s ++ [Timeline_ActivityStartAll INIT_NCCL; ncclGetUniqueId] /\
    nccl_comms s' !! key = Some nullptr /\
    nccl_comm_ s' = nccl_comm_ s.
Proof.
  intros Hkey Hc Hrank Hfail.
  unfold InitComm. rewrite Hkey.
  rewrite (bind_Ok _ _ s s key) by reflexivity.
  revert Hrank.
  destruct Hc as [Hc | Hc].
  - rewrite (bind_Ok _ _ s (set_nccl_comms (insert key nullptr) s) nullptr)
      by (unfold nccl_comms_at; rewrite Hc; reflexivity).
    rewrite Z.eqb_refl. unfold build_comm.
    destruct (PopulateCommStrategy gs strategy) as [[nccl_rank nccl_size] scope].
    cbn [fst snd]. intros ->.
    unfold bind, call, modify, ret, NCCLContext_ErrorCheck, throw. simpl.
    call_positions. rewrite Hfail.
    eexists. split; [reflexivity |]. simpl. rewrite <- !app_assoc.
    split; [reflexivity |]. split; [apply lookup_insert_eq | reflexivity].
  - rewrite (bind_Ok _ _ s s nullptr)
      by (unfold nccl_comms_at; rewrite Hc; reflexivity).
    rewrite Z.eqb_refl. unfold build_comm.
    destruct (PopulateCommStrategy gs strategy) as [[nccl_rank nccl_size] scope].
    cbn [fst snd]. intros ->.
    unfold bind, call, modify, ret, NCCLContext_ErrorCheck, throw. simpl.
    call_positions. rewrite Hfail.
    eexists. split; [reflexivity |]. simpl. rewrite <- !app_assoc.
    split; [reflexivity |]. split; [exact Hc | reflexivity].
Qed.

(** The hierarchical build of local rank 0: the id request fails. *)
Lemma unique_id_failure_precedes_broadcast_witness :
  exists s',
    InitComm (nccl_failing_at 1) (example_worker false true 0) NCCLHierarchicalAllreduce
      [example_entry "t" HOROVOD_FLOAT32 16 0] [0; 1; 0; 1] initial_state =
      (Throw "ncclGetUniqueId failed: unhandled system error", s') /\
    trace s' = [Timeline_ActivityStartAll INIT_NCCL; ncclGetUniqueId] /\
    nccl_comms s' !! [0; 1] = Some nullptr /\
    nccl_comm_ s' = None.
Proof.
  apply (unique_id_failure_precedes_broadcast (nccl_failing_at 1)
           (example_worker false true 0) NCCLHierarchicalAllreduce
           [example_entry "t" HOROVOD_FLOAT32 16 0] [0; 1; 0; 1] [0; 1]
           initial_state 2).
  - reflexivity.
  - left. reflexivity.
  - reflexivity.
  - reflexivity.
Defined.

(** ** Bounds of the hierarchical device map *)

Lemma push_back_devices_length devices ranks acc key :
  push_back_devices devices ranks acc = Some key ->
  length key = (length acc + length ranks)%nat /\
  Forall (fun r => 0 <= r < Z.of_nat (length devices)) ranks.
Proof.
  revert acc. induction ranks as [| r ranks IH]; intros acc; simpl.
  - intros [= <-]. split; [lia | constructor].
  - unfold vector_at. destruct (r <? 0) eqn:Hneg; [discriminate |].
    destruct (devices !! Z.to_nat r) as [d |] eqn:Hd; [| discriminate].
    intros H. destruct (IH _ H) as [Hlen Hall].
    rewrite length_app in Hlen. simpl in Hlen. split; [lia |].
    constructor; [| exact Hall].
    apply Z.ltb_ge in Hneg. apply lookup_lt_Some in Hd. lia.
Qed.

Lemma push_back_devices_None devices ranks acc :
  push_back_devices devices ranks acc = None <->
  Exists (fun r => ~ (0 <= r < Z.of_nat (length devices))) ranks.
Proof.
  split.
  - revert acc. induction ranks as [| r ranks IH]; intros acc; simpl.
    + discriminate.
    + unfold vector_at. destruct (r <? 0) eqn:Hneg.
      * intros _. apply Exists_cons_hd. apply Z.ltb_lt in Hneg. lia.
      * destruct (devices !! Z.to_nat r) as [d |] eqn:Hd.
        -- intros H. apply Exists_cons_tl. eapply IH; eassumption.
        -- intros _. apply Exists_cons_hd. apply lookup_ge_None in Hd.
           apply Z.ltb_ge in Hneg. lia.
  - intros Hex.
    destruct (push_back_devices devices ranks acc) as [key |] eqn:E; [| reflexivity].
    apply push_back_devices_length in E. destruct E as [_ Hall].
    exfalso. induction Hex as [r ranks Hbad | r ranks _ IH].
    + inversion Hall; subst. contradiction.
    + inversion Hall; subst. auto.
Qed.

(** X7.  The hierarchical key has one component per intra-node peer, and it is
    defined exactly when every element of [local_comm_ranks] indexes into
    the device list of the response; [devices[rank]] is not checked, so
    with a rank outside the list [InitComm] has undefined behaviour, before
    it touches the cache or makes any call. *)
Theorem hierarchical_device_map_bounds (gs : HorovodGlobalState) (devices : list Z) :
  (forall key,
     NCCLHierarchicalAllreduce_GetDeviceMap gs devices = Some key ->
     length key = length (local_comm_ranks gs)) /\
  (NCCLHierarchicalAllreduce_GetDeviceMap gs devices = None <->
   Exists (fun r => ~ (0 <= r < Z.of_nat (length devices))) (local_comm_ranks gs)) /\
  (Exists (fun r => ~ (0 <= r < Z.of_nat (length devices))) (local_comm_ranks gs) ->
   forall rt entries s,
     InitComm rt gs NCCLHierarchicalAllreduce entries devices s = (Undefined, s)).
Proof.
  split; [| split].
  - intros key H. apply push_back_devices_length in H. simpl in H. lia.
  - apply push_back_devices_None.
  - intros Hex rt entries s. unfold InitComm.
    cbn [GetDeviceMap]. unfold NCCLHierarchicalAllreduce_GetDeviceMap.
    apply push_back_devices_None with (acc := []) in Hex. rewrite Hex. reflexivity.
Qed.

(** The second node's peers are workers 2 and 3, but the response lists
    two devices only. *)
Lemma hierarchical_device_map_bounds_witness :
  NCCLHierarchicalAllreduce_GetDeviceMap (example_worker false true 0) [0; 1] = None /\
  InitComm healthy_runtime (example_worker false true 0) NCCLHierarchicalAllreduce
    [example_entry "t" HOROVOD_FLOAT32 16 0] [0; 1] initial_state
    = (Undefined, initial_state).
Proof.
  destruct (hierarchical_device_map_bounds (example_worker false true 0) [0; 1])
    as (_ & Hnone & Hundef).
  assert (Exists (fun r => ~ (0 <= r < Z.of_nat (length [0; 1])))
            (local_comm_ranks (example_worker false true 0))) as Hex
    by (apply Exists_cons_hd; simpl; lia).
  split; [apply Hnone; exact Hex | apply Hundef; exact Hex].
Defined.

(** ** The event pool and the event queue when calls fail *)

(** X8.  When [cudaGetDevice] fails, [GetCudaEvent] and [ReleaseCudaEvent]
    return its status without looking at the pool: no event is created or
    handed out, a released event is not put back, and [RecordEvent] throws
    "GetCudaEvent failed: ..." without recording or queueing anything. *)
Theorem event_pool_untouched_when_device_query_fails
    (rt : Runtime) (s : State) (code : Z) :
  cuda_status rt (length (trace s)) = cudaError code ->
  GetCudaEvent rt s = (Ok (cudaError code, nullptr), log cudaGetDevice s) /\
  (forall event,
     ReleaseCudaEvent rt event s = (Ok (cudaError code), log cudaGetDevice s)) /\
  (forall name stream,
     RecordEvent rt name stream s =
       (Throw ("GetCudaEvent failed: " +:+ cudaGetErrorString rt (cudaError code)),
        log cudaGetDevice s)).
Proof.
  intros Hfail.
  assert (GetCudaEvent rt s = (Ok (cudaError code, nullptr), log cudaGetDevice s)) as HG.
  { unfold GetCudaEvent, cudaGetDevice_, cuda_call, call, gets, ret, bind. simpl.
    rewrite Hfail. reflexivity. }
  split; [exact HG |]. split.
  - intros event.
    unfold ReleaseCudaEvent, cudaGetDevice_, cuda_call, call, gets, ret, bind. simpl.
    rewrite Hfail. reflexivity.
  - intros name stream. unfold RecordEvent.
    rewrite (bind_Ok _ _ _ _ _ HG). reflexivity.
Qed.

Lemma event_pool_untouched_when_device_query_fails_witness :
  GetCudaEvent (cuda_failing_at 0) (busy_state 1 77 [0; 1] 88 [7; 9] [])
    = (Ok (cudaError 700, nullptr),
       log cudaGetDevice (busy_state 1 77 [0; 1] 88 [7; 9] [])) /\
  (forall event,
     ReleaseCudaEvent (cuda_failing_at 0) event (busy_state 1 77 [0; 1] 88 [7; 9] [])
       = (Ok (cudaError 700), log cudaGetDevice (busy_state 1 77 [0; 1] 88 [7; 9] []))) /\
  (forall name stream,
     RecordEvent (cuda_failing_at 0) name stream (busy_state 1 77 [0; 1] 88 [7; 9] [])
       = (Throw "GetCudaEvent failed: unspecified launch failure",
          log cudaGetDevice (busy_state 1 77 [0; 1] 88 [7; 9] []))).
Proof.
  exact (event_pool_untouched_when_device_query_fails (cuda_failing_at 0)
           (busy_state 1 77 [0; 1] 88 [7; 9] []) 700 eq_refl).
Defined.

(** X9.  [RecordEvent] on a device whose pool is non-empty takes the front of
    the pool, records it on the given stream and appends the slot
    [(name, event)] at the back of the event queue; no event is created.
    On a device whose pool is empty it creates one event and does the
    same with it; the pool stays empty. *)
Theorem RecordEvent_queues_one_slot
    (rt : Runtime) (s : State) (name : string) (stream : Z) :
  (forall n, cuda_status rt n = cudaSuccess) ->
  (forall event rest,
     cuda_events s !! current_device s = Some (event :: rest) ->
     exists s',
       RecordEvent rt name stream s = (Ok tt, s') /\
       trace s' = trace s ++ [cudaGetDevice; cudaEventRecord event stream] /\
       event_queue_ s' = event_queue_ s ++ [(name, event)] /\
       event_pool s' (current_device s) = rest) /\
  (event_pool s (current_device s) = [] ->
   exists s',
     RecordEvent rt name stream s = (Ok tt, s') /\
     trace s' = trace s
                ++ [cudaGetDevice;
                    cudaEventCreateWithFlags
                      (Z.lor cudaEventBlockingSync cudaEventDisableTiming);
                    cudaEventRecord (new_handle rt (S (length (trace s)))) stream] /\
     event_queue_ s' =
       event_queue_ s ++ [(name, new_handle rt (S (length (trace s))))] /\
     event_pool s' (current_device s) = []).
Proof.
  intros Hok. split.
  - intros event rest Hq. unfold RecordEvent.
    rewrite (bind_Ok _ _ _ _ _ (GetCudaEvent_recycles rt s event rest (Hok _) Hq)).
    cbn [fst snd]. step_ret.
    unfold cuda_call, call, bind, ret, modify, CUDAContext_ErrorCheck. simpl.
    rewrite Hok. eexists. split; [reflexivity |]. simpl.
    rewrite <- app_assoc. split; [reflexivity |]. split; [reflexivity |].
    unfold event_pool. simpl. rewrite lookup_insert_eq. reflexivity.
  - intros Hq. unfold event_pool in Hq.
    unfold RecordEvent, GetCudaEvent, cudaGetDevice_, cuda_call, call, gets, ret,
      bind. simpl.
    rewrite Hok. simpl. unfold cuda_events_at. simpl.
    destruct (cuda_events s !! current_device s) as [queue |] eqn:E; simpl in *.
    + subst queue. simpl. rewrite Hok. simpl. rewrite Hok. simpl.
      eexists. split; [reflexivity |]. simpl. call_positions.
      rewrite <- !app_assoc. split; [reflexivity |]. split; [reflexivity |].
      unfold event_pool. simpl. rewrite E. reflexivity.
    + rewrite Hok. simpl. rewrite Hok. simpl.
      eexists. split; [reflexivity |]. simpl. call_positions.
      rewrite <- !app_assoc. split; [reflexivity |]. split; [reflexivity |].
      unfold event_pool. simpl. rewrite lookup_insert_eq. reflexivity.
Qed.

(** Two recycled events in the pool of GPU 1: the older one, 7, is
    recorded and queued. *)
Lemma RecordEvent_queues_one_slot_witness :
  exists s',
    RecordEvent healthy_runtime NCCL_ALLREDUCE 77 (busy_state 1 77 [0; 1] 88 [7; 9] [])
      = (Ok tt, s') /\
    trace s' = [cudaGetDevice; cudaEventRecord 7 77] /\
    event_queue_ s' = [(NCCL_ALLREDUCE, 7)] /\
    event_pool s' 1 = [9].
Proof.
  destruct (RecordEvent_queues_one_slot healthy_runtime
              (busy_state 1 77 [0; 1] 88 [7; 9] []) NCCL_ALLREDUCE 77) as [H _].
  - intros n. reflexivity.
  - apply (H 7 [9]). reflexivity.
Defined.

(** X10.  When [cudaEventRecord] fails, [RecordEvent] throws "cudaEventRecord
    failed: ..."; the event it took from the pool is neither queued nor
    put back. *)
Theorem RecordEvent_failure_loses_event
    (rt : Runtime) (s : State) (name : string) (stream event : Z) (rest : list Z)
    (code : Z) :
  cuda_status rt (length (trace s)) = cudaSuccess ->
  cuda_status rt (S (length (trace s))) = cudaError code ->
  cuda_events s !! current_device s = Some (event :: rest) ->
  exists s',
    RecordEvent rt name stream s =
      (Throw ("cudaEventRecord failed: " +:+ cudaGetErrorString rt (cudaError code)),
       s') /\
    trace s' = trace s ++ [cudaGetDevice; cudaEventRecord event stream] /\
    event_queue_ s' = event_queue_ s /\
    event_pool s' (current_device s) = rest.
Proof.
  intros H0 H1 Hq. unfold RecordEvent.
  rewrite (bind_Ok _ _ _ _ _ (GetCudaEvent_recycles rt s event rest H0 Hq)).
  cbn [fst snd]. step_ret.
  unfold cuda_call, call, bind, ret, modify, CUDAContext_ErrorCheck, throw. simpl.
  call_positions. rewrite H1.
  eexists. split; [reflexivity |]. simpl. rewrite <- app_assoc.
  split; [reflexivity |]. split; [reflexivity |].
  unfold event_pool. simpl. rewrite lookup_insert_eq. reflexivity.
Qed.

(** The record call is the second call made; it fails, and event 7 is
    gone from the pool without having been queued. *)
Lemma RecordEvent_failure_loses_event_witness :
  exists s',
    RecordEvent (cuda_failing_at 1) NCCL_ALLREDUCE 77
      (busy_state 1 77 [0; 1] 88 [7; 9] [])
      = (Throw "cudaEventRecord failed: unspecified launch failure", s') /\
    trace s' = [cudaGetDevice; cudaEventRecord 7 77] /\
    event_queue_ s' = [] /\
    event_pool s' 1 = [9].
Proof.
  exact (RecordEvent_failure_loses_event (cuda_failing_at 1)
           (busy_state 1 77 [0; 1] 88 [7; 9] []) NCCL_ALLREDUCE 77 7 [9] 700
           eq_refl eq_refl eq_refl).
Defined.

(** ** Draining the event queue *)

Lemma event_pool_insert_eq s dev pool :
  event_pool (set_cuda_events (insert dev pool) s) dev = pool.
Proof. unfold event_pool. simpl. rewrite lookup_insert_eq. reflexivity. Qed.

Lemma event_pool_insert_ne s dev dev' pool :
  dev <> dev' ->
  event_pool (set_cuda_events (insert dev pool) s) dev' = event_pool s dev'.
Proof.
  intros Hne. unfold event_pool. simpl. rewrite lookup_insert_ne by exact Hne.
  reflexivity.
Qed.

Lemma ReleaseCudaEvent_exact (rt : Runtime) (s : State) (event : Z) :
  cuda_status rt (length (trace s)) = cudaSuccess ->
  ReleaseCudaEvent rt event s =
    (Ok cudaSuccess,
     set_cuda_events
       (insert (current_device s) (event_pool s (current_device s) ++ [event]))
       (log cudaGetDevice s)).
Proof.
  intros Hok.
  unfold ReleaseCudaEvent, cudaGetDevice_, cuda_call, call, gets, ret, bind. simpl.
  rewrite Hok. simpl. unfold cuda_events_at, event_pool. simpl.
  destruct (cuda_events s !! current_device s) as [pool |] eqn:E; simpl.
  - reflexivity.
  - unfold modify, set_cuda_events. simpl. rewrite insert_insert_eq. reflexivity.
Qed.

Lemma timeline_span_step (name : string) (c : Call) (s : State) :
  exists s1,
    (if (name =? "")%string then ret tt else _ <- call c ;; ret tt) s = (Ok tt, s1) /\
    trace s1 = trace s ++ (if (name =? "")%string then [] else [c]) /\
    event_queue_ s1 = event_queue_ s /\ cuda_events s1 = cuda_events s /\
    current_device s1 = current_device s /\
    host_buffer_ s1 = host_buffer_ s /\ threads s1 = threads s.
Proof.
  destruct (name =? "")%string.
  - exists s. rewrite app_nil_r. repeat split; reflexivity.
  - eexists. split; [reflexivity |]. repeat split; reflexivity.
Qed.

Lemma WaitForEvents_loop_exact (rt : Runtime) (queue : list (string * Z)) (s : State) :
  (forall n, cuda_status rt n = cudaSuccess) ->
  exists s',
    WaitForEvents_loop rt queue s = (Ok tt, s') /\
    trace s' = trace s ++ flat_map slot_calls queue /\
    event_queue_ s' = match queue with [] => event_queue_ s | _ => [] end /\
    current_device s' = current_device s /\
    event_pool s' (current_device s) =
      event_pool s (current_device s) ++ map snd queue /\
    (forall dev, dev <> current_device s -> event_pool s' dev = event_pool s dev) /\
    host_buffer_ s' = host_buffer_ s /\ threads s' = threads s.
Proof.
  intros Hok. revert s. induction queue as [| [name event] rest IH]; intros s.
  - exists s. simpl. rewrite !app_nil_r. repeat split; reflexivity.
  - cbn [WaitForEvents_loop].
    unfold slot_calls at 1. cbn [flat_map fst snd map].
    set (s0 := set_event_queue_ rest s).
    rewrite (bind_Ok _ _ s s0 tt) by reflexivity.
    destruct (timeline_span_step name (Timeline_ActivityStartAll name) s0)
      as (s1 & E1 & T1 & Q1 & C1 & D1 & B1 & Th1).
    rewrite (bind_Ok _ _ _ _ _ E1).
    set (s2 := log (cudaEventSynchronize event) s1).
    rewrite (bind_Ok _ _ s1 s2 cudaSuccess)
      by (unfold cuda_call, call, bind, ret; simpl; rewrite Hok; reflexivity).
    rewrite (bind_Ok _ _ s2 s2 tt) by reflexivity.
    destruct (timeline_span_step name Timeline_ActivityEndAll s2)
      as (s3 & E3 & T3 & Q3 & C3 & D3 & B3 & Th3).
    rewrite (bind_Ok _ _ _ _ _ E3).
    rewrite (bind_Ok _ _ _ _ _ (ReleaseCudaEvent_exact rt s3 event (Hok _))).
    match goal with
    | |- context [bind (CUDAContext_ErrorCheck _ _ _) _ ?s4] =>
        rewrite (bind_Ok _ _ s4 s4 tt) by reflexivity;
        destruct (IH s4) as (s5 & E5 & T5 & Q5 & D5 & P5 & O5 & B5 & Th5)
    end.
    simpl in T1, Q1, C1, D1, B1, Th1, T3, Q3, C3, D3, B3, Th3.
    simpl in T5, Q5, D5, P5, O5, B5, Th5.
    rewrite event_pool_insert_eq in P5.
    assert (event_pool s3 (current_device s3) = event_pool s (current_device s)) as Hp3.
    { unfold event_pool. rewrite C3, D3. rewrite C1, D1. reflexivity. }
    assert (current_device s3 = current_device s) as Hd3.
    { rewrite D3. rewrite D1. reflexivity. }
    exists s5. split; [exact E5 |].
    split; [| split; [| split; [| split; [| split; [| split]]]]].
    + rewrite T5, T3. rewrite T1. 
      rewrite <- !app_assoc. reflexivity.
    + rewrite Q5. destruct rest; [| reflexivity].
      rewrite Q3. rewrite Q1. reflexivity.
    + rewrite D5. exact Hd3.
    + rewrite <- Hp3, <- Hd3, P5, <- app_assoc. reflexivity.
    + intros dev Hdev. rewrite O5 by (rewrite Hd3; exact Hdev).
      rewrite event_pool_insert_ne by (rewrite Hd3; congruence).
      unfold event_pool. simpl. rewrite C3. rewrite C1. reflexivity.
    + rewrite B5, B3. rewrite B1. reflexivity.
    + rewrite Th5, Th3. rewrite Th1. reflexivity.
Qed.

(** X11.  With every call succeeding, [WaitForEvents] empties the event queue
    and returns every queued event, in queue order, to the back of the
    pool of the calling thread's current device, whichever device the
    event was recorded on; the pools of the other devices are as before. *)
Theorem WaitForEvents_returns_events_to_pool (rt : Runtime) (s : State) :
  (forall n, cuda_status rt n = cudaSuccess) ->
  exists s',
    WaitForEvents rt s = (Ok tt, s') /\
    event_queue_ s' = [] /\
    event_pool s' (current_device s) =
      event_pool s (current_device s) ++ map snd (event_queue_ s) /\
    (forall dev, dev <> current_device s -> event_pool s' dev = event_pool s dev).
Proof.
  intros Hok. unfold WaitForEvents.
  rewrite (bind_Ok _ _ s s (event_queue_ s)) by reflexivity.
  destruct (WaitForEvents_loop_exact rt (event_queue_ s) s Hok)
    as (s' & E & _ & Q & _ & P & O & _).
  exists s'. split; [exact E |]. split; [| split; [exact P | exact O]].
  rewrite Q. destruct (event_queue_ s); reflexivity.
Qed.

(** Events 5 and 6 are queued while event 7 rests in the pool of GPU 1. *)
Lemma WaitForEvents_returns_events_to_pool_witness :
  exists s',
    WaitForEvents healthy_runtime
      (busy_state 1 77 [0; 1] 88 [7] [(QUEUE, 5); (""%string, 6)]) = (Ok tt, s') /\
    event_queue_ s' = [] /\
    event_pool s' 1 = [7; 5; 6].
Proof.
  destruct (WaitForEvents_returns_events_to_pool healthy_runtime
              (busy_state 1 77 [0; 1] 88 [7] [(QUEUE, 5); (""%string, 6)])
              (fun _ => eq_refl)) as (s' & E & Q & P & _).
  exists s'. split; [exact E |]. split; [exact Q | exact P].
Defined.

(** X12.  With every call succeeding, [WaitForEvents] makes, for each slot of
    the queue front first, one [cudaEventSynchronize] on the slot's event
    followed by the device query of the release; a slot with a non-empty
    name has the wait bracketed by [ActivityStartAll(name)] and
    [ActivityEndAll], a slot with the empty name touches the timeline not
    at all. *)
Theorem WaitForEvents_waits_in_queue_order (rt : Runtime) (s : State) :
  (forall n, cuda_status rt n = cudaSuccess) ->
  exists s',
    WaitForEvents rt s = (Ok tt, s') /\
    trace s' = trace s ++ flat_map slot_calls (event_queue_ s) /\
    event_waits (flat_map slot_calls (event_queue_ s)) =
      map (fun slot => cudaEventSynchronize (snd slot)) (event_queue_ s).
Proof.
  intros Hok. unfold WaitForEvents.
  rewrite (bind_Ok _ _ s s (event_queue_ s)) by reflexivity.
  destruct (WaitForEvents_loop_exact rt (event_queue_ s) s Hok)
    as (s' & E & T & _).
  exists s'. split; [exact E |]. split; [exact T |].
  clear. induction (event_queue_ s) as [| [name event] rest IH]; [reflexivity |].
  cbn [flat_map map snd]. unfold event_waits in *.
  rewrite List.filter_app, IH. unfold slot_calls. cbn [fst snd].
  destruct (name =? "")%string; reflexivity.
Qed.

Lemma WaitForEvents_waits_in_queue_order_witness :
  exists s',
    WaitForEvents healthy_runtime
      (busy_state 1 77 [0; 1] 88 [7] [(QUEUE, 5); (""%string, 6)]) = (Ok tt, s') /\
    trace s' = [Timeline_ActivityStartAll QUEUE; cudaEventSynchronize 5;
                Timeline_ActivityEndAll; cudaGetDevice;
                cudaEventSynchronize 6; cudaGetDevice].
Proof.
  destruct (WaitForEvents_waits_in_queue_order healthy_runtime
              (busy_state 1 77 [0; 1] 88 [7] [(QUEUE, 5); (""%string, 6)])
              (fun _ => eq_refl)) as (s' & E & T & _).
  exists s'. split; [exact E | exact T].
Defined.

(** X13.  When the wait on the front slot fails, [WaitForEvents] throws
    "cudaEventSynchronize failed: ...": the slot has been popped and its
    event is not returned to any pool, the slots behind it stay queued, and
    the timeline span opened for a named slot is not closed. *)
Theorem WaitForEvents_failure_drops_front_slot
    (rt : Runtime) (s : State) (name : string) (event : Z)
    (rest : list (string * Z)) (code : Z) :
  event_queue_ s = (name, event) :: rest ->
  cuda_status rt (length (trace s) + (if (name =? "")%string then 0 else 1))
    = cudaError code ->
  exists s',
    WaitForEvents rt s =
      (Throw ("cudaEventSynchronize failed: "
              +:+ cudaGetErrorString rt (cudaError code)), s') /\
    event_queue_ s' = rest /\
    cuda_events s' = cuda_events s /\
    trace s' = trace s
               ++ (if (name =? "")%string then [] else [Timeline_ActivityStartAll name])
               ++ [cudaEventSynchronize event].
Proof.
  intros Hq Hfail. unfold WaitForEvents.
  rewrite (bind_Ok _ _ s s (event_queue_ s)) by reflexivity.
  rewrite Hq. cbn [WaitForEvents_loop].
  rewrite (bind_Ok _ _ s (set_event_queue_ rest s) tt) by reflexivity.
  destruct (timeline_span_step name (Timeline_ActivityStartAll name)
              (set_event_queue_ rest s)) as (s1 & E1 & T1 & Q1 & C1 & _).
  rewrite (bind_Ok _ _ _ _ _ E1). simpl in T1, Q1, C1.
  assert (length (trace s1)
          = (length (trace s) + (if (name =? "")%string then 0 else 1))%nat) as Hlen.
  { rewrite T1, length_app. destruct (name =? "")%string; reflexivity. }
  rewrite (bind_Ok _ _ s1 (log (cudaEventSynchronize event) s1) (cudaError code))
    by (unfold cuda_call, call, bind, ret; simpl; rewrite Hlen, Hfail; reflexivity).
  eexists. split; [reflexivity |]. simpl.
  rewrite T1, <- app_assoc. auto.
Qed.

(** The wait on the named front slot is the second call; the unnamed slot
    behind it stays queued. *)
Lemma WaitForEvents_failure_drops_front_slot_witness :
  exists s',
    WaitForEvents (cuda_failing_at 1)
      (busy_state 1 77 [0; 1] 88 [7] [(QUEUE, 5); (""%string, 6)])
      = (Throw "cudaEventSynchronize failed: unspecified launch failure", s') /\
    event_queue_ s' = [(""%string, 6)] /\
    event_pool s' 1 = [7] /\
    trace s' = [Timeline_ActivityStartAll QUEUE; cudaEventSynchronize 5].
Proof.
  destruct (WaitForEvents_failure_drops_front_slot (cuda_failing_at 1)
              (busy_state 1 77 [0; 1] 88 [7] [(QUEUE, 5); (""%string, 6)])
              QUEUE 5 [(""%string, 6)] 700 eq_refl eq_refl) as (s' & E & Q & C & T).
  exists s'. split; [exact E |]. split; [exact Q |]. split; [| exact T].
  unfold event_pool. rewrite C. reflexivity.
Defined.

(** ** Completion of the entries by the finalizer *)

Lemma quiet_callbacks (delta : list Call) : quiet delta -> callbacks delta = [].
Proof.
  unfold quiet, callbacks. induction 1 as [| c delta Hc _ IH]; [reflexivity |].
  simpl. destruct c; try discriminate; exact IH.
Qed.

Lemma quiet_not_free (delta : list Call) (ptr : Z) : quiet delta -> ~ In (free ptr) delta.
Proof.
  unfold quiet. intros H Hin. rewrite List.Forall_forall in H.
  specialize (H _ Hin). discriminate.
Qed.

Lemma callbacks_completion_calls (entries : list TensorTableEntry) :
  callbacks (completion_calls entries) = completion_callbacks entries.
Proof.
  induction entries as [| e rest IH]; [reflexivity |].
  unfold callbacks, completion_calls, completion_callbacks in *. simpl.
  f_equal. exact IH.
Qed.

Lemma ReleaseCudaEvent_outcome (rt : Runtime) (event : Z) (s : State) :
  exists status s',
    ReleaseCudaEvent rt event s = (Ok status, s') /\
    trace s' = trace s ++ [cudaGetDevice].
Proof.
  unfold ReleaseCudaEvent, cudaGetDevice_, cuda_call, call, gets, ret, bind. simpl.
  destruct (cuda_status rt (length (trace s))); simpl.
  - unfold cuda_events_at. simpl.
    destruct (cuda_events s !! current_device s); simpl;
      eexists _, _; split; reflexivity.
  - eexists _, _. split; reflexivity.
Qed.

Lemma quiet_span (name : string) (c : Call) :
  is_bookkeeping c = true ->
  quiet (if (name =? "")%string then [] else [c]).
Proof.
  intros Hc. destruct (name =? "")%string; repeat constructor. exact Hc.
Qed.

(** Whatever the runtime answers, the loop of [WaitForEvents] returns or
    throws, and makes only event and timeline calls. *)
Lemma WaitForEvents_loop_outcome (rt : Runtime) (queue : list (string * Z)) (s : State) :
  exists r s' delta,
    WaitForEvents_loop rt queue s = (r, s') /\
    trace s' = trace s ++ delta /\ quiet delta /\
    (r = Ok tt \/ exists what, r = Throw what).
Proof.
  revert s. induction queue as [| [name event] rest IH]; intros s.
  - exists (Ok tt), s, []. rewrite app_nil_r.
    split; [reflexivity |]. split; [reflexivity |]. split; [constructor | auto].
  - cbn [WaitForEvents_loop].
    rewrite (bind_Ok _ _ s (set_event_queue_ rest s) tt) by reflexivity.
    destruct (timeline_span_step name (Timeline_ActivityStartAll name)
                (set_event_queue_ rest s)) as (s1 & E1 & T1 & _).
    rewrite (bind_Ok _ _ _ _ _ E1). simpl in T1.
    pose proof (quiet_span name (Timeline_ActivityStartAll name) eq_refl) as Qs.
    pose proof (quiet_span name Timeline_ActivityEndAll eq_refl) as Qe.
    assert (quiet [cudaEventSynchronize event]) as Qw by (repeat constructor).
    assert (quiet [cudaGetDevice]) as Qg by (repeat constructor).
    destruct (cuda_status rt (length (trace s1))) as [| code] eqn:Hst.
    + rewrite (bind_Ok _ _ s1 (log (cudaEventSynchronize event) s1) cudaSuccess)
        by (unfold cuda_call, call, bind, ret; simpl; rewrite Hst; reflexivity).
      rewrite (bind_Ok _ _ _ (log (cudaEventSynchronize event) s1) tt) by reflexivity.
      destruct (timeline_span_step name Timeline_ActivityEndAll
                  (log (cudaEventSynchronize event) s1)) as (s3 & E3 & T3 & _).
      rewrite (bind_Ok _ _ _ _ _ E3). simpl in T3.
      destruct (ReleaseCudaEvent_outcome rt event s3) as (status & s4 & E4 & T4).
      rewrite (bind_Ok _ _ _ _ _ E4).
      destruct status as [| code].
      * rewrite (bind_Ok _ _ s4 s4 tt) by reflexivity.
        destruct (IH s4) as (r & s5 & delta & E5 & T5 & Q5 & Hr).
        exists r, s5. eexists. split; [exact E5 |].
        split; [rewrite T5, T4, T3, T1, <- !app_assoc; reflexivity |].
        split; [| exact Hr].
        repeat apply quiet_app; assumption.
      * rewrite (bind_Throw _ _ s4 s4
                   ("ReleaseCudaEvent failed: " +:+ cudaGetErrorString rt (cudaError code)))
          by reflexivity.
        eexists _, s4, _. split; [reflexivity |].
        split; [rewrite T4, T3, T1, <- !app_assoc; reflexivity |].
        split; [| eauto].
        repeat apply quiet_app; assumption.
    + rewrite (bind_Ok _ _ s1 (log (cudaEventSynchronize event) s1) (cudaError code))
        by (unfold cuda_call, call, bind, ret; simpl; rewrite Hst; reflexivity).
      rewrite (bind_Throw _ _ _ (log (cudaEventSynchronize event) s1)
                 ("cudaEventSynchronize failed: "
                  +:+ cudaGetErrorString rt (cudaError code)))
        by reflexivity.
      eexists _, _, _. split; [reflexivity |].
      split; [simpl; rewrite T1, <- !app_assoc; reflexivity |].
      split; [| eauto].
      apply quiet_app; assumption.
Qed.

(** X14.  Whatever the runtime answers, the finalizer thread completes the
    entries all or nothing: either it returns, and it has fired exactly one
    [Status::OK] callback per entry, in the order of the batch; or it
    throws, and it has fired no callback and has not freed the host
    buffer. *)
Theorem finalizer_callbacks_all_or_nothing (rt : Runtime) (f : Finalizer) (s : State) :
  exists r s' delta,
    finalizer_thread rt f s = (r, s') /\
    trace s' = trace s ++ delta /\
    ((r = Ok tt /\ callbacks delta = completion_callbacks (fin_entries f)) \/
     (exists what, r = Throw what /\ callbacks delta = [] /\
                   ~ In (free (fin_host_buffer f)) delta)).
Proof.
  unfold finalizer_thread.
  set (dev := device (fin_first_entry f)).
  destruct (cuda_status rt (length (trace s))) as [| code] eqn:Hst.
  - set (s1 := set_current_device dev (log (cudaSetDevice dev) s)).
    rewrite (bind_Ok _ _ s s1 cudaSuccess)
      by (unfold cudaSetDevice_, cuda_call, call, bind, ret, modify; simpl;
          rewrite Hst; reflexivity).
    rewrite (bind_Ok _ _ s1 s1 tt) by reflexivity.
    unfold WaitForEvents.
    destruct (WaitForEvents_loop_outcome rt (event_queue_ s1) s1)
      as (r & s2 & drain & E2 & T2 & Q2 & [-> | [what ->]]).
    + rewrite (bind_Ok _ _ s1 s2 tt)
        by (rewrite (bind_Ok _ _ s1 s1 (event_queue_ s1)) by reflexivity; exact E2).
      assert (exists s3,
                (if fin_host_buffer f =? nullptr then ret tt
                 else _ <- call (free (fin_host_buffer f)) ;; ret tt) s2 = (Ok tt, s3) /\
                trace s3 = trace s2 ++ (if fin_host_buffer f =? nullptr then []
                                        else [free (fin_host_buffer f)]))
        as (s3 & E3 & T3).
      { destruct (fin_host_buffer f =? nullptr).
        - exists s2. rewrite app_nil_r. split; reflexivity.
        - eexists. split; reflexivity. }
      rewrite (bind_Ok _ _ _ _ _ E3).
      destruct (finalizer_callbacks_run (fin_entries f) s3) as (s4 & E4 & X4 & _).
      exists (Ok tt), s4. eexists. split; [exact E4 |].
      split.
      * rewrite (ext_trace _ _ _ X4), T3, T2. simpl. rewrite <- !app_assoc. reflexivity.
      * left. split; [reflexivity |].
        change (cudaSetDevice dev :: ?l) with ([cudaSetDevice dev] ++ l).
        rewrite !callbacks_app, (quiet_callbacks drain Q2), callbacks_completion_calls.
        destruct (fin_host_buffer f =? nullptr); reflexivity.
    + rewrite (bind_Throw _ _ s1 s2 what)
        by (rewrite (bind_Ok _ _ s1 s1 (event_queue_ s1)) by reflexivity; exact E2).
      exists (Throw what), s2. eexists. split; [reflexivity |].
      split; [rewrite T2; simpl; rewrite <- app_assoc; reflexivity |].
      right. exists what. split; [reflexivity |]. split.
      * change (callbacks ([cudaSetDevice dev] ++ drain) = []).
        rewrite callbacks_app, (quiet_callbacks drain Q2). reflexivity.
      * intros [Hin | Hin]; [discriminate | exact (quiet_not_free _ _ Q2 Hin)].
  - rewrite (bind_Ok _ _ s (log (cudaSetDevice dev) s) (cudaError code))
      by (unfold cudaSetDevice_, cuda_call, call, bind, ret; simpl;
          rewrite Hst; reflexivity).
    eexists _, _, _. split; [reflexivity |]. split; [reflexivity |].
    right. eexists. split; [reflexivity |]. split; [reflexivity |].
    intros [Hin | []]. discriminate.
Qed.




(** ** Layout of the shards in the fusion buffer *)

(** The arithmetic of lines 157-192 on a homogeneous cluster, for a count
    whose byte length fits [int64_t]: shards, their offsets, the tail and
    the byte lengths, without wrap-around. *)
Lemma split_layout
    (gs : HorovodGlobalState) (element_size buffer_data E : Z) :
  is_homogeneous gs = true ->
  0 < local_size gs < 2 ^ 31 ->
  0 <= local_rank gs < local_size gs ->
  0 < element_size ->
  0 <= E ->
  E * element_size < 2 ^ 63 ->
  let Eper := num_elements_per_rank gs E in
  let Erem := num_elements_remaining gs E in
  let shard := buffer_len_per_rank gs element_size E in
  let start := buffer_data_at_rank_offset gs element_size buffer_data E in
  local_size gs * Eper + Erem = E /\
  0 <= Erem < local_size gs /\
  shard = Eper * element_size /\
  start = buffer_data + local_rank gs * shard /\
  remainder_offset gs element_size E = local_size gs * shard /\
  remainder_offset gs element_size E + buffer_len_remaining gs element_size E
    = E * element_size /\
  total_buffer_len gs element_size E = total_num_elements gs E * element_size /\
  start + total_buffer_len gs element_size E =
    (if is_root_rank gs then buffer_data + E * element_size
     else buffer_data + (local_rank gs + 1) * shard).
Proof.
  intros Hhom Hls Hlr Hes HE Hlen Eper Erem shard start.
  subst Eper Erem shard start.
  unfold total_buffer_len, total_num_elements, buffer_data_at_rank_offset,
    remainder_offset, buffer_len_remaining, buffer_len_per_rank, is_root_rank,
    root_rank, num_elements_per_rank, num_elements_remaining.
  rewrite Hhom.
  pose proof (Z.quot_rem' E (local_size gs)) as Hqr.
  pose proof (Z.rem_bound_pos E (local_size gs) HE ltac:(lia)) as Hr.
  assert (0 <= E ÷ local_size gs) as Hq by (apply Z.quot_pos; lia).
  remember (E ÷ local_size gs) as q eqn:Eq. remember (Z.rem E (local_size gs)) as r eqn:Er.
  remember (local_size gs) as ls eqn:Els. remember (local_rank gs) as lr eqn:Elr.
  clear Eq Er Els Elr Hhom.
  int_bounds.
  assert (q <= E) as HqE by nia.
  assert (element_size * q <= E * element_size) as H1 by nia.
  assert (0 <= element_size * q) as H1' by nia.
  assert (element_size * q * lr <= element_size * q * ls) as H2 by nia.
  assert (0 <= element_size * q * lr) as H2' by nia.
  assert (element_size * q * ls <= E * element_size) as H3 by nia.
  assert (0 <= element_size * r) as H4' by nia.
  assert (element_size * q + element_size * r <= E * element_size) as H5 by nia.
  assert (q + r <= E) as H6 by nia.
  assert (E <= E * element_size) as H7 by nia.
  rewrite (int32_id (ls - 1)) by (int_bounds; lia).
  rewrite (int64_id q) by (int_bounds; lia).
  rewrite (int64_id (element_size * q)) by (int_bounds; lia).
  rewrite (size_t_id (element_size * q)) by (int_bounds; lia).
  rewrite (size_t_id lr) by (int_bounds; lia).
  rewrite (size_t_id ls) by (int_bounds; lia).
  rewrite (size_t_id (element_size * q * lr)) by (int_bounds; lia).
  rewrite (size_t_id (element_size * q * ls)) by (int_bounds; lia).
  rewrite (int64_id (element_size * r)) by (int_bounds; lia).
  rewrite (size_t_id (element_size * r)) by (int_bounds; lia).
  rewrite (int64_id (q + r)) by (int_bounds; lia).
  rewrite (size_t_id (element_size * q + element_size * r)) by (int_bounds; lia).
  split; [lia |]. split; [lia |]. split; [lia |]. split; [lia |].
  split; [lia |]. split; [nia |].
  destruct (lr =? ls - 1) eqn:Hroot.
  - apply Z.eqb_eq in Hroot. subst lr. split; [lia | nia].
  - split; [lia | nia].
Qed.

(** X16.  On a homogeneous cluster, for a batch whose byte length fits
    [int64_t], the calls of a hierarchical job tile the buffer: the
    reduce-scatter and the allgather place the shard of local rank [r],
    [Eper] elements, [r] shards into the buffer; the reduce and the
    broadcast of the tail, [Erem < local_size] elements, work where the
    last shard ends, and the tail ends with the data; the block a rank
    allocates, and copies to the host and back, is its shard - which ends
    where the next shard begins - and on the root rank the shard and the
    tail, which are adjacent and end with the data. *)
Theorem split_tiles_the_buffer
    (DataType_Name : DataType -> string) (atom : Z) (rt : Runtime)
    (gs : HorovodGlobalState) (first_entry : TensorTableEntry)
    (more_entries : list TensorTableEntry)
    (fused_input_data buffer_data num_elements buffer_len : Z)
    (dt : ncclDataType_t) (dev stream : Z) (key : list Z) (comm : Z) (s : State) :
  runtime_succeeds rt ->
  GetNCCLDataType DataType_Name (tensor_dtype first_entry) = Ok dt ->
  bound s dev stream key comm ->
  is_homogeneous gs = true ->
  0 < local_size gs < 2 ^ 31 ->
  0 <= local_rank gs < local_size gs ->
  let E := effective_num_elements atom gs first_entry more_entries num_elements in
  let element_size := job_element_size rt first_entry in
  0 < element_size ->
  0 <= E ->
  E * element_size < 2 ^ 63 ->
  let Eper := E ÷ local_size gs in
  let Erem := Z.rem E (local_size gs) in
  let root := local_size gs - 1 in
  let count := if local_rank gs =? root then Eper + Erem else Eper in
  let shard := Eper * element_size in
  let start := buffer_data + local_rank gs * shard in
  let tail := local_size gs * shard in
  local_size gs * Eper + Erem = E /\
  0 <= Erem < local_size gs /\
  tail + Erem * element_size = E * element_size /\
  start + count * element_size =
    (if local_rank gs =? root then buffer_data + E * element_size
     else buffer_data + (local_rank gs + 1) * shard) /\
  exists s' delta len,
    NCCLHierarchicalAllreduce_DoAllreduce DataType_Name atom rt gs
      (first_entry :: more_entries) fused_input_data buffer_data
      num_elements buffer_len s = (Ok (E, len), s') /\
    trace s' = trace s ++ delta /\
    data_path delta =
      (if Eper >? 0
       then [ncclReduceScatter fused_input_data start (size_t Eper) dt ncclSum
               comm stream]
       else [])
      ++ (if Erem >? 0
          then [ncclReduce (fused_input_data + tail) (buffer_data + tail)
                  (size_t Erem) dt ncclSum root comm stream]
          else [])
      ++ [malloc (count * element_size);
          cudaMemcpyAsync (host_buffer_ s') start (count * element_size)
            cudaMemcpyDeviceToHost stream;
          Channel_Allreduce (host_buffer_ s') count first_entry CROSS;
          cudaMemcpyAsync start (host_buffer_ s') (count * element_size)
            cudaMemcpyHostToDevice stream]
      ++ (if Eper >? 0
          then [ncclAllGather start buffer_data (size_t Eper) dt comm stream]
          else [])
      ++ (if Erem >? 0
          then [ncclBcast (buffer_data + tail) (size_t Erem) dt root comm stream]
          else []).
Proof.
  intros Hrt Hdt Hb Hh Hls Hlr E element_size Hes HE0 Hfit
    Eper Erem root count shard start tail.
  assert (- 2 ^ 63 <= E < 2 ^ 63) as HE by (int_bounds; nia).
  destruct (split_values gs E Hls HE) as (Hhom & _ & Htot).
  destruct (Hhom Hh) as (Hper & Hrem & Hroot).
  fold Eper in Hper. fold Erem in Hrem. fold root in Hroot.
  assert (total_num_elements gs E = count) as Hcount
    by (subst count; rewrite Htot, Hper, Hrem, Hroot; reflexivity).
  destruct (split_layout gs element_size buffer_data E Hh Hls Hlr Hes HE0 Hfit)
    as (Hsum & Hbound & Hshard & Hstart & Htail & _ & Hbytes & _).
  rewrite Hper in Hsum, Hshard. rewrite Hrem in Hsum, Hbound.
  fold shard in Hshard. rewrite Hshard in Hstart, Htail.
  fold start in Hstart. fold tail in Htail. rewrite Hcount in Hbytes.
  split; [exact Hsum |]. split; [exact Hbound |].
  split; [subst tail shard; nia |].
  split.
  { subst start count shard root. destruct (local_rank gs =? local_size gs - 1) eqn:Hr.
    - apply Z.eqb_eq in Hr. nia.
    - nia. }
  destruct (hierarchical_DoAllreduce_succeeds DataType_Name atom rt gs Hrt
              first_entry more_entries fused_input_data buffer_data num_elements
              buffer_len dt dev stream key comm Hdt s Hb)
    as (s' & delta & len & Hrun & X & P & _).
  fold E in Hrun, P.
  exists s', delta, len. split; [exact Hrun |]. split; [apply X |].
  rewrite P.
  unfold reduce_scatter_calls, reduce_calls, cross_node_calls, allgather_calls,
    bcast_calls, job_rank_offset.
  fold element_size.
  rewrite Hper, Hrem, Hroot, Hcount, Hstart, Htail, Hbytes, Hh. reflexivity.
Qed.

(** Scenario 4 of the spec on the root rank: 3 FLOAT32 elements for 2
    local ranks.  The shards are of 1 element, the tail is the third
    element, and the root moves bytes 4 to 12 of the buffer through the
    host. *)
Lemma split_tiles_the_buffer_witness :
  exists s' delta len,
    NCCLHierarchicalAllreduce_DoAllreduce example_DataType_Name 64 healthy_runtime
      (example_worker false true 1) [example_entry "t" HOROVOD_FLOAT32 12 1]
      3000 1000 3 12 (bound_state 1 77 [0; 1] 88) = (Ok (3, len), s') /\
    trace s' = delta /\
    data_path delta =
      [ncclReduceScatter 3000 1004 1 ncclFloat32 ncclSum 88 77;
       ncclReduce 3008 1008 1 ncclFloat32 ncclSum 1 88 77;
       malloc 8;
       cudaMemcpyAsync (host_buffer_ s') 1004 8 cudaMemcpyDeviceToHost 77;
       Channel_Allreduce (host_buffer_ s') 2
         (example_entry "t" HOROVOD_FLOAT32 12 1) CROSS;
       cudaMemcpyAsync 1004 (host_buffer_ s') 8 cudaMemcpyHostToDevice 77;
       ncclAllGather 1004 1000 1 ncclFloat32 88 77;
       ncclBcast 1008 1 ncclFloat32 1 88 77].
Proof.
  destruct (split_tiles_the_buffer example_DataType_Name 64 healthy_runtime
              (example_worker false true 1) (example_entry "t" HOROVOD_FLOAT32 12 1) []
              3000 1000 3 12 ncclFloat32 1 77 [0; 1] 88 (bound_state 1 77 [0; 1] 88)
              healthy_runtime_succeeds eq_refl (bound_state_bound 1 77 [0; 1] 88)
              eq_refl ltac:(simpl; lia) ltac:(simpl; lia)
              ltac:(vm_compute; reflexivity) ltac:(vm_compute; discriminate)
              ltac:(vm_compute; reflexivity))
    as (_ & _ & _ & _ & s' & delta & len & Hrun & Ht & Hdp).
  exists s', delta, len. split; [exact Hrun |]. split; [exact Ht | exact Hdp].
Defined.

(** X17.  A job on a fused batch (two entries or more) on a homogeneous
    cluster has no tail: the element count after the padding is
    [local_size] shards with nothing left over, each shard a whole number
    of fusion atoms; the device collectives of the job are the
    reduce-scatter and the allgather of one shard, and neither
    [ncclReduce] nor [ncclBcast]; and every local rank, the root included,
    reduces one shard across the nodes. *)
Theorem fused_batch_has_no_tail
    (DataType_Name : DataType -> string) (atom : Z) (rt : Runtime)
    (gs : HorovodGlobalState) (first_entry second_entry : TensorTableEntry)
    (more_entries : list TensorTableEntry)
    (fused_input_data buffer_data num_elements buffer_len : Z)
    (dt : ncclDataType_t) (dev stream : Z) (key : list Z) (comm : Z) (s : State) :
  runtime_succeeds rt ->
  GetNCCLDataType DataType_Name (tensor_dtype first_entry) = Ok dt ->
  bound s dev stream key comm ->
  is_homogeneous gs = true ->
  0 < local_size gs -> 0 < atom -> local_size gs * atom < 2 ^ 31 ->
  0 <= num_elements -> num_elements + local_size gs * atom < 2 ^ 63 ->
  let E := effective_num_elements atom gs first_entry (second_entry :: more_entries)
             num_elements in
  let Eper := E ÷ local_size gs in
  let shard := job_rank_offset rt gs first_entry buffer_data E in
  let bytes := total_buffer_len gs (job_element_size rt first_entry) E in
  local_size gs * Eper = E /\
  Eper mod atom = 0 /\
  exists s' delta len,
    NCCLHierarchicalAllreduce_DoAllreduce DataType_Name atom rt gs
      (first_entry :: second_entry :: more_entries) fused_input_data buffer_data
      num_elements buffer_len s = (Ok (E, len), s') /\
    trace s' = trace s ++ delta /\
    data_path delta =
      (if Eper >? 0
       then [ncclReduceScatter fused_input_data shard (size_t Eper) dt ncclSum
               comm stream]
       else [])
      ++ [malloc bytes;
          cudaMemcpyAsync (host_buffer_ s') shard bytes cudaMemcpyDeviceToHost stream;
          Channel_Allreduce (host_buffer_ s') Eper first_entry CROSS;
          cudaMemcpyAsync shard (host_buffer_ s') bytes cudaMemcpyHostToDevice stream]
      ++ (if Eper >? 0
          then [ncclAllGather shard buffer_data (size_t Eper) dt comm stream]
          else []) /\
    device_collectives delta =
      (if Eper >? 0
       then [ncclReduceScatter fused_input_data shard (size_t Eper) dt ncclSum
               comm stream;
             ncclAllGather shard buffer_data (size_t Eper) dt comm stream]
       else []).
Proof.
  intros Hrt Hdt Hb Hh Hls Hat Hdiv Hn Hov E Eper shard bytes.
  assert (2 <= length (first_entry :: second_entry :: more_entries))%nat as Htwo
    by (simpl; lia).
  destruct (fused_split atom gs _ num_elements Hh Htwo Hls Hat Hdiv Hn Hov)
    as (k & Hk & HE & Hlt & Hq & Hr).
  fold (effective_num_elements atom gs first_entry (second_entry :: more_entries)
          num_elements) in HE, Hq, Hr.
  fold E in HE, Hq, Hr.
  assert (Eper = atom * k) as HEper.
  { subst Eper. rewrite HE, Z.mul_comm. apply Z.quot_mul. lia. }
  assert (total_num_elements gs E = Eper) as Hcount.
  { unfold total_num_elements. rewrite Hq, Hr, HEper.
    destruct (is_root_rank gs); [| reflexivity].
    rewrite Z.add_0_r. apply int64_id. int_bounds. nia. }
  split; [rewrite HEper; symmetry; exact HE |].
  split; [rewrite HEper, Z.mul_comm; apply Z.mod_mul; lia |].
  destruct (hierarchical_DoAllreduce_succeeds DataType_Name atom rt gs Hrt
              first_entry (second_entry :: more_entries) fused_input_data buffer_data
              num_elements buffer_len dt dev stream key comm Hdt s Hb)
    as (s' & delta & len & Hrun & X & P & _).
  fold E in Hrun, P.
  assert (data_path delta =
          (if Eper >? 0
           then [ncclReduceScatter fused_input_data shard (size_t Eper) dt ncclSum
                   comm stream]
           else [])
          ++ [malloc bytes;
              cudaMemcpyAsync (host_buffer_ s') shard bytes cudaMemcpyDeviceToHost
                stream;
              Channel_Allreduce (host_buffer_ s') Eper first_entry CROSS;
              cudaMemcpyAsync shard (host_buffer_ s') bytes cudaMemcpyHostToDevice
                stream]
          ++ (if Eper >? 0
              then [ncclAllGather shard buffer_data (size_t Eper) dt comm stream]
              else [])) as P'.
  { rewrite P.
    unfold reduce_scatter_calls, reduce_calls, cross_node_calls, allgather_calls,
      bcast_calls.
    rewrite Hq, Hr, Hcount, Hh, <- HEper. destruct (Eper >? 0); reflexivity. }
  exists s', delta, len. split; [exact Hrun |]. split; [apply X |].
  split; [exact P' |].
  rewrite <- device_collectives_data_path, P'.
  destruct (Eper >? 0); reflexivity.
Qed.

(** Scenario 3 of the spec on the root rank: 1026 elements in two
    entries become 1152, two shards of 576 elements, nine atoms each; the
    root reduces 576 elements across the nodes like every other rank. *)
Lemma fused_batch_has_no_tail_witness :
  exists s' delta len,
    NCCLHierarchicalAllreduce_DoAllreduce example_DataType_Name 64 healthy_runtime
      (example_worker false true 1)
      [example_entry "a" HOROVOD_FLOAT32 4000 1; example_entry "b" HOROVOD_FLOAT32 104 1]
      8192 8192 1026 4104 (bound_state 1 77 [0; 1] 88) = (Ok (1152, len), s') /\
    trace s' = delta /\
    data_path delta =
      [ncclReduceScatter 8192 10496 576 ncclFloat32 ncclSum 88 77;
       malloc 2304;
       cudaMemcpyAsync (host_buffer_ s') 10496 2304 cudaMemcpyDeviceToHost 77;
       Channel_Allreduce (host_buffer_ s') 576
         (example_entry "a" HOROVOD_FLOAT32 4000 1) CROSS;
       cudaMemcpyAsync 10496 (host_buffer_ s') 2304 cudaMemcpyHostToDevice 77;
       ncclAllGather 10496 8192 576 ncclFloat32 88 77] /\
    device_collectives delta =
      [ncclReduceScatter 8192 10496 576 ncclFloat32 ncclSum 88 77;
       ncclAllGather 10496 8192 576 ncclFloat32 88 77].
Proof.
  destruct (fused_batch_has_no_tail example_DataType_Name 64 healthy_runtime
              (example_worker false true 1) (example_entry "a" HOROVOD_FLOAT32 4000 1)
              (example_entry "b" HOROVOD_FLOAT32 104 1) []
              8192 8192 1026 4104 ncclFloat32 1 77 [0; 1] 88 (bound_state 1 77 [0; 1] 88)
              healthy_runtime_succeeds eq_refl (bound_state_bound 1 77 [0; 1] 88)
              eq_refl ltac:(simpl; lia) ltac:(lia) ltac:(simpl; lia) ltac:(lia)
              ltac:(simpl; lia))
    as (_ & _ & s' & delta & len & Hrun & Ht & Hdp & Hdc).
  exists s', delta, len. split; [exact Hrun |]. split; [exact Ht |].
  split; [exact Hdp | exact Hdc].
Defined.

(** ** Copies into and out of the fusion buffer *)

(** X18.  The copy of an entry into the fusion buffer and the copy back out of
    it mirror each other: the same offset in the buffer, the same byte
    count (the size of the entry's input tensor, also for the copy into
    the output), device to device, both on the stream of the device of the
    first entry of the batch, whatever device the copied entry names.  A
    device without a stream gets a null slot in the stream table and the
    copies go to the null stream. *)
Theorem fusion_copies_mirror_each_other
    (rt : Runtime) (buffer_data_at_offset : Z) (e first_entry : TensorTableEntry)
    (more_entries : list TensorTableEntry) (s : State) :
  (forall n, cuda_status rt n = cudaSuccess) ->
  let stream := default nullptr (streams s !! device first_entry) in
  exists s1 s2,
    MemcpyInFusionBuffer rt buffer_data_at_offset e (first_entry :: more_entries) s
      = (Ok tt, s1) /\
    MemcpyOutFusionBuffer rt buffer_data_at_offset e (first_entry :: more_entries) s1
      = (Ok tt, s2) /\
    trace s2 = trace s
               ++ [cudaMemcpyAsync buffer_data_at_offset (tensor_data e)
                     (size_t (tensor_size e)) cudaMemcpyDeviceToDevice stream;
                   cudaMemcpyAsync (output_data e) buffer_data_at_offset
                     (size_t (tensor_size e)) cudaMemcpyDeviceToDevice stream] /\
    streams s2 !! device first_entry = Some stream.
Proof.
  intros Hok stream.
  assert (exists s0,
            streams_at (device first_entry) s = (Ok stream, s0) /\
            streams s0 !! device first_entry = Some stream /\
            trace s0 = trace s) as (s0 & E0 & L0 & T0).
  { subst stream. unfold streams_at.
    destruct (streams s !! device first_entry) as [stream |] eqn:E; simpl.
    - exists s. auto.
    - eexists. split; [reflexivity |]. split; [apply lookup_insert_eq | reflexivity]. }
  unfold MemcpyInFusionBuffer, MemcpyOutFusionBuffer.
  rewrite (bind_Ok _ _ s s first_entry) by reflexivity.
  rewrite (bind_Ok _ _ _ _ _ E0).
  match goal with
  | |- context [cuda_call rt ?c] =>
      set (s1 := log c s0);
      rewrite (bind_Ok _ _ s0 s1 cudaSuccess)
        by (unfold cuda_call, call, bind, ret; simpl; rewrite Hok; reflexivity)
  end.
  exists s1. eexists. split; [reflexivity |].
  rewrite (bind_Ok _ _ s1 s1 first_entry) by reflexivity.
  rewrite (bind_Ok _ _ s1 s1 stream)
    by (unfold streams_at; subst s1; simpl; rewrite L0; reflexivity).
  match goal with
  | |- context [cuda_call rt ?c] =>
      rewrite (bind_Ok _ _ s1 (log c s1) cudaSuccess)
        by (unfold cuda_call, call, bind, ret; simpl; rewrite Hok; reflexivity)
  end.
  split; [reflexivity |]. simpl. rewrite T0, <- app_assoc.
  split; [reflexivity | exact L0].
Qed.

(** The second entry of the batch names GPU 3; its copies go on stream 77
    of GPU 1, the device of the first entry. *)
Lemma fusion_copies_mirror_each_other_witness :
  exists s1 s2,
    MemcpyInFusionBuffer healthy_runtime 5000 (example_entry "b" HOROVOD_FLOAT32 16 3)
      [example_entry "a" HOROVOD_FLOAT32 16 1; example_entry "b" HOROVOD_FLOAT32 16 3]
      (bound_state 1 77 [0; 1] 88) = (Ok tt, s1) /\
    MemcpyOutFusionBuffer healthy_runtime 5000 (example_entry "b" HOROVOD_FLOAT32 16 3)
      [example_entry "a" HOROVOD_FLOAT32 16 1; example_entry "b" HOROVOD_FLOAT32 16 3]
      s1 = (Ok tt, s2) /\
    trace s2 = [cudaMemcpyAsync 5000 1024 16 cudaMemcpyDeviceToDevice 77;
                cudaMemcpyAsync 2048 5000 16 cudaMemcpyDeviceToDevice 77].
Proof.
  destruct (fusion_copies_mirror_each_other healthy_runtime 5000
              (example_entry "b" HOROVOD_FLOAT32 16 3)
              (example_entry "a" HOROVOD_FLOAT32 16 1)
              [example_entry "b" HOROVOD_FLOAT32 16 3]
              (bound_state 1 77 [0; 1] 88) (fun _ => eq_refl))
    as (s1 & s2 & E1 & E2 & T & _).
  exists s1, s2. split; [exact E1 |]. split; [exact E2 | exact T].
Defined.

(** ** A failed copy to the host *)

(** X19.  When the copy of the shard to the host buffer fails, the cross-node
    phase throws "cudaMemcpyAsync failed: ..." with the host buffer
    allocated and the op's pointer set to it: nothing is reduced across the
    nodes, the buffer is not freed, and the timeline span of the copy stays
    open.  (The event queue is empty on entry, as it is when the timeline
    is off.) *)
Theorem failed_host_copy_keeps_buffer
    (rt : Runtime) (gs : HorovodGlobalState) (entries : list TensorTableEntry)
    (first_entry : TensorTableEntry) (at_rank_offset total_elements total_len : Z)
    (s : State) (dev stream : Z) (key : list Z) (comm : Z) (code : Z) :
  is_homogeneous gs || is_root_rank gs = true ->
  bound s dev stream key comm ->
  event_queue_ s = [] ->
  cuda_status rt (length (trace s) + 2) = cudaError code ->
  exists s',
    cross_node_phase rt gs entries first_entry at_rank_offset total_elements total_len s
      = (Throw ("cudaMemcpyAsync failed: " +:+ cudaGetErrorString rt (cudaError code)),
         s') /\
    trace s' = trace s
               ++ [malloc total_len;
                   Timeline_ActivityStartAll MEMCPY_IN_HOST_BUFFER;
                   cudaMemcpyAsync (new_handle rt (length (trace s))) at_rank_offset
                     total_len cudaMemcpyDeviceToHost stream] /\
    host_buffer_ s' = new_handle rt (length (trace s)).
Proof.
  intros Hhost Hb Hq Hfail. unfold cross_node_phase. rewrite Hhost.
  set (s1 := log (malloc total_len) s).
  rewrite (bind_Ok _ _ s s1 (length (trace s))) by reflexivity.
  set (s2 := set_host_buffer_ (new_handle rt (length (trace s))) s1).
  rewrite (bind_Ok _ _ s1 s2 tt) by reflexivity.
  rewrite (bind_Ok _ _ s2 s2 tt)
    by (unfold WaitForEvents;
        rewrite (bind_Ok _ _ s2 s2 (event_queue_ s2)) by reflexivity;
        subst s2 s1; simpl; rewrite Hq; reflexivity).
  set (s3 := log (Timeline_ActivityStartAll MEMCPY_IN_HOST_BUFFER) s2).
  rewrite (bind_Ok _ _ s2 s3 (length (trace s2))) by reflexivity.
  rewrite (bind_Ok _ _ s3 s3 (new_handle rt (length (trace s)))) by reflexivity.
  assert (bound s3 dev stream key comm) as Hb3
    by (destruct Hb; split; assumption).
  rewrite (bind_Ok _ _ _ _ _ (deref_stream_bound _ _ _ _ _ Hb3)).
  assert (length (trace s3) = (length (trace s) + 2)%nat) as Hlen
    by (subst s3 s2 s1; simpl; rewrite !length_app; simpl; lia).
  match goal with
  | |- context [cuda_call rt ?c] =>
      rewrite (bind_Ok _ _ s3 (log c s3) (cudaError code))
        by (unfold cuda_call, call, bind, ret; cbv beta iota; rewrite Hlen, Hfail;
            reflexivity)
  end.
  eexists. split; [reflexivity |]. simpl. rewrite <- !app_assoc.
  split; reflexivity.
Qed.

(** On the root rank of the second node the third call of the phase, the
    copy to the host, fails. *)
Lemma failed_host_copy_keeps_buffer_witness :
  exists s',
    cross_node_phase (cuda_failing_at 2) (example_worker false true 1)
      [example_entry "t" HOROVOD_FLOAT32 12 1] (example_entry "t" HOROVOD_FLOAT32 12 1)
      1004 2 8 (bound_state 1 77 [0; 1] 88)
      = (Throw "cudaMemcpyAsync failed: unspecified launch failure", s') /\
    trace s' = [malloc 8; Timeline_ActivityStartAll MEMCPY_IN_HOST_BUFFER;
                cudaMemcpyAsync 4096 1004 8 cudaMemcpyDeviceToHost 77] /\
    host_buffer_ s' = 4096.
Proof.
  exact (failed_host_copy_keeps_buffer (cuda_failing_at 2) (example_worker false true 1)
           [example_entry "t" HOROVOD_FLOAT32 12 1] (example_entry "t" HOROVOD_FLOAT32 12 1)
           1004 2 8 (bound_state 1 77 [0; 1] 88) 1 77 [0; 1] 88 700
           eq_refl (bound_state_bound 1 77 [0; 1] 88) eq_refl eq_refl).
Defined.

(** ** The state a job starts from *)



(** ** A job without the timeline *)

Lemma log_all_trace (calls : list Call) (s : State) :
  trace (log_all calls s) = trace s ++ calls.
Proof.
  revert s. induction calls as [| c calls IH]; intros s; simpl.
  - rewrite app_nil_r. reflexivity.
  - unfold log_all in IH. rewrite IH. simpl. rewrite <- app_assoc. reflexivity.
Qed.

Lemma log_all_frame (calls : list Call) (s : State) :
  event_queue_ (log_all calls s) = event_queue_ s /\
  cuda_events (log_all calls s) = cuda_events s /\
  host_buffer_ (log_all calls s) = host_buffer_ s /\
  forall dev stream key comm,
    bound s dev stream key comm -> bound (log_all calls s) dev stream key comm.
Proof.
  revert s. induction calls as [| c calls IH]; intros s; simpl.
  - auto.
  - destruct (IH (log c s)) as (H1 & H2 & H3 & H4). unfold log_all in *.
    rewrite H1, H2, H3.
    split; [reflexivity |]. split; [reflexivity |]. split; [reflexivity |].
    intros dev stream key comm Hb. apply H4. destruct Hb; split; assumption.
Qed.

(** Without the timeline a collective records no event: the call is all
    it does. *)
Lemma untraced_collective (DataType_Name : DataType -> string) (rt : Runtime)
    (gs : HorovodGlobalState) (mk : ncclDataType_t -> Z -> Z -> Call)
    op_name event_name entries first_entry dt s dev stream key comm :
  timeline_initialized gs = false ->
  (forall n, nccl_status rt n = ncclSuccess) ->
  GetNCCLDataType DataType_Name (tensor_dtype first_entry) = Ok dt ->
  bound s dev stream key comm ->
  (dt <- lift (GetNCCLDataType DataType_Name (tensor_dtype first_entry)) ;;
   comm <- deref_nccl_comm_ ;;
   stream <- deref_stream_ ;;
   nccl_result <- nccl_call rt (mk dt comm stream) ;;
   NCCLContext_ErrorCheck rt op_name nccl_result ;;;
   RecordEventEnd rt gs event_name entries) s
  = (Ok tt, log_all [mk dt comm stream] s).
Proof.
  intros Htl Hok Hdt Hb. rewrite Hdt.
  rewrite (bind_Ok _ _ s s dt) by reflexivity.
  rewrite (bind_Ok _ _ _ _ _ (deref_nccl_comm_bound _ _ _ _ _ Hb)).
  rewrite (bind_Ok _ _ _ _ _ (deref_stream_bound _ _ _ _ _ Hb)).
  rewrite (bind_Ok _ _ s (log (mk dt comm stream) s) ncclSuccess)
    by (unfold nccl_call, call, bind, ret; simpl; rewrite Hok; reflexivity).
  rewrite (bind_Ok _ _ _ (log (mk dt comm stream) s) tt) by reflexivity.
  unfold RecordEventEnd. rewrite Htl. reflexivity.
Qed.

(** X21.  With the timeline off, a hierarchical allreduce job on an op
    whose event queue is empty (as [Initialize] leaves it) uses no event at
    all: its calls are exactly the collectives of the split and, between
    them, the host phase - allocation, copy to the host, cross-node
    allreduce, copy back, each inside its timeline span; nothing is
    recorded or waited on before the copy to the host, the event queue is
    still empty afterwards and the event pools are untouched. *)
Theorem untraced_job_uses_no_events
    (DataType_Name : DataType -> string) (atom : Z) (rt : Runtime)
    (gs : HorovodGlobalState) (first_entry : TensorTableEntry)
    (more_entries : list TensorTableEntry)
    (fused_input_data buffer_data num_elements buffer_len : Z)
    (dt : ncclDataType_t) (dev stream : Z) (key : list Z) (comm : Z) (s : State) :
  timeline_initialized gs = false ->
  runtime_succeeds rt ->
  GetNCCLDataType DataType_Name (tensor_dtype first_entry) = Ok dt ->
  bound s dev stream key comm ->
  event_queue_ s = [] ->
  let E := effective_num_elements atom gs first_entry more_entries num_elements in
  exists s' len,
    NCCLHierarchicalAllreduce_DoAllreduce DataType_Name atom rt gs
      (first_entry :: more_entries) fused_input_data buffer_data
      num_elements buffer_len s = (Ok (E, len), s') /\
    trace s' = trace s
      ++ reduce_scatter_calls rt gs first_entry fused_input_data buffer_data E
           dt comm stream
      ++ reduce_calls rt gs first_entry fused_input_data buffer_data E dt comm stream
      ++ host_phase_calls rt gs first_entry buffer_data E stream (host_buffer_ s')
      ++ allgather_calls rt gs first_entry buffer_data E dt comm stream
      ++ bcast_calls rt gs first_entry buffer_data E dt comm stream /\
    event_queue_ s' = [] /\
    cuda_events s' = cuda_events s.
Proof.
  intros Htl Hrt Hdt Hb Hq E.
  pose proof (nccl_ok rt Hrt) as Hnccl. pose proof (cuda_ok rt Hrt) as Hcuda.
  unfold NCCLHierarchicalAllreduce_DoAllreduce.
  rewrite (bind_Ok _ _ s s first_entry) by reflexivity.
  cbv zeta.
  fold (effective_num_elements atom gs first_entry more_entries num_elements).
  fold E.
  set (es := type_size rt (tensor_dtype first_entry)).
  (* the reduce-scatter *)
  set (c1 := reduce_scatter_calls rt gs first_entry fused_input_data buffer_data E
               dt comm stream).
  set (s1 := log_all c1 s).
  assert (reduce_scatter_phase DataType_Name rt gs (first_entry :: more_entries)
            first_entry fused_input_data (buffer_data_at_rank_offset gs es buffer_data E)
            (num_elements_per_rank gs E) s = (Ok tt, s1)) as E1.
  { subst s1 c1. unfold reduce_scatter_phase, reduce_scatter_calls.
    destruct (num_elements_per_rank gs E >? 0); [| reflexivity].
    apply (untraced_collective DataType_Name rt gs
             (fun dt comm stream => ncclReduceScatter _ _ _ dt ncclSum comm stream)
             _ _ _ _ _ _ _ _ _ _ Htl Hnccl Hdt Hb). }
  rewrite (bind_Ok _ _ _ _ _ E1).
  destruct (log_all_frame c1 s) as (Q1 & C1 & B1 & Hb1). specialize (Hb1 _ _ _ _ Hb).
  fold s1 in Q1, C1, B1, Hb1.
  (* the reduce of the tail *)
  set (c2 := reduce_calls rt gs first_entry fused_input_data buffer_data E dt comm stream).
  set (s2 := log_all c2 s1).
  assert (reduce_phase DataType_Name rt gs (first_entry :: more_entries) first_entry
            (fused_input_data + remainder_offset gs es E)
            (buffer_data + remainder_offset gs es E)
            (num_elements_remaining gs E) s1 = (Ok tt, s2)) as E2.
  { subst s2 c2. unfold reduce_phase, reduce_calls.
    destruct (num_elements_remaining gs E >? 0); [| reflexivity].
    apply (untraced_collective DataType_Name rt gs
             (fun dt comm stream => ncclReduce _ _ _ dt ncclSum _ comm stream)
             _ _ _ _ _ _ _ _ _ _ Htl Hnccl Hdt Hb1). }
  rewrite (bind_Ok _ _ _ _ _ E2).
  destruct (log_all_frame c2 s1) as (Q2 & C2 & B2 & Hb2). specialize (Hb2 _ _ _ _ Hb1).
  fold s2 in Q2, C2, B2, Hb2.
  (* the host phase *)
  assert (exists s3,
            cross_node_phase rt gs (first_entry :: more_entries) first_entry
              (buffer_data_at_rank_offset gs es buffer_data E)
              (total_num_elements gs E) (total_buffer_len gs es E) s2 = (Ok tt, s3) /\
            trace s3 = trace s2
                       ++ host_phase_calls rt gs first_entry buffer_data E stream
                            (host_buffer_ s3) /\
            event_queue_ s3 = event_queue_ s2 /\
            cuda_events s3 = cuda_events s2 /\
            bound s3 dev stream key comm) as (s3 & E3 & T3 & Q3 & C3 & Hb3).
  { unfold cross_node_phase, host_phase_calls, job_rank_offset, job_element_size.
    fold es.
    destruct (is_homogeneous gs || is_root_rank gs).
    2: { exists s2. rewrite app_nil_r. auto. }
    set (len := total_buffer_len gs es E).
    set (off := buffer_data_at_rank_offset gs es buffer_data E).
    set (p := new_handle rt (length (trace s2))).
    set (sa := set_host_buffer_ p (log (malloc len) s2)).
    rewrite (bind_Ok _ _ s2 (log (malloc len) s2) (length (trace s2))) by reflexivity.
    rewrite (bind_Ok _ _ _ sa tt) by reflexivity.
    rewrite (bind_Ok _ _ sa sa tt)
      by (unfold WaitForEvents;
          rewrite (bind_Ok _ _ sa sa (event_queue_ sa)) by reflexivity;
          subst sa; simpl; rewrite Q2, Q1, Hq; reflexivity).
    assert (bound sa dev stream key comm) as Hba by (destruct Hb2; split; assumption).
    set (sb := log (Timeline_ActivityStartAll MEMCPY_IN_HOST_BUFFER) sa).
    rewrite (bind_Ok _ _ sa sb (length (trace sa))) by reflexivity.
    rewrite (bind_Ok _ _ sb sb p) by reflexivity.
    assert (bound sb dev stream key comm) as Hbb by (destruct Hba; split; assumption).
    rewrite (bind_Ok _ _ _ _ _ (deref_stream_bound _ _ _ _ _ Hbb)).
    set (sc := log (cudaMemcpyAsync p off len cudaMemcpyDeviceToHost stream) sb).
    rewrite (bind_Ok _ _ sb sc cudaSuccess)
      by (unfold cuda_call, call, bind, ret; cbv beta iota; rewrite Hcuda; reflexivity).
    rewrite (bind_Ok _ _ sc sc tt) by reflexivity.
    set (sd := log (Timeline_ActivityStartAll MEMCPY_OUT_HOST_BUFFER)
                 (log Timeline_ActivityEndAll
                    (log (Channel_Allreduce p (total_num_elements gs E) first_entry CROSS)
                       (log (Timeline_ActivityStartAll MPI_ALLREDUCE)
                          (log Timeline_ActivityEndAll sc))))).
    rewrite (bind_Ok _ _ sc (log Timeline_ActivityEndAll sc) (length (trace sc)))
      by reflexivity.
    rewrite (bind_Ok _ _ _ (log (Timeline_ActivityStartAll MPI_ALLREDUCE)
                              (log Timeline_ActivityEndAll sc))
               (length (trace (log Timeline_ActivityEndAll sc)))) by reflexivity.
    do 3 (match goal with
          | |- context [bind (call ?c) _ ?st] =>
              rewrite (bind_Ok _ _ st (log c st) (length (trace st))) by reflexivity
          end).
    fold sd.
    set (se := log (cudaMemcpyAsync off p len cudaMemcpyHostToDevice stream) sd).
    rewrite (bind_Ok _ _ sd se cudaSuccess)
      by (unfold cuda_call, call, bind, ret; cbv beta iota; rewrite Hcuda; reflexivity).
    rewrite (bind_Ok _ _ se se tt) by reflexivity.
    rewrite (bind_Ok _ _ se (log Timeline_ActivityEndAll se) (length (trace se)))
      by reflexivity.
    eexists. split; [reflexivity |]. unfold ret.
    split; [| split; [reflexivity | split; [reflexivity |]]].
    - simpl. rewrite <- !app_assoc. reflexivity.
    - destruct Hb2; split; assumption. }
  rewrite (bind_Ok _ _ _ _ _ E3).
  (* the allgather *)
  set (c4 := allgather_calls rt gs first_entry buffer_data E dt comm stream).
  set (s4 := log_all c4 s3).
  assert (allgather_phase DataType_Name rt gs (first_entry :: more_entries) first_entry
            (buffer_data_at_rank_offset gs es buffer_data E) buffer_data
            (num_elements_per_rank gs E) s3 = (Ok tt, s4)) as E4.
  { subst s4 c4. unfold allgather_phase, allgather_calls.
    destruct (num_elements_per_rank gs E >? 0); [| reflexivity].
    apply (untraced_collective DataType_Name rt gs
             (fun dt comm stream => ncclAllGather _ _ _ dt comm stream)
             _ _ _ _ _ _ _ _ _ _ Htl Hnccl Hdt Hb3). }
  rewrite (bind_Ok _ _ _ _ _ E4).
  destruct (log_all_frame c4 s3) as (Q4 & C4 & B4 & Hb4). specialize (Hb4 _ _ _ _ Hb3).
  fold s4 in Q4, C4, B4, Hb4.
  (* the broadcast of the tail *)
  set (c5 := bcast_calls rt gs first_entry buffer_data E dt comm stream).
  set (s5 := log_all c5 s4).
  assert (bcast_phase DataType_Name rt gs (first_entry :: more_entries) first_entry
            (buffer_data + remainder_offset gs es E)
            (num_elements_remaining gs E) s4 = (Ok tt, s5)) as E5.
  { subst s5 c5. unfold bcast_phase, bcast_calls.
    destruct (num_elements_remaining gs E >? 0); [| reflexivity].
    apply (untraced_collective DataType_Name rt gs
             (fun dt comm stream => ncclBcast _ _ dt _ comm stream)
             _ _ _ _ _ _ _ _ _ _ Htl Hnccl Hdt Hb4). }
  rewrite (bind_Ok _ _ _ _ _ E5).
  destruct (log_all_frame c5 s4) as (Q5 & C5 & B5 & _).
  fold s5 in Q5, C5, B5.
  exists s5. eexists. split; [reflexivity |].
  split; [| split].
  - assert (host_buffer_ s5 = host_buffer_ s3) as Hh by (rewrite B5, B4; reflexivity).
    rewrite Hh. unfold s5, s4. rewrite !log_all_trace, T3. unfold s2, s1.
    rewrite !log_all_trace, <- !app_assoc. reflexivity.
  - rewrite Q5, Q4, Q3, Q2, Q1. exact Hq.
  - rewrite C5, C4, C3, C2, C1. reflexivity.
Qed.

(** Scenario 4 of the spec on the root rank, the timeline off: a reduce
    scatter, the reduce of the tail, the host phase, the allgather and the
    broadcast, and not one event call. *)
Lemma untraced_job_uses_no_events_witness :
  exists s' len,
    NCCLHierarchicalAllreduce_DoAllreduce example_DataType_Name 64 healthy_runtime
      (example_worker false true 1) [example_entry "t" HOROVOD_FLOAT32 12 1]
      3000 1000 3 12 (bound_state 1 77 [0; 1] 88) = (Ok (3, len), s') /\
    length (trace s') = 14%nat /\
    event_queue_ s' = [] /\
    cuda_events s' = ∅.
Proof.
  destruct (untraced_job_uses_no_events example_DataType_Name 64 healthy_runtime
              (example_worker false true 1) (example_entry "t" HOROVOD_FLOAT32 12 1) []
              3000 1000 3 12 ncclFloat32 1 77 [0; 1] 88 (bound_state 1 77 [0; 1] 88)
              eq_refl healthy_runtime_succeeds eq_refl
              (bound_state_bound 1 77 [0; 1] 88) eq_refl)
    as (s' & len & E & T & Q & C).
  exists s', len. split; [exact E |]. split; [| split; [exact Q | exact C]].
  rewrite T. reflexivity.
Defined.
